(** * photo-color: the deterministic pipeline logic, embedded and verified

    The development follows the TypeScript sources:
    - [lib/pipeline/types.ts]      the data model (zod schemas, model list);
    - [lib/pipeline/analyzer.ts]   [imageAnalysisToAnalysisResult] and helpers;
    - [lib/prompts/generation.ts]  the prompt builders and inference table;
    - [lib/batch/types.ts]         batch constants and [buildOutputFileName];
    - [lib/pipeline/post-process.ts] the call chain of the post-processor;
    - [app/batch/actions.ts]       the server actions of a batch run;
    - [app/batch/page.tsx]         [handleRunAll] and [handleSave];
    - [lib/batch/storage.ts], [app/results/[id]]  the ratings of a stored run;
    - [app/api/test-images/[...path]/route.ts]    the image route;
    - [lib/pipeline/orchestrator.ts]              the single-image pipeline.

    Conventions of the embedding.
    - A JavaScript string is a [string]; one character of the model is one
      UTF-16 code unit below 256.  The prompt templates hold a few em dashes
      (U+2014), kept in the literals as the bytes of the file; nothing below
      looks inside those templates.
    - A JavaScript number that the schema declares [int()] is a [Z]; the
      other numbers (bounding boxes, guidance scales, clock reads and the
      timings made from them) are binary64 [float]s, compared and
      subtracted with the primitive operations as the source does.
    - [undefined] / an optional field is an [option].
    - An awaited call is a function on an explicit world: it returns a
      value or throws, and leaves a new world.  The remote services, the
      disk and the clock are fields of a [Services] record; the server
      actions and the page handlers are written over it. *)

From Stdlib Require Import ZArith String Ascii Bool Lia.
From Stdlib Require Import Floats.PrimFloat.
From stdpp Require Import base list strings gmap.

Set Default Proof Using "Type".
Local Open Scope string_scope.
Local Open Scope list_scope.
Local Open Scope Z_scope.

(** ** JavaScript string and array primitives used by the sources *)

Module JS.

(** [s.split(sep)] for a one-character separator: never the empty array. *)
Fixpoint split (sep : ascii) (s : string) : list string :=
  match s with
  | EmptyString => [EmptyString]
  | String c rest =>
      if Ascii.eqb c sep then EmptyString :: split sep rest
      else match split sep rest with
           | [] => [String c EmptyString]
           | w :: ws => String c w :: ws
           end
  end.

(** [arr.join(sep)]. *)
Definition join (sep : string) (l : list string) : string :=
  String.concat sep l.

(** Truthiness of a string: [Boolean(s)], [if (s)]. *)
Definition truthy (s : string) : bool :=
  match s with EmptyString => false | String _ _ => true end.

(** [String.prototype.toLowerCase] on code units below 256: the ASCII
    capitals and the Latin-1 capitals U+00C0..U+00DE (U+00D7 apart). *)
Definition toLowerChar (c : ascii) : ascii :=
  let n := N_of_ascii c in
  if (((65 <=? n) && (n <=? 90))
      || ((192 <=? n) && (n <=? 222) && negb (n =? 215)))%N
  then ascii_of_N (n + 32) else c.

Fixpoint toLowerCase (s : string) : string :=
  match s with
  | EmptyString => EmptyString
  | String c rest => String (toLowerChar c) (toLowerCase rest)
  end.

(** [s.startsWith(p)]. *)
Fixpoint startsWith (p s : string) : bool :=
  match p, s with
  | EmptyString, _ => true
  | String a p', String b s' => Ascii.eqb a b && startsWith p' s'
  | String _ _, EmptyString => false
  end.

(** [s.includes(sub)]. *)
Fixpoint includes (sub s : string) : bool :=
  startsWith sub s
  || match s with
     | EmptyString => false
     | String _ rest => includes sub rest
     end.

(** [s.endsWith(p)]. *)
Fixpoint endsWith (p s : string) : bool :=
  String.eqb p s
  || match s with
     | EmptyString => false
     | String _ rest => endsWith p rest
     end.

(** The characters left after a prefix of [n] characters. *)
Fixpoint drop (n : nat) (s : string) : string :=
  match n, s with
  | O, _ => s
  | S n', String _ rest => drop n' rest
  | S _, EmptyString => EmptyString
  end.

(** [s.replace(/^p/, "")] for a literal pattern [p]. *)
Definition stripPrefix (p s : string) : string :=
  if startsWith p s then drop (String.length p) s else s.

(** [s.replace(/p$/, "")] for a literal pattern [p] without line ends. *)
Fixpoint stripSuffix (p s : string) : string :=
  if String.eqb p s then EmptyString
  else match s with
       | EmptyString => EmptyString
       | String c rest =>
           if endsWith p rest then String c (stripSuffix p rest) else s
       end.

(** [s.replace(/[^...]/g, r)]: every code unit outside a class becomes [r]. *)
Fixpoint replaceOutside (keep : ascii -> bool) (r : ascii) (s : string) : string :=
  match s with
  | EmptyString => EmptyString
  | String c rest =>
      String (if keep c then c else r) (replaceOutside keep r rest)
  end.

End JS.

(** ** Data model: [lib/pipeline/types.ts] *)

Inductive ComplexityLevel := toddler | child | tween | adult.

Inductive PromptVariant := direct_transform | preservation_heavy | simplification_heavy.

Inductive Category := cat_subject | cat_object | cat_background | cat_accessory.

Inductive BackgroundStrategy :=
  bs_remove | bs_simplify | bs_preserve_structure | bs_preserve_detail.

Inductive PhotoType := portrait | group | pet | landscape | landmark | other.

(** The string a [PhotoType] value is at run time (a zod enum of strings). *)
Definition PhotoType_str (p : PhotoType) : string :=
  match p with
  | portrait => "portrait" | group => "group" | pet => "pet"
  | landscape => "landscape" | landmark => "landmark" | other => "other"
  end.

Definition ComplexityLevel_str (c : ComplexityLevel) : string :=
  match c with
  | toddler => "toddler" | child => "child" | tween => "tween" | adult => "adult"
  end.

Definition PromptVariant_str (v : PromptVariant) : string :=
  match v with
  | direct_transform => "direct-transform"
  | preservation_heavy => "preservation-heavy"
  | simplification_heavy => "simplification-heavy"
  end.

Record DetectedElement := {
  el_label : string;
  el_importance : Z;
  el_category : Category;
  el_description : string
}.

Record FaceRegion := {
  face_description : string;
  face_position : string;
  face_distinguishingFeatures : list string
}.

Record AnalysisResult := {
  elements : list DetectedElement;
  faceRegions : list FaceRegion;
  sceneDescription : string;
  spatialLayout : string;
  backgroundStrategy : BackgroundStrategy
}.

Record BoundingBox := {
  bb_x : float;
  bb_y : float;
  bb_width : float;
  bb_height : float
}.

Record Subject := {
  subj_description : string;
  boundingBox : BoundingBox;
  distinctiveFeatures : list string
}.

Record BackgroundInfo := {
  bg_description : string;
  bg_complexity : Z;
  keyElements : list string
}.

Record SimplificationTarget := {
  st_element : string;
  st_reason : string;
  applicableComplexity : list ComplexityLevel
}.

Record ImageAnalysis := {
  photoType : PhotoType;
  subjects : list Subject;
  background : BackgroundInfo;
  preservationPriorities : list string;
  simplificationTargets : list SimplificationTarget
}.

(** ** The analyzer's mapper: [lib/pipeline/analyzer.ts] *)

(** The binary64 values of the literals [0.33] and [0.66], written exactly. *)
Definition lit_0_33 : float := 0x1.51eb851eb851fp-2%float.
Definition lit_0_66 : float := 0x1.51eb851eb851fp-1%float.

(** [bboxToPosition]: reads the [x] and [y] fields only. *)
Definition bboxToPosition (bbox : BoundingBox) : string :=
  let horizontal :=
    if PrimFloat.ltb (bb_x bbox) lit_0_33 then "left"
    else if PrimFloat.ltb lit_0_66 (bb_x bbox) then "right"
    else "" in
  let vertical :=
    if PrimFloat.ltb (bb_y bbox) lit_0_33 then "top"
    else if PrimFloat.ltb lit_0_66 (bb_y bbox) then "bottom"
    else "" in
  if JS.truthy horizontal && JS.truthy vertical then vertical +:+ "-" +:+ horizontal
  else if JS.truthy horizontal then horizontal
  else if JS.truthy vertical then vertical
  else "center".

(** [deriveBackgroundStrategy(complexity, photoType)]; [photoType] is a
    plain string in the source. *)
Definition deriveBackgroundStrategy (complexity : Z) (photoType : string)
  : BackgroundStrategy :=
  if String.eqb photoType "landmark" then bs_preserve_detail
  else if String.eqb photoType "landscape" then bs_preserve_structure
  else if (complexity <=? 2)%Z then bs_remove
  else if (complexity <=? 5)%Z then bs_simplify
  else if (complexity <=? 8)%Z then bs_preserve_structure
  else bs_preserve_detail.

(** The predicate of the [filter] that selects face subjects. *)
Definition isFaceSubject (analysis : ImageAnalysis) (s : Subject) : bool :=
  let d := JS.toLowerCase (subj_description s) in
  (0 <? length (distinctiveFeatures s))%nat
  && (String.eqb (PhotoType_str (photoType analysis)) "portrait"
      || String.eqb (PhotoType_str (photoType analysis)) "group"
      || JS.includes "person" d
      || JS.includes "man" d
      || JS.includes "woman" d
      || JS.includes "boy" d
      || JS.includes "girl" d
      || JS.includes "child" d).

Definition subjectToFaceRegion (subject : Subject) : FaceRegion :=
  {| face_description := subj_description subject;
     face_position := bboxToPosition (boundingBox subject);
     face_distinguishingFeatures := distinctiveFeatures subject |}.

Definition subjectElement (i : nat) (subject : Subject) : DetectedElement :=
  {| el_label := JS.join " " (take 3 (JS.split " " (subj_description subject)));
     el_importance := Z.of_nat i + 1;
     el_category := cat_subject;
     el_description := subj_description subject |}.

Definition backgroundElement (nsubjects : nat) (i : nat) (element : string)
  : DetectedElement :=
  {| el_label := element;
     el_importance := Z.of_nat nsubjects + Z.of_nat i + 1;
     el_category := cat_background;
     el_description := element |}.

Definition sceneElement (analysis : ImageAnalysis) : DetectedElement :=
  {| el_label := "scene";
     el_importance := 1;
     el_category := cat_subject;
     el_description := bg_description (background analysis) |}.

Definition imageAnalysisToAnalysisResult (analysis : ImageAnalysis) : AnalysisResult :=
  let subjectElements := imap subjectElement (subjects analysis) in
  let backgroundElements :=
    imap (backgroundElement (length (subjects analysis)))
         (keyElements (background analysis)) in
  let elements0 := subjectElements ++ backgroundElements in
  let elements1 :=
    if (length elements0 =? 0)%nat then elements0 ++ [sceneElement analysis]
    else elements0 in
  let faces :=
    map subjectToFaceRegion
        (List.filter (isFaceSubject analysis) (subjects analysis)) in
  let strategy :=
    deriveBackgroundStrategy (bg_complexity (background analysis))
                             (PhotoType_str (photoType analysis)) in
  let scene :=
    if (0 <? length (subjects analysis))%nat
    then PhotoType_str (photoType analysis) +:+ ": "
         +:+ JS.join ", " (map subj_description (subjects analysis))
         +:+ " with " +:+ bg_description (background analysis)
    else bg_description (background analysis) in
  let layout :=
    if String.eqb (PhotoType_str (photoType analysis)) "portrait" then "portrait close-up"
    else if String.eqb (PhotoType_str (photoType analysis)) "group" then "group scene"
    else if String.eqb (PhotoType_str (photoType analysis)) "landscape" then "landscape"
    else PhotoType_str (photoType analysis) in
  {| elements := elements1;
     faceRegions := faces;
     sceneDescription := scene;
     spatialLayout := layout;
     backgroundStrategy := strategy |}.

(** ** Prompt composition: [lib/prompts/generation.ts] *)

Record ComplexityConfig := {
  lineWeight : string;
  detailLevel : string;
  regionSize : string;
  ageDescription : string;
  additionalInstructions : string
}.

Definition COMPLEXITY_CONFIG (level : ComplexityLevel) : ComplexityConfig :=
  match level with
  | toddler =>
      {| lineWeight := "very thick, bold outlines (6-8px equivalent)";
         detailLevel := "extremely simplified, only the most basic shapes";
         regionSize := "very large coloring regions, no small details";
         ageDescription := "toddlers ages 2-4";
         additionalInstructions :=
           "Reduce everything to basic geometric shapes. No small details, no textures, no patterns. Maximum 8-10 distinct regions to color." |}
  | child =>
      {| lineWeight := "thick, clear outlines (4-6px equivalent)";
         detailLevel := "simplified but recognizable, moderate detail";
         regionSize := "medium to large coloring regions";
         ageDescription := "children ages 5-8";
         additionalInstructions :=
           "Keep shapes recognizable but simplified. Include some detail in clothing and hair. Around 15-25 distinct coloring regions." |}
  | tween =>
      {| lineWeight := "medium outlines (2-4px equivalent)";
         detailLevel := "detailed with clear shapes, moderate complexity";
         regionSize := "varied region sizes including some smaller details";
         ageDescription := "tweens ages 9-12";
         additionalInstructions :=
           "Include detailed features like clothing folds, hair texture, and background elements. Around 30-50 distinct coloring regions." |}
  | adult =>
      {| lineWeight := "fine, precise outlines (1-3px equivalent)";
         detailLevel := "highly detailed, intricate patterns where appropriate";
         regionSize := "many small and detailed regions";
         ageDescription := "adults and advanced colorists";
         additionalInstructions :=
           "Include fine details: fabric textures, individual leaves, architectural details, hair strands. Add decorative patterns in large empty areas. 50+ distinct coloring regions." |}
  end.

Definition isCategory (c : Category) (el : DetectedElement) : bool :=
  match c, el_category el with
  | cat_subject, cat_subject | cat_object, cat_object
  | cat_background, cat_background | cat_accessory, cat_accessory => true
  | _, _ => false
  end.

Definition buildSceneBlock (analysis : AnalysisResult) : string :=
  let subjects :=
    map el_description (List.filter (isCategory cat_subject) (elements analysis)) in
  let objects :=
    map el_description (List.filter (isCategory cat_object) (elements analysis)) in
  let parts0 := ["Scene: " +:+ sceneDescription analysis +:+ "."] in
  let parts1 :=
    if (0 <? length subjects)%nat
    then parts0 ++ ["Main subjects: " +:+ JS.join ", " subjects +:+ "."]
    else parts0 in
  let parts2 :=
    if (0 <? length objects)%nat
    then parts1 ++ ["Also includes: " +:+ JS.join ", " objects +:+ "."]
    else parts1 in
  JS.join " " parts2.

Definition buildFaceBlock (analysis : AnalysisResult) : string :=
  if (length (faceRegions analysis) =? 0)%nat then ""
  else JS.join "; "
         (map (fun face =>
                 face_description face +:+ " (" +:+ face_position face
                 +:+ "), features: "
                 +:+ JS.join ", " (face_distinguishingFeatures face))
              (faceRegions analysis)).

Definition buildBackgroundInstruction (strategy : BackgroundStrategy) : string :=
  match strategy with
  | bs_remove => "Pure white background, no background elements."
  | bs_simplify =>
      "Minimally suggested background with only essential structural lines."
  | bs_preserve_structure =>
      "Background shows recognizable shapes as simple outlines."
  | bs_preserve_detail =>
      "Background included with full structural detail rendered as line art."
  end.

Definition NEGATIVE_TERMS : list string :=
  [ "color"; "shading"; "gradient"; "gray"; "grey"; "shadow"; "photograph";
    "photorealistic"; "3d render"; "watermark"; "text"; "signature"; "blurry";
    "low quality"; "filled areas"; "solid black regions"; "halftone";
    "crosshatch"; "noise"; "grain" ].

Definition NEGATIVE_PROMPT : string := JS.join ", " NEGATIVE_TERMS.

(** [[task, preservation, style, constraints, complexity].filter(Boolean).join(" ")] *)
Definition joinClauses (clauses : list string) : string :=
  JS.join " " (List.filter JS.truthy clauses).

Definition directTransform (complexityLevel : ComplexityLevel)
    (analysisResult : option AnalysisResult) : string :=
  let config := COMPLEXITY_CONFIG complexityLevel in
  let task :=
    "Convert this photograph into a coloring book page. Black and white line art drawing suitable for "
    +:+ ageDescription config +:+ "." in
  let preservation :=
    match analysisResult with
    | Some a =>
        let scene := buildSceneBlock a in
        let faces := buildFaceBlock a in
        if JS.truthy faces
        then scene
             +:+ " The people must be recognizable as the same individuals. Preserve exact facial features, proportions, hairstyle, glasses: "
             +:+ faces +:+ "."
        else scene
    | None =>
        "If people are present, the people must be recognizable as the same individuals. Preserve exact facial features, proportions, hairstyle, glasses."
    end in
  let background :=
    match analysisResult with
    | Some a => buildBackgroundInstruction (backgroundStrategy a)
    | None => "Simplify the background to minimal structural outlines."
    end in
  let style :=
    "Style: " +:+ lineWeight config
    +:+ ". Bold black outlines on pure white background. " +:+ background in
  let constraints :=
    "No color, no shading, no gradients, no gray tones. Every region either pure black outline or pure white fill, nothing in between." in
  let complexity :=
    "Detail level: " +:+ detailLevel config +:+ ". Region sizes: "
    +:+ regionSize config +:+ ". " +:+ additionalInstructions config in
  joinClauses [task; preservation; style; constraints; complexity].

Definition preservationHeavy (complexityLevel : ComplexityLevel)
    (analysisResult : option AnalysisResult) : string :=
  let config := COMPLEXITY_CONFIG complexityLevel in
  let task :=
    "Convert this photograph into a coloring book page while maintaining the identity and likeness of every person. Black and white line art for "
    +:+ ageDescription config +:+ "." in
  let preservation :=
    match analysisResult with
    | Some a =>
        let scene := buildSceneBlock a in
        let faces := buildFaceBlock a in
        if JS.truthy faces
        then scene
             +:+ JS.join ""
                   [ " CRITICAL: The people must be recognizable as the same individuals from the original photo.";
                     " Preserve exact facial features, proportions, hairstyle, glasses for each person: "
                       +:+ faces +:+ ".";
                     " Facial structure is the top priority — jawline, nose shape, eye spacing, brow shape, and lip proportions must match the original.";
                     " Distinguishing accessories (glasses, earrings, hats, jewelry) must appear in their exact form." ]
        else scene
    | None =>
        JS.join " "
          [ "CRITICAL: The people must be recognizable as the same individuals from the original photo.";
            "Preserve exact facial features, proportions, hairstyle, glasses.";
            "Facial structure is the top priority — jawline, nose shape, eye spacing, brow shape, and lip proportions must match the original.";
            "Distinguishing accessories (glasses, earrings, hats, jewelry) must appear in their exact form." ]
    end in
  let background :=
    match analysisResult with
    | Some a => buildBackgroundInstruction (backgroundStrategy a)
    | None => "Simplify the background to keep focus on the people."
    end in
  let style :=
    "Style: " +:+ lineWeight config
    +:+ ". Bold black outlines on pure white background. Use line weight variation to emphasize facial features — thinner lines for facial detail, thicker for body contours. "
    +:+ background in
  let constraints :=
    "No color, no shading, no gradients, no gray tones. Every region either pure black outline or pure white fill, nothing in between. Do not simplify faces — only simplify non-face regions to match the target complexity." in
  let complexity :=
    "Detail level: " +:+ detailLevel config +:+ ". Region sizes: "
    +:+ regionSize config +:+ ". " +:+ additionalInstructions config
    +:+ " Exception: faces always retain full detail regardless of complexity level." in
  joinClauses [task; preservation; style; constraints; complexity].

Definition simplificationHeavy (complexityLevel : ComplexityLevel)
    (analysisResult : option AnalysisResult) : string :=
  let config := COMPLEXITY_CONFIG complexityLevel in
  let task :=
    "Create a clean, professionally illustrated coloring book page from this photograph. Prioritize clear, unbroken outlines and well-defined coloring regions. Black and white line art for "
    +:+ ageDescription config +:+ "." in
  let preservation :=
    match analysisResult with
    | Some a =>
        let scene := buildSceneBlock a in
        let faces := buildFaceBlock a in
        if JS.truthy faces
        then scene
             +:+ " The people must be recognizable as the same individuals. Preserve exact facial features, proportions, hairstyle, glasses, but render them with clean simplified strokes: "
             +:+ faces +:+ "."
        else scene
    | None =>
        "If people are present, the people must be recognizable as the same individuals. Preserve exact facial features, proportions, hairstyle, glasses, but render them with clean simplified strokes."
    end in
  let background :=
    match analysisResult with
    | Some a => buildBackgroundInstruction (backgroundStrategy a)
    | None => "Remove or heavily simplify the background."
    end in
  let style :=
    JS.join " "
      [ "Style: " +:+ lineWeight config
          +:+ ". Bold black outlines on pure white background.";
        "Every outline must be a single clean stroke — no sketchy or doubled lines.";
        "Every enclosed region must be clearly bounded by unbroken lines with no gaps.";
        "Merge small adjacent details into larger, easier-to-color regions.";
        background ] in
  let constraints :=
    "No color, no shading, no gradients, no gray tones. Every region either pure black outline or pure white fill, nothing in between. No cross-hatching, no stippling, no texture marks, no decorative fills inside regions." in
  let complexity :=
    "Detail level: " +:+ detailLevel config +:+ ". Region sizes: "
    +:+ regionSize config +:+ ". " +:+ additionalInstructions config
    +:+ " When in doubt, simplify further — fewer well-defined regions are better than many ambiguous ones." in
  joinClauses [task; preservation; style; constraints; complexity].

Definition VARIANT_BUILDERS (variant : PromptVariant)
  : ComplexityLevel -> option AnalysisResult -> string :=
  match variant with
  | direct_transform => directTransform
  | preservation_heavy => preservationHeavy
  | simplification_heavy => simplificationHeavy
  end.

Definition buildGenerationPrompt (variant : PromptVariant)
    (complexityLevel : ComplexityLevel) (analysisResult : option AnalysisResult)
  : string * string :=
  let builder := VARIANT_BUILDERS variant in
  (builder complexityLevel analysisResult, NEGATIVE_PROMPT).

Definition buildEditPrompt (variant : PromptVariant)
    (complexityLevel : ComplexityLevel) (analysisResult : option AnalysisResult)
  : string :=
  let builder := VARIANT_BUILDERS variant in
  let positivePrompt := builder complexityLevel analysisResult in
  positivePrompt +:+ " MUST NOT include: " +:+ NEGATIVE_PROMPT +:+ ".".

Record InferenceConfig := {
  numInferenceSteps : Z;
  guidanceScale : float
}.

Definition getInferenceConfig (complexity : ComplexityLevel) : InferenceConfig :=
  match complexity with
  | toddler => {| numInferenceSteps := 20; guidanceScale := 8.0%float |}
  | child => {| numInferenceSteps := 25; guidanceScale := 7.5%float |}
  | tween => {| numInferenceSteps := 30; guidanceScale := 7.5%float |}
  | adult => {| numInferenceSteps := 35; guidanceScale := 7.0%float |}
  end.

(** ** Generation models and results: [lib/pipeline/types.ts] *)

Inductive ModelType := mt_edit | mt_text_to_image.

Record GenerationModel := {
  gm_id : string;
  gm_label : string;
  gm_type : ModelType
}.

Definition GENERATION_MODELS : list GenerationModel :=
  [ {| gm_id := "fal-ai/nano-banana-pro/edit"; gm_label := "Nano Banana Pro";
       gm_type := mt_edit |};
    {| gm_id := "fal-ai/gpt-image-1.5/edit"; gm_label := "GPT Image 1.5";
       gm_type := mt_edit |};
    {| gm_id := "fal-ai/nano-banana/edit"; gm_label := "Nano Banana";
       gm_type := mt_edit |};
    {| gm_id := "fal-ai/gemini-3-pro-image-preview/edit";
       gm_label := "Gemini 3 Pro Preview"; gm_type := mt_edit |};
    {| gm_id := "fal-ai/fast-sdxl"; gm_label := "Fast SDXL (text-to-image)";
       gm_type := mt_text_to_image |} ].

Record GenerationResult := {
  imageUrl : string;
  width : option float;
  height : option float;
  gr_model : string;
  promptUsed : string;
  negativePromptUsed : option string;
  seed : option float;
  gr_description : option string
}.

Record GeneratedImage := {
  gi_url : string;
  gi_width : option float;
  gi_height : option float
}.

Record ImageGenerationResponse := {
  igr_images : list GeneratedImage;
  igr_seed : float
}.

Record EditImageResponse := {
  eir_images : list string;
  eir_description : option string
}.

(** ** Batch constants and records: [lib/batch/types.ts] *)

Definition BATCH_COMPLEXITY_LEVELS : list ComplexityLevel := [child; adult].

Definition BATCH_VARIANTS : list PromptVariant :=
  [direct_transform; preservation_heavy; simplification_heavy].

Record BatchResult := {
  br_model : string;
  modelLabel : string;
  br_complexity : string;
  br_variant : string;
  outputFileName : string;
  generation : GenerationResult;
  generationMs : float;
  postProcessMs : float;
  br_ratings : gmap string Z;
  br_error : option string
}.

Record BatchAnalysis := {
  imageAnalysis : ImageAnalysis;
  analysisResult : AnalysisResult;
  timingMs : float
}.

Record BatchRun := {
  run_id : string;
  run_timestamp : string;
  run_inputFileName : string;
  totalIterations : Z;
  completedIterations : Z;
  failedIterations : Z;
  run_results : list BatchResult
}.

(** The class [[a-z0-9-]] of the slug's last [replace]. *)
Definition isSlugChar (c : ascii) : bool :=
  let n := N_of_ascii c in
  (((97 <=? n) && (n <=? 122)) || ((48 <=? n) && (n <=? 57)) || (n =? 45))%N.

(** Every character of a string is in a class. *)
Fixpoint allChars (P : ascii -> bool) (s : string) : bool :=
  match s with
  | EmptyString => true
  | String c rest => P c && allChars P rest
  end.

Definition modelSlug (model : string) : string :=
  JS.replaceOutside isSlugChar "-"
    (JS.stripSuffix "/edit" (JS.stripPrefix "fal-ai/" model)).

Definition buildOutputFileName (complexity variant model : string) : string :=
  complexity +:+ "--" +:+ variant +:+ "--" +:+ modelSlug model +:+ ".png".

(** The class [[a-z0-9-]] as the claim words it, spelled out character by
    character, to compare [isSlugChar] with. *)
Definition slugClass : list ascii :=
  list_ascii_of_string "abcdefghijklmnopqrstuvwxyz0123456789-".

(** ** Effects: awaited calls that may throw, over an explicit world

    A call across the service boundary reads and changes the world [W]
    and either returns or throws; a thrown error is kept as the message
    that [fail] extracts from it.  Console output is not modelled. *)

Inductive Outcome (A : Type) :=
  | Returned (a : A)
  | Thrown (message : string).
Arguments Returned {A} a.
Arguments Thrown {A} message.

Definition Eff (W A : Type) : Type := W -> Outcome A * W.

Definition pure {W A} (a : A) : Eff W A := fun w => (Returned a, w).

Definition throw {W A} (message : string) : Eff W A := fun w => (Thrown message, w).

Definition andThen {W A B} (m : Eff W A) (k : A -> Eff W B) : Eff W B :=
  fun w =>
    match m w with
    | (Returned a, w') => k a w'
    | (Thrown e, w') => (Thrown e, w')
    end.

Notation "'await' x <- m 'in' k" := (andThen m (fun x => k))
  (at level 10, x name, m at level 200, k at level 200).

(** A read of a clock or of a source of fresh names: it cannot throw. *)
Definition Obs (W A : Type) : Type := W -> A * W.

Definition observe {W A} (o : Obs W A) : Eff W A :=
  fun w => let '(a, w') := o w in (Returned a, w').

(** The [ActionResult] union of the server actions. *)
Inductive ActionResult (T : Type) :=
  | Success (data : T)
  | Failure (error : string).
Arguments Success {T} data.
Arguments Failure {T} error.

Definition Action (W T : Type) : Type := W -> ActionResult T * W.

(** [try { body } catch (error) { return fail(error) }]; a [return fail(..)]
    inside the body yields the same value as throwing the same message. *)
Definition tryAction {W T} (body : Eff W T) : Action W T :=
  fun w =>
    match body w with
    | (Returned d, w') => (Success d, w')
    | (Thrown e, w') => (Failure e, w')
    end.

(** ** The batch server actions: [app/batch/actions.ts]

    The actions return their data through a JSON round trip, which keeps
    the strings, the integers and the shape of the records below (an absent
    optional field stays absent) and may change the other numbers. *)

Inductive OutputFormat := fmt_png | fmt_jpeg.

Record PostProcessOptions := {
  pp_threshold : option Z;
  pp_denoise : option bool;
  pp_denoiseKernel : option Z;
  pp_outputFormat : option OutputFormat;
  pp_outputWidth : option Z;
  pp_outputHeight : option Z
}.

Record EditRequest := {
  er_model : string;
  er_prompt : string;
  er_imageUrls : list string;
  er_outputFormat : string
}.

Record ImageGenerationCallOptions := {
  igo_prompt : string;
  igo_negativePrompt : string;
  igo_imageSize : string;
  igo_numInferenceSteps : Z;
  igo_guidanceScale : float
}.

Record InitBatchResult := {
  ibr_batchId : string;
  ibr_imageUrl : string;
  ibr_inputFileName : string;
  ibr_analysis : BatchAnalysis
}.

Record GenerateIterationParams := {
  gip_batchId : string;
  gip_imageUrl : string;
  gip_analysisResult : AnalysisResult;
  gip_model : string;
  gip_complexity : ComplexityLevel;
  gip_variant : PromptVariant
}.

Record GenerateIterationResult := {
  gir_outputFileName : string;
  gir_modelLabel : string;
  gir_generation : GenerationResult;
  gir_generationMs : float;
  gir_postProcessMs : float
}.

Section Batch.

(** The world the calls act on, and the bytes of an image. *)
Context {W Buffer : Type}.

Record File := {
  file_name : string;
  file_bytes : Buffer
}.

(** What the actions call and this repository does not compute: the
    remote services, the disk, the clock, the source of identifiers and two
    functions of the platform.  [newBatchId] stands for
    [randomUUID().slice(0, 8) + "-" + Date.now()], [performanceNow] for
    [performance.now()], a binary64 number of milliseconds, [isoNow] for
    [new Date().toISOString()], [mathRound] for [Math.round], and
    [jsonNumber] for what [JSON.parse(JSON.stringify(x))] makes of a number
    [x] (it is not the identity: the sign of zero is lost). *)
Record Services := {
  newBatchId : Obs W string;
  performanceNow : Obs W float;
  mathRound : float -> float;
  jsonNumber : float -> float;
  isoNow : Obs W string;
  initBatchDir : string -> Eff W unit;
  saveInputImage : string -> Buffer -> string -> Eff W string;
  uploadToFalStorage : File -> Eff W string;
  analyzePhoto : string -> Eff W ImageAnalysis;
  saveAnalysis : string -> BatchAnalysis -> Eff W unit;
  callImageEdit : EditRequest -> Eff W EditImageResponse;
  callImageGeneration : ImageGenerationCallOptions -> Eff W ImageGenerationResponse;
  postProcessColoringPage : string -> PostProcessOptions -> Eff W Buffer;
  saveOutputImage : string -> string -> Buffer -> Eff W unit;
  saveMetadata : string -> BatchRun -> Eff W unit
}.

Variable svc : Services.

(** [file.name.split(".").pop() ?? "png"] *)
Definition fileExtension (name : string) : string :=
  List.last (JS.split "." name) "png".

(** [JSON.parse(JSON.stringify(x))] on the data the actions return:
    strings, integers, absent optional fields, arrays and objects come back
    as they were, and every other number as [jsonNumber] makes it. *)
Definition jsonBoundingBox (box : BoundingBox) : BoundingBox :=
  {| bb_x := jsonNumber svc (bb_x box); bb_y := jsonNumber svc (bb_y box);
     bb_width := jsonNumber svc (bb_width box);
     bb_height := jsonNumber svc (bb_height box) |}.

Definition jsonSubject (subject : Subject) : Subject :=
  {| subj_description := subj_description subject;
     boundingBox := jsonBoundingBox (boundingBox subject);
     distinctiveFeatures := distinctiveFeatures subject |}.

Definition jsonImageAnalysis (analysis : ImageAnalysis) : ImageAnalysis :=
  {| photoType := photoType analysis;
     subjects := map jsonSubject (subjects analysis);
     background := background analysis;
     preservationPriorities := preservationPriorities analysis;
     simplificationTargets := simplificationTargets analysis |}.

Definition jsonBatchAnalysis (analysis : BatchAnalysis) : BatchAnalysis :=
  {| imageAnalysis := jsonImageAnalysis (imageAnalysis analysis);
     analysisResult := analysisResult analysis;
     timingMs := jsonNumber svc (timingMs analysis) |}.

Definition jsonInitBatchResult (data : InitBatchResult) : InitBatchResult :=
  {| ibr_batchId := ibr_batchId data;
     ibr_imageUrl := ibr_imageUrl data;
     ibr_inputFileName := ibr_inputFileName data;
     ibr_analysis := jsonBatchAnalysis (ibr_analysis data) |}.

Definition jsonGenerationResult (generation : GenerationResult) : GenerationResult :=
  {| imageUrl := imageUrl generation;
     width := option_map (jsonNumber svc) (width generation);
     height := option_map (jsonNumber svc) (height generation);
     gr_model := gr_model generation;
     promptUsed := promptUsed generation;
     negativePromptUsed := negativePromptUsed generation;
     seed := option_map (jsonNumber svc) (seed generation);
     gr_description := gr_description generation |}.

Definition jsonGenerateIterationResult (data : GenerateIterationResult)
  : GenerateIterationResult :=
  {| gir_outputFileName := gir_outputFileName data;
     gir_modelLabel := gir_modelLabel data;
     gir_generation := jsonGenerationResult (gir_generation data);
     gir_generationMs := jsonNumber svc (gir_generationMs data);
     gir_postProcessMs := jsonNumber svc (gir_postProcessMs data) |}.

(** The [try] block of [initBatchAction]. *)
Definition initBatchSteps (formImage : option File) : Eff W InitBatchResult :=
  match formImage with
  | None => throw "No image file provided"
  | Some file =>
      await batchId <- observe (newBatchId svc) in
      await _ <- initBatchDir svc batchId in
      let buffer := file_bytes file in
      let ext := fileExtension (file_name file) in
      await inputFileName <- saveInputImage svc batchId buffer ext in
      await imageUrl <- uploadToFalStorage svc file in
      await start <- observe (performanceNow svc) in
      await imageAnalysis <- analyzePhoto svc imageUrl in
      await stop <- observe (performanceNow svc) in
      let timingMs := mathRound svc (stop - start)%float in
      let analysisResult := imageAnalysisToAnalysisResult imageAnalysis in
      let analysis :=
        {| imageAnalysis := imageAnalysis;
           analysisResult := analysisResult;
           timingMs := timingMs |} in
      await _ <- saveAnalysis svc batchId analysis in
      let safeData :=
        jsonInitBatchResult
          {| ibr_batchId := batchId;
             ibr_imageUrl := imageUrl;
             ibr_inputFileName := inputFileName;
             ibr_analysis := analysis |} in
      pure safeData
  end.

Definition initBatchAction (formImage : option File) : Action W InitBatchResult :=
  tryAction (initBatchSteps formImage).

Definition pngOnly : PostProcessOptions :=
  {| pp_threshold := None; pp_denoise := None; pp_denoiseKernel := None;
     pp_outputFormat := Some fmt_png;
     pp_outputWidth := None; pp_outputHeight := None |}.

(** The generation half of an iteration: the edit or the text-to-image call. *)
Definition generateImage (params : GenerateIterationParams) (isEdit : bool)
  : Eff W GenerationResult :=
  let model := gip_model params in
  if isEdit then
    let prompt :=
      buildEditPrompt (gip_variant params) (gip_complexity params)
                      (Some (gip_analysisResult params)) in
    await response <-
      callImageEdit svc
        {| er_model := model; er_prompt := prompt;
           er_imageUrls := [gip_imageUrl params]; er_outputFormat := "png" |} in
    match eir_images response with
    | [] => throw "Edit returned no images"
    | firstImage :: _ =>
        pure {| imageUrl := firstImage; width := None; height := None;
                gr_model := model; promptUsed := prompt;
                negativePromptUsed := None; seed := None;
                gr_description := eir_description response |}
    end
  else
    let '(prompt, negativePrompt) :=
      buildGenerationPrompt (gip_variant params) (gip_complexity params)
                            (Some (gip_analysisResult params)) in
    let inferenceConfig := getInferenceConfig (gip_complexity params) in
    await response <-
      callImageGeneration svc
        {| igo_prompt := prompt; igo_negativePrompt := negativePrompt;
           igo_imageSize := "square_hd";
           igo_numInferenceSteps := numInferenceSteps inferenceConfig;
           igo_guidanceScale := guidanceScale inferenceConfig |} in
    match igr_images response with
    | [] => throw "Generation returned no images"
    | firstImage :: _ =>
        pure {| imageUrl := gi_url firstImage;
                width := gi_width firstImage; height := gi_height firstImage;
                gr_model := model; promptUsed := prompt;
                negativePromptUsed := Some negativePrompt;
                seed := Some (igr_seed response);
                gr_description := None |}
    end.

Definition findModel (model : string) : option GenerationModel :=
  List.find (fun m => String.eqb (gm_id m) model) GENERATION_MODELS.

(** [modelInfo?.type === "edit" || model.endsWith("/edit")] *)
Definition isEditModel (model : string) : bool :=
  match findModel model with
  | Some {| gm_type := mt_edit |} => true
  | _ => false
  end || JS.endsWith "/edit" model.

(** The [try] block of [generateIterationAction]. *)
Definition generateIterationSteps (params : GenerateIterationParams)
  : Eff W GenerateIterationResult :=
  let model := gip_model params in
  let modelInfo := findModel model in
  let modelLabel :=
    match modelInfo with Some m => gm_label m | None => model end in
  let isEdit := isEditModel model in
  let outputFileName :=
    buildOutputFileName (ComplexityLevel_str (gip_complexity params))
                        (PromptVariant_str (gip_variant params)) model in
  await genStart <- observe (performanceNow svc) in
  await generation <- generateImage params isEdit in
  await genStop <- observe (performanceNow svc) in
  let generationMs := mathRound svc (genStop - genStart)%float in
  await ppStart <- observe (performanceNow svc) in
  await finalImage <-
    postProcessColoringPage svc (imageUrl generation) pngOnly in
  await ppStop <- observe (performanceNow svc) in
  let postProcessMs := mathRound svc (ppStop - ppStart)%float in
  await _ <- saveOutputImage svc (gip_batchId params) outputFileName finalImage in
  let safeData :=
    jsonGenerateIterationResult
      {| gir_outputFileName := outputFileName;
         gir_modelLabel := modelLabel;
         gir_generation := generation;
         gir_generationMs := generationMs;
         gir_postProcessMs := postProcessMs |} in
  pure safeData.

Definition generateIterationAction (params : GenerateIterationParams)
  : Action W GenerateIterationResult :=
  tryAction (generateIterationSteps params).

Definition saveBatchAction (batchRun : BatchRun) : Action W unit :=
  tryAction
    (await _ <- saveMetadata svc (run_id batchRun) batchRun in
     pure tt).

(** *** The batch page: [app/batch/page.tsx]

    The React state the two handlers read and write is a record; a
    [setX(v)] is a field update.  The page runs the matrix of the three
    constants; the handlers below take the matrix as [models],
    [complexities] and [variants], and the page is their instance at
    [GENERATION_MODELS], [BATCH_COMPLEXITY_LEVELS] and [BATCH_VARIANTS]. *)

Inductive BatchPhase :=
  ph_upload | ph_analyzing | ph_generating | ph_done | ph_error.

Record PageState := {
  pg_file : option File;
  pg_phase : BatchPhase;
  pg_batchId : option string;
  pg_inputFileName : option string;
  pg_analysis : option BatchAnalysis;
  pg_results : list BatchResult;
  pg_completedCount : nat;
  pg_currentLabel : string;
  pg_errors : list string;
  pg_error : option string;
  pg_ratings : gmap string (gmap string Z);
  pg_saved : bool;
  pg_timerRunning : bool
}.

Definition setPhase (v : BatchPhase) (s : PageState) : PageState :=
  {| pg_file := pg_file s; pg_phase := v; pg_batchId := pg_batchId s;
     pg_inputFileName := pg_inputFileName s; pg_analysis := pg_analysis s;
     pg_results := pg_results s; pg_completedCount := pg_completedCount s;
     pg_currentLabel := pg_currentLabel s; pg_errors := pg_errors s;
     pg_error := pg_error s; pg_ratings := pg_ratings s;
     pg_saved := pg_saved s; pg_timerRunning := pg_timerRunning s |}.

Definition setBatchId (v : option string) (s : PageState) : PageState :=
  {| pg_file := pg_file s; pg_phase := pg_phase s; pg_batchId := v;
     pg_inputFileName := pg_inputFileName s; pg_analysis := pg_analysis s;
     pg_results := pg_results s; pg_completedCount := pg_completedCount s;
     pg_currentLabel := pg_currentLabel s; pg_errors := pg_errors s;
     pg_error := pg_error s; pg_ratings := pg_ratings s;
     pg_saved := pg_saved s; pg_timerRunning := pg_timerRunning s |}.

Definition setInputFileName (v : option string) (s : PageState) : PageState :=
  {| pg_file := pg_file s; pg_phase := pg_phase s; pg_batchId := pg_batchId s;
     pg_inputFileName := v; pg_analysis := pg_analysis s;
     pg_results := pg_results s; pg_completedCount := pg_completedCount s;
     pg_currentLabel := pg_currentLabel s; pg_errors := pg_errors s;
     pg_error := pg_error s; pg_ratings := pg_ratings s;
     pg_saved := pg_saved s; pg_timerRunning := pg_timerRunning s |}.

Definition setAnalysis (v : option BatchAnalysis) (s : PageState) : PageState :=
  {| pg_file := pg_file s; pg_phase := pg_phase s; pg_batchId := pg_batchId s;
     pg_inputFileName := pg_inputFileName s; pg_analysis := v;
     pg_results := pg_results s; pg_completedCount := pg_completedCount s;
     pg_currentLabel := pg_currentLabel s; pg_errors := pg_errors s;
     pg_error := pg_error s; pg_ratings := pg_ratings s;
     pg_saved := pg_saved s; pg_timerRunning := pg_timerRunning s |}.

Definition setResults (v : list BatchResult) (s : PageState) : PageState :=
  {| pg_file := pg_file s; pg_phase := pg_phase s; pg_batchId := pg_batchId s;
     pg_inputFileName := pg_inputFileName s; pg_analysis := pg_analysis s;
     pg_results := v; pg_completedCount := pg_completedCount s;
     pg_currentLabel := pg_currentLabel s; pg_errors := pg_errors s;
     pg_error := pg_error s; pg_ratings := pg_ratings s;
     pg_saved := pg_saved s; pg_timerRunning := pg_timerRunning s |}.

Definition setCompletedCount (v : nat) (s : PageState) : PageState :=
  {| pg_file := pg_file s; pg_phase := pg_phase s; pg_batchId := pg_batchId s;
     pg_inputFileName := pg_inputFileName s; pg_analysis := pg_analysis s;
     pg_results := pg_results s; pg_completedCount := v;
     pg_currentLabel := pg_currentLabel s; pg_errors := pg_errors s;
     pg_error := pg_error s; pg_ratings := pg_ratings s;
     pg_saved := pg_saved s; pg_timerRunning := pg_timerRunning s |}.

Definition setCurrentLabel (v : string) (s : PageState) : PageState :=
  {| pg_file := pg_file s; pg_phase := pg_phase s; pg_batchId := pg_batchId s;
     pg_inputFileName := pg_inputFileName s; pg_analysis := pg_analysis s;
     pg_results := pg_results s; pg_completedCount := pg_completedCount s;
     pg_currentLabel := v; pg_errors := pg_errors s;
     pg_error := pg_error s; pg_ratings := pg_ratings s;
     pg_saved := pg_saved s; pg_timerRunning := pg_timerRunning s |}.

Definition setErrors (v : list string) (s : PageState) : PageState :=
  {| pg_file := pg_file s; pg_phase := pg_phase s; pg_batchId := pg_batchId s;
     pg_inputFileName := pg_inputFileName s; pg_analysis := pg_analysis s;
     pg_results := pg_results s; pg_completedCount := pg_completedCount s;
     pg_currentLabel := pg_currentLabel s; pg_errors := v;
     pg_error := pg_error s; pg_ratings := pg_ratings s;
     pg_saved := pg_saved s; pg_timerRunning := pg_timerRunning s |}.

Definition setError (v : option string) (s : PageState) : PageState :=
  {| pg_file := pg_file s; pg_phase := pg_phase s; pg_batchId := pg_batchId s;
     pg_inputFileName := pg_inputFileName s; pg_analysis := pg_analysis s;
     pg_results := pg_results s; pg_completedCount := pg_completedCount s;
     pg_currentLabel := pg_currentLabel s; pg_errors := pg_errors s;
     pg_error := v; pg_ratings := pg_ratings s;
     pg_saved := pg_saved s; pg_timerRunning := pg_timerRunning s |}.

Definition setSaved (v : bool) (s : PageState) : PageState :=
  {| pg_file := pg_file s; pg_phase := pg_phase s; pg_batchId := pg_batchId s;
     pg_inputFileName := pg_inputFileName s; pg_analysis := pg_analysis s;
     pg_results := pg_results s; pg_completedCount := pg_completedCount s;
     pg_currentLabel := pg_currentLabel s; pg_errors := pg_errors s;
     pg_error := pg_error s; pg_ratings := pg_ratings s;
     pg_saved := v; pg_timerRunning := pg_timerRunning s |}.

(** [timer.start()] and [timer.stop()]; the elapsed count is display only. *)
Definition setTimerRunning (v : bool) (s : PageState) : PageState :=
  {| pg_file := pg_file s; pg_phase := pg_phase s; pg_batchId := pg_batchId s;
     pg_inputFileName := pg_inputFileName s; pg_analysis := pg_analysis s;
     pg_results := pg_results s; pg_completedCount := pg_completedCount s;
     pg_currentLabel := pg_currentLabel s; pg_errors := pg_errors s;
     pg_error := pg_error s; pg_ratings := pg_ratings s;
     pg_saved := pg_saved s; pg_timerRunning := v |}.

(** [setRating(fileName, criterion, value)]: the rating handler of the page. *)
Definition setRating (fileName criterion : string) (value : Z) (s : PageState)
  : PageState :=
  {| pg_file := pg_file s; pg_phase := pg_phase s; pg_batchId := pg_batchId s;
     pg_inputFileName := pg_inputFileName s; pg_analysis := pg_analysis s;
     pg_results := pg_results s; pg_completedCount := pg_completedCount s;
     pg_currentLabel := pg_currentLabel s; pg_errors := pg_errors s;
     pg_error := pg_error s;
     pg_ratings :=
       <[fileName := <[criterion := value]> (default ∅ (pg_ratings s !! fileName))]>
         (pg_ratings s);
     pg_saved := false; pg_timerRunning := pg_timerRunning s |}.

(** The ratings the user gives between the end of a run and a save. *)
Definition applyRatings (events : list (string * string * Z)) (s : PageState)
  : PageState :=
  fold_left (fun s1 '(fileName, criterion, value) =>
               setRating fileName criterion value s1) events s.

Variable models : list GenerationModel.
Variable complexities : list ComplexityLevel.
Variable variants : list PromptVariant.

Definition TOTAL_ITERATIONS : Z :=
  Z.of_nat (length complexities * length variants * length models).

(** The entry pushed for an iteration that [generateIterationAction]
    reports as a success. *)
Definition successResult (model : GenerationModel) (complexity : ComplexityLevel)
    (variant : PromptVariant) (data : GenerateIterationResult) : BatchResult :=
  {| br_model := gm_id model;
     modelLabel := gir_modelLabel data;
     br_complexity := ComplexityLevel_str complexity;
     br_variant := PromptVariant_str variant;
     outputFileName := gir_outputFileName data;
     generation := gir_generation data;
     generationMs := gir_generationMs data;
     postProcessMs := gir_postProcessMs data;
     br_ratings := ∅;
     br_error := None |}.

(** The entry pushed for an iteration reported as a failure. *)
Definition failureResult (model : GenerationModel) (complexity : ComplexityLevel)
    (variant : PromptVariant) (error : string) : BatchResult :=
  {| br_model := gm_id model;
     modelLabel := gm_label model;
     br_complexity := ComplexityLevel_str complexity;
     br_variant := PromptVariant_str variant;
     outputFileName :=
       buildOutputFileName (ComplexityLevel_str complexity)
                           (PromptVariant_str variant) (gm_id model);
     generation :=
       {| imageUrl := ""; width := None; height := None;
          gr_model := gm_id model; promptUsed := "";
          negativePromptUsed := None; seed := None; gr_description := None |};
     generationMs := 0%float;
     postProcessMs := 0%float;
     br_ratings := ∅;
     br_error := Some error |}.

(** The locals and the state one pass of the innermost loop body updates. *)
Record LoopState := {
  allResults : list BatchResult;
  allErrors : list string;
  page : PageState;
  world : W
}.

Definition iterationBody (init : InitBatchResult) (model : GenerationModel)
    (complexity : ComplexityLevel) (variant : PromptVariant) (ls : LoopState)
  : LoopState :=
  let label :=
    ComplexityLevel_str complexity +:+ " / " +:+ PromptVariant_str variant
    +:+ " / " +:+ gm_label model in
  let st1 := setCurrentLabel label (page ls) in
  let '(iterResult, w1) :=
    generateIterationAction
      {| gip_batchId := ibr_batchId init;
         gip_imageUrl := ibr_imageUrl init;
         gip_analysisResult := analysisResult (ibr_analysis init);
         gip_model := gm_id model;
         gip_complexity := complexity;
         gip_variant := variant |} (world ls) in
  let '(results1, errors1) :=
    match iterResult with
    | Success data =>
        (allResults ls ++ [successResult model complexity variant data],
         allErrors ls)
    | Failure error =>
        (allResults ls ++ [failureResult model complexity variant error],
         allErrors ls ++ [label +:+ ": " +:+ error])
    end in
  {| allResults := results1;
     allErrors := errors1;
     page := setCompletedCount (length results1)
               (setErrors errors1 (setResults results1 st1));
     world := w1 |}.

(** The three nested [for ... of] loops. *)
Definition runLoops (init : InitBatchResult) (ls : LoopState) : LoopState :=
  fold_left
    (fun ls1 model =>
       fold_left
         (fun ls2 complexity =>
            fold_left
              (fun ls3 variant => iterationBody init model complexity variant ls3)
              variants ls2)
         complexities ls1)
    models ls.

Definition handleRunAll (st : PageState) (w : W) : PageState * W :=
  match pg_file st with
  | None => (st, w)
  | Some file =>
      let st1 :=
        setTimerRunning true
          (setSaved false
             (setCompletedCount 0%nat
                (setErrors []
                   (setResults [] (setError None (setPhase ph_analyzing st)))))) in
      let '(initResult, w1) := initBatchAction (Some file) w in
      match initResult with
      | Failure error =>
          (setTimerRunning false (setPhase ph_error (setError (Some error) st1)),
           w1)
      | Success data =>
          let st2 :=
            setPhase ph_generating
              (setAnalysis (Some (ibr_analysis data))
                 (setInputFileName (Some (ibr_inputFileName data))
                    (setBatchId (Some (ibr_batchId data)) st1))) in
          let ls :=
            runLoops data
              {| allResults := []; allErrors := []; page := st2; world := w1 |} in
          (setPhase ph_done (setTimerRunning false (page ls)), world ls)
      end
  end.

(** [r.error] as a condition: set and not the empty string. *)
Definition hasError (r : BatchResult) : bool :=
  match br_error r with
  | Some e => JS.truthy e
  | None => false
  end.

Definition withRatings (ratings : gmap string (gmap string Z)) (r : BatchResult)
  : BatchResult :=
  {| br_model := br_model r; modelLabel := modelLabel r;
     br_complexity := br_complexity r; br_variant := br_variant r;
     outputFileName := outputFileName r; generation := generation r;
     generationMs := generationMs r; postProcessMs := postProcessMs r;
     br_ratings := default (br_ratings r) (ratings !! outputFileName r);
     br_error := br_error r |}.

(** The [batchRun] object literal of [handleSave]. *)
Definition makeBatchRun (st : PageState) (batchId : string) (file : File)
    (timestamp : string) : BatchRun :=
  {| run_id := batchId;
     run_timestamp := timestamp;
     run_inputFileName := default (file_name file) (pg_inputFileName st);
     totalIterations := TOTAL_ITERATIONS;
     completedIterations :=
       Z.of_nat (length (List.filter (fun r => negb (hasError r)) (pg_results st)));
     failedIterations :=
       Z.of_nat (length (List.filter (fun r => hasError r) (pg_results st)));
     run_results := map (withRatings (pg_ratings st)) (pg_results st) |}.

Definition handleSave (st : PageState) (w : W) : PageState * W :=
  match pg_batchId st, pg_file st with
  | Some batchId, Some file =>
      if JS.truthy batchId then
        let '(timestamp, w1) := isoNow svc w in
        let batchRun := makeBatchRun st batchId file timestamp in
        let '(result, w2) := saveBatchAction batchRun w1 in
        match result with
        | Failure error => (setError (Some error) st, w2)
        | Success _ => (setSaved true st, w2)
        end
      else (st, w)
  | _, _ => (st, w)
  end.

(** *** The loop read as a list of attempts

    These three definitions are not in the source: they say what the
    specification asks of the loop, and the theorems below compare
    [handleRunAll] with them. *)

Definition Triple : Type := GenerationModel * ComplexityLevel * PromptVariant.

(** The iterations in loop order: model outermost, variant innermost. *)
Definition iterationTriples : list Triple :=
  flat_map
    (fun model =>
       flat_map
         (fun complexity => map (fun variant => (model, complexity, variant)) variants)
         complexities)
    models.

Definition paramsFor (init : InitBatchResult) (t : Triple) : GenerateIterationParams :=
  let '(model, complexity, variant) := t in
  {| gip_batchId := ibr_batchId init;
     gip_imageUrl := ibr_imageUrl init;
     gip_analysisResult := analysisResult (ibr_analysis init);
     gip_model := gm_id model;
     gip_complexity := complexity;
     gip_variant := variant |}.

(** Every triple is attempted once, in order, whatever the earlier
    attempts returned; the world is threaded through the calls. *)
Fixpoint attemptAll (init : InitBatchResult) (ts : list Triple) (w : W)
  : list (Triple * ActionResult GenerateIterationResult) * W :=
  match ts with
  | [] => ([], w)
  | t :: rest =>
      let '(r, w1) := generateIterationAction (paramsFor init t) w in
      let '(rs, w2) := attemptAll init rest w1 in
      ((t, r) :: rs, w2)
  end.

(** The entry of [BatchRun.results] that records one attempt. *)
Definition recordedEntry (o : Triple * ActionResult GenerateIterationResult)
  : BatchResult :=
  let '((model, complexity, variant), r) := o in
  match r with
  | Success data => successResult model complexity variant data
  | Failure error => failureResult model complexity variant error
  end.

(** The key of an entry: which iteration it belongs to. *)
Definition entryKey (r : BatchResult) : string * string * string :=
  (br_model r, br_complexity r, br_variant r).

Definition tripleKey (t : Triple) : string * string * string :=
  let '(model, complexity, variant) := t in
  (gm_id model, ComplexityLevel_str complexity, PromptVariant_str variant).

End Batch.

Arguments File : clear implicits.
Arguments Services : clear implicits.
Arguments PageState : clear implicits.
Arguments LoopState : clear implicits.

(** The page of the source: the handlers at the matrix of the constants. *)
Definition BatchPage_handleRunAll {W Buffer} (svc : Services W Buffer) :=
  handleRunAll svc GENERATION_MODELS BATCH_COMPLEXITY_LEVELS BATCH_VARIANTS.

Definition BatchPage_handleSave {W Buffer} (svc : Services W Buffer) :=
  handleSave svc GENERATION_MODELS BATCH_COMPLEXITY_LEVELS BATCH_VARIANTS.

(** ** The position vocabulary and the bucket reading of [bboxToPosition] *)

(** The seven position strings that the vision prompt of
    [lib/prompts/analysis.ts] lists for a face region. *)
Definition DECLARED_POSITIONS : list string :=
  ["center"; "left"; "right"; "top-left"; "top-right"; "bottom-left"; "bottom-right"].

(** The bucket rule in the words of the specification, for comparison
    with [bboxToPosition]: a bucket is a name or none. *)
Definition horizontalBucket (x : float) : option string :=
  if PrimFloat.ltb x lit_0_33 then Some "left"
  else if PrimFloat.ltb lit_0_66 x then Some "right"
  else None.

Definition verticalBucket (y : float) : option string :=
  if PrimFloat.ltb y lit_0_33 then Some "top"
  else if PrimFloat.ltb lit_0_66 y then Some "bottom"
  else None.

Definition combineBuckets (vertical horizontal : option string) : string :=
  match vertical, horizontal with
  | Some v, Some h => v +:+ "-" +:+ h
  | None, Some h => h
  | Some v, None => v
  | None, None => "center"
  end.

(** The centre of a box whose [x], [y] are its top-left corner, as the
    analysis prompt defines them. *)
Definition boxCenterX (bbox : BoundingBox) : float :=
  (bb_x bbox + bb_width bbox / 2)%float.

Definition boxCenterY (bbox : BoundingBox) : float :=
  (bb_y bbox + bb_height bbox / 2)%float.

(** The order [toddler < child < tween < adult] of the enum. *)
Definition levelRank (c : ComplexityLevel) : nat :=
  match c with toddler => 0 | child => 1 | tween => 2 | adult => 3 end.

(** ** The post-processor's call chain: [lib/pipeline/post-process.ts]

    [postProcessColoringPage] builds a pipeline of the image library and
    awaits its buffer; the repository decides which operations are chained,
    in which order and with which arguments, the library decides what they
    do to pixels.  The chain is what is embedded here, with the library's
    checks of the arguments: a call the library rejects throws when it is
    made, and the calls after it are never made. *)

Inductive SharpOp :=
  | op_grayscale
  | op_median (size : Z)
  | op_threshold (level : Z)
  | op_resize (w h : option Z)
  | op_png
  | op_jpeg.

(** Truthiness of an optional number: [if (outputWidth || outputHeight)]. *)
Definition truthyNumber (n : option Z) : bool :=
  match n with
  | Some v => negb (v =? 0)
  | None => false
  end.

(** The arguments the image library takes: [median] an integer from 1 to
    1000, [threshold] an integer from 0 to 255, [resize] a positive integer
    for each dimension that is given. *)
Definition medianAccepts (size : Z) : bool := (1 <=? size) && (size <=? 1000).

Definition thresholdAccepts (level : Z) : bool := (0 <=? level) && (level <=? 255).

Definition resizeAccepts (dimension : option Z) : bool :=
  match dimension with
  | Some v => 0 <? v
  | None => true
  end.

(** The calls chained on the pipeline, in order, or [None] when one of them
    throws; the function then throws "Post-processing failed: " followed by
    the library's message. *)
Definition postProcessOps (options : PostProcessOptions) : option (list SharpOp) :=
  let threshold := default 128 (pp_threshold options) in
  let denoise := default true (pp_denoise options) in
  let denoiseKernel := default 3 (pp_denoiseKernel options) in
  let outputFormat := default fmt_png (pp_outputFormat options) in
  let resizing :=
    truthyNumber (pp_outputWidth options)
    || truthyNumber (pp_outputHeight options) in
  if denoise && negb (medianAccepts denoiseKernel) then None
  else if negb (thresholdAccepts threshold) then None
  else if resizing
          && negb (resizeAccepts (pp_outputWidth options)
                   && resizeAccepts (pp_outputHeight options))
  then None
  else
    Some ([op_grayscale]
          ++ (if denoise then [op_median denoiseKernel] else [])
          ++ [op_threshold threshold]
          ++ (if resizing
              then [op_resize (pp_outputWidth options) (pp_outputHeight options)]
              else [])
          ++ [match outputFormat with fmt_png => op_png | fmt_jpeg => op_jpeg end]).

(** ** The pixels of the post-processor: section 4.3 of the spec

    A single-channel raster is the list of its luminances, [list Z], from
    0, pure black, to 255, pure white. *)



Section PixelModel.

(** The library's grayscale conversion, median filter and resize; what they
    do to pixels is fixed neither by the repository nor by the spec. *)
Variable grayscale : list Z -> list Z.
Variable medianFilter : Z -> list Z -> list Z.
Variable resample : option Z -> option Z -> list Z -> list Z.



End PixelModel.

(** ** Concrete inputs used to exercise the statements *)

Definition emptyScene : ImageAnalysis :=
  {| photoType := other;
     subjects := [];
     background :=
       {| bg_description := "plain white wall"; bg_complexity := 1;
          keyElements := [] |};
     preservationPriorities := [];
     simplificationTargets := [] |}.

(** A subject whose box starts at the horizontal middle, near the top. *)
Definition womanAtTop : Subject :=
  {| subj_description := "Young Woman with curly hair";
     boundingBox :=
       {| bb_x := 0.5%float; bb_y := 0.125%float;
          bb_width := 0.25%float; bb_height := 0.5%float |};
     distinctiveFeatures := ["round glasses"] |}.

Definition dogAtLeft : Subject :=
  {| subj_description := "small dog";
     boundingBox :=
       {| bb_x := 0.125%float; bb_y := 0.5%float;
          bb_width := 0.25%float; bb_height := 0.25%float |};
     distinctiveFeatures := [] |}.

Definition parkPhoto : ImageAnalysis :=
  {| photoType := other;
     subjects := [dogAtLeft; womanAtTop];
     background :=
       {| bg_description := "a park"; bg_complexity := 4;
          keyElements := ["oak tree"] |};
     preservationPriorities := ["round glasses"];
     simplificationTargets := [] |}.

(** [Math.round] for the demonstrations: the nearest integer, a tie going
    up, and a zero result keeping the sign of the argument. *)
Definition demoMathRound (x : float) : float :=
  if negb (is_finite x) then x
  else if (0x1p52 <=? abs x)%float then x
  else
    let nearest :=
      if (0 <=? x)%float then ((x + 0x1p52) - 0x1p52)%float
      else ((x - 0x1p52) + 0x1p52)%float in
    let floor := if (x <? nearest)%float then (nearest - 1)%float else nearest in
    let rounded :=
      if (x - floor <? 0.5)%float then floor else (floor + 1)%float in
    if is_zero rounded then (if get_sign x then neg_zero else zero) else rounded.

(** The JSON round trip of a finite number, for the demonstrations. *)
Definition demoJsonNumber (x : float) : float :=
  if is_zero x then zero else x.

(** A clock that shows a thousand milliseconds for each generation call
    made so far. *)
Definition demoClock (w : nat) : float :=
  Nat.iter w (fun t => (t + 1000)%float) 0%float.

(** A world that counts the generation calls made so far; the call number
    [failing] (from 0) throws, and so do the analysis unless [analysisOk]
    and the post-processing unless [postOk]. *)
Definition demoServices (analysisOk : bool) (failing : nat) (postOk : bool)
  : Services nat unit :=
  {| newBatchId := fun w => ("1a2b3c4d-1700000000000", w);
     performanceNow := fun w => (demoClock w, w);
     mathRound := demoMathRound;
     jsonNumber := demoJsonNumber;
     isoNow := fun w => ("2025-01-01T00:00:00.000Z", w);
     initBatchDir := fun _ => pure tt;
     saveInputImage := fun _ _ ext => pure ("input." +:+ ext);
     uploadToFalStorage := fun _ => pure "https://fal.media/files/input.png";
     analyzePhoto := fun _ =>
       if analysisOk then pure parkPhoto
       else throw "Claude API error (529): overloaded";
     saveAnalysis := fun _ _ => pure tt;
     callImageEdit := fun _ w =>
       if (w =? failing)%nat then (Thrown "fal: service unavailable", S w)
       else (Returned {| eir_images := ["https://fal.media/files/out.png"];
                         eir_description := None |}, S w);
     callImageGeneration := fun _ w =>
       if (w =? failing)%nat then (Thrown "fal: service unavailable", S w)
       else (Returned {| igr_images := [ {| gi_url := "https://fal.media/files/out.png";
                                            gi_width := None; gi_height := None |} ];
                         igr_seed := 7%float |}, S w);
     postProcessColoringPage := fun _ _ =>
       if postOk then pure tt
       else throw "Post-processing failed: Input buffer contains unsupported image format";
     saveOutputImage := fun _ _ _ => pure tt;
     saveMetadata := fun _ _ => pure tt |}.

(** The same world with a generation call, number [failing], that fails
    with an empty message, as [new Error()] gives. *)
Definition silentServices (failing : nat) : Services nat unit :=
  let base := demoServices true failing true in
  {| newBatchId := newBatchId base;
     performanceNow := performanceNow base;
     mathRound := mathRound base;
     jsonNumber := jsonNumber base;
     isoNow := isoNow base;
     initBatchDir := initBatchDir base;
     saveInputImage := saveInputImage base;
     uploadToFalStorage := uploadToFalStorage base;
     analyzePhoto := analyzePhoto base;
     saveAnalysis := saveAnalysis base;
     callImageEdit := fun request w =>
       if (w =? failing)%nat then (Thrown "", S w)
       else callImageEdit base request w;
     callImageGeneration := fun request w =>
       if (w =? failing)%nat then (Thrown "", S w)
       else callImageGeneration base request w;
     postProcessColoringPage := postProcessColoringPage base;
     saveOutputImage := saveOutputImage base;
     saveMetadata := saveMetadata base |}.

Definition demoParams : GenerateIterationParams :=
  {| gip_batchId := "1a2b3c4d-1700000000000";
     gip_imageUrl := "https://fal.media/files/input.png";
     gip_analysisResult := imageAnalysisToAnalysisResult parkPhoto;
     gip_model := "fal-ai/nano-banana/edit";
     gip_complexity := adult;
     gip_variant := direct_transform |}.

Definition demoFile : File unit := {| file_name := "family.jpg"; file_bytes := tt |}.

Definition demoPage : PageState unit :=
  {| pg_file := Some demoFile; pg_phase := ph_upload; pg_batchId := None;
     pg_inputFileName := None; pg_analysis := None; pg_results := [];
     pg_completedCount := 0%nat; pg_currentLabel := ""; pg_errors := [];
     pg_error := None; pg_ratings := ∅; pg_saved := false;
     pg_timerRunning := false |}.

Definition demoModels : list GenerationModel :=
  [ {| gm_id := "fal-ai/nano-banana/edit"; gm_label := "Nano Banana";
       gm_type := mt_edit |} ].

(** What [initBatchAction] returns in the demo world when the analysis works. *)
Definition demoInit : InitBatchResult :=
  {| ibr_batchId := "1a2b3c4d-1700000000000";
     ibr_imageUrl := "https://fal.media/files/input.png";
     ibr_inputFileName := "input.jpg";
     ibr_analysis :=
       {| imageAnalysis := parkPhoto;
          analysisResult := imageAnalysisToAnalysisResult parkPhoto;
          timingMs := 0%float |} |}.

(** ** Ratings of a stored run: [lib/batch/storage.ts], [app/results/[id]] *)

(** Reading a property of a plain object, [object[name]]: an own property
    wins; failing that, the object answers to the members of
    [Object.prototype], which are functions or, for [__proto__], the
    prototype itself, and so are all truthy. *)
Definition OBJECT_PROTOTYPE_KEYS : list string :=
  [ "constructor"; "__defineGetter__"; "__defineSetter__"; "hasOwnProperty";
    "__lookupGetter__"; "__lookupSetter__"; "isPrototypeOf";
    "propertyIsEnumerable"; "toString"; "valueOf"; "__proto__";
    "toLocaleString" ].

Inductive Property (A : Type) :=
  | own (value : A)
  | inherited (member : string)
  | missing.
Arguments own {A} value.
Arguments inherited {A} member.
Arguments missing {A}.

Definition getProperty {A : Type} (object : gmap string A) (name : string)
  : Property A :=
  match object !! name with
  | Some value => own value
  | None =>
      if existsb (String.eqb name) OBJECT_PROTOTYPE_KEYS then inherited name
      else missing
  end.

(** An entry of a run after the loop of [updateRatings]: its [ratings] hold
    a ratings record, or the member of [Object.prototype] that the lookup
    found under the entry's file name. *)
Inductive RatedResult :=
  | rated (result : BatchResult)
  | ratings_overwritten (result : BatchResult) (member : string).

Record RatedRun := {
  rated_id : string;
  rated_timestamp : string;
  rated_inputFileName : string;
  rated_totalIterations : Z;
  rated_completedIterations : Z;
  rated_failedIterations : Z;
  rated_results : list RatedResult
}.

(** The body of the loop of [updateRatings]:
    [if (ratings[result.outputFileName]) result.ratings = ratings[...]]. *)
Definition rateResult (ratings : gmap string (gmap string Z)) (result : BatchResult)
  : RatedResult :=
  match getProperty ratings (outputFileName result) with
  | own given =>
      rated
        {| br_model := br_model result; modelLabel := modelLabel result;
           br_complexity := br_complexity result; br_variant := br_variant result;
           outputFileName := outputFileName result; generation := generation result;
           generationMs := generationMs result; postProcessMs := postProcessMs result;
           br_ratings := given;
           br_error := br_error result |}
  | inherited member => ratings_overwritten result member
  | missing => rated result
  end.

(** The run after the loop: only [results] is touched. *)
Definition rateRun (ratings : gmap string (gmap string Z)) (meta : BatchRun)
  : RatedRun :=
  {| rated_id := run_id meta;
     rated_timestamp := run_timestamp meta;
     rated_inputFileName := run_inputFileName meta;
     rated_totalIterations := totalIterations meta;
     rated_completedIterations := completedIterations meta;
     rated_failedIterations := failedIterations meta;
     rated_results := map (rateResult ratings) (run_results meta) |}.

(** A run seen as a rated run, and back when every entry holds ratings. *)
Definition asRated (run : BatchRun) : RatedRun :=
  {| rated_id := run_id run;
     rated_timestamp := run_timestamp run;
     rated_inputFileName := run_inputFileName run;
     rated_totalIterations := totalIterations run;
     rated_completedIterations := completedIterations run;
     rated_failedIterations := failedIterations run;
     rated_results := map rated (run_results run) |}.

Fixpoint ratedEntries (entries : list RatedResult) : option (list BatchResult) :=
  match entries with
  | [] => Some []
  | rated result :: rest =>
      match ratedEntries rest with
      | Some results => Some (result :: results)
      | None => None
      end
  | ratings_overwritten _ _ :: _ => None
  end.

Definition asBatchRun (run : RatedRun) : option BatchRun :=
  match ratedEntries (rated_results run) with
  | Some results =>
      Some {| run_id := rated_id run;
              run_timestamp := rated_timestamp run;
              run_inputFileName := rated_inputFileName run;
              totalIterations := rated_totalIterations run;
              completedIterations := rated_completedIterations run;
              failedIterations := rated_failedIterations run;
              run_results := results |}
  | None => None
  end.

(** The own properties of the ratings a results page starts from: for every
    result with at least one rating, [existingRatings[r.outputFileName] =
    r.ratings]; an assignment to [__proto__] sets the prototype of the
    object and adds no own property. *)
Definition existingRatings (run : BatchRun) : gmap string (gmap string Z) :=
  fold_left
    (fun acc r =>
       if (0 <? size (br_ratings r))%nat
          && negb (String.eqb (outputFileName r) "__proto__")
       then <[outputFileName r := br_ratings r]> acc
       else acc)
    (run_results run) ∅.

Section ResultsStore.

Context {W : Type}.

(** [loadMetadata] and [saveMetadata]: reading and writing [metadata.json]
    of a batch directory, through the disk. *)
Record MetadataStore := {
  ms_loadMetadata : string -> Eff W BatchRun;
  ms_saveMetadata : string -> RatedRun -> Eff W unit
}.

Variable store : MetadataStore.

Definition updateRatings (batchId : string)
    (ratings : gmap string (gmap string Z)) : Eff W RatedRun :=
  await meta <- ms_loadMetadata store batchId in
  let rated := rateRun ratings meta in
  await _ <- ms_saveMetadata store batchId rated in
  pure rated.

Definition updateRatingsAction (batchId : string)
    (ratings : gmap string (gmap string Z)) : Action W unit :=
  tryAction
    (await _ <- updateRatings batchId ratings in
     pure tt).

End ResultsStore.

Arguments MetadataStore : clear implicits.

(** ** Serving the stored images: [app/api/test-images/[...path]/route.ts] *)

Inductive ResponseBody (Buffer : Type) :=
  | body_text (text : string)
  | body_bytes (bytes : Buffer).
Arguments body_text {Buffer} text.
Arguments body_bytes {Buffer} bytes.

Record FileResponse (Buffer : Type) := {
  resp_status : Z;
  resp_body : ResponseBody Buffer;
  resp_contentType : option string;
  resp_cacheControl : option string
}.
Arguments resp_status {Buffer} _.
Arguments resp_body {Buffer} _.
Arguments resp_contentType {Buffer} _.
Arguments resp_cacheControl {Buffer} _.

(** The content type chosen from the extension of the file path:
    [filePath.split(".").pop()?.toLowerCase()]. *)
Definition contentTypeOf (filePath : string) : string :=
  let ext := JS.toLowerCase (List.last (JS.split "." filePath) "") in
  if String.eqb ext "png" then "image/png"
  else if String.eqb ext "jpg" || String.eqb ext "jpeg" then "image/jpeg"
  else if String.eqb ext "webp" then "image/webp"
  else "application/octet-stream".

(** The test of the traversal guard on one segment. *)
Definition badSegment (segment : string) : bool :=
  JS.includes ".." segment || JS.includes "/" segment.

Section ImageRoute.

Context {W Buffer : Type}.

(** The directory the images live in ([process.cwd()/test-results]) and the
    platform's [path.join], both outside the repository; [stat] reports
    whether the path is a regular file and throws when it does not exist. *)
Variable RESULTS_DIR : string.
Variable pathJoin : list string -> string.
Variable stat : string -> Eff W bool.
Variable readFile : string -> Eff W Buffer.

Definition notFound : FileResponse Buffer :=
  {| resp_status := 404; resp_body := body_text "Not found";
     resp_contentType := None; resp_cacheControl := None |}.

Definition forbidden : FileResponse Buffer :=
  {| resp_status := 403; resp_body := body_text "Forbidden";
     resp_contentType := None; resp_cacheControl := None |}.

Definition serveFile (filePath : string) : Eff W (FileResponse Buffer) :=
  await isFile <- stat filePath in
  if negb isFile then pure notFound
  else
    await buffer <- readFile filePath in
    pure {| resp_status := 200; resp_body := body_bytes buffer;
            resp_contentType := Some (contentTypeOf filePath);
            resp_cacheControl := Some "public, max-age=31536000, immutable" |}.

Definition GET (segments : list string) (w : W) : FileResponse Buffer * W :=
  if (length segments <? 2)%nat || (3 <? length segments)%nat then (notFound, w)
  else if existsb badSegment segments then (forbidden, w)
  else
    let filePath := pathJoin (RESULTS_DIR :: segments) in
    match serveFile filePath w with
    | (Returned response, w') => (response, w')
    | (Thrown _, w') => (notFound, w')
    end.

End ImageRoute.

(** ** The single-image pipeline: [lib/pipeline/orchestrator.ts] *)

Record PipelineOptions := {
  targetComplexity : ComplexityLevel;
  promptVariant : PromptVariant;
  preserveFaces : bool;
  po_outputFormat : OutputFormat;
  po_outputWidth : option Z;
  po_outputHeight : option Z
}.

(** [runPipeline] post-processes the URL of the generated image. *)
Record PipelineOutput (Buffer : Type) := {
  finalImage : Buffer;
  mimeType : string;
  out_imageAnalysis : ImageAnalysis;
  out_analysis : AnalysisResult;
  out_generation : GenerationResult;
  analysisMs : float;
  out_generationMs : float;
  postProcessingMs : float;
  totalMs : float
}.
Arguments finalImage {Buffer} _.
Arguments mimeType {Buffer} _.
Arguments out_imageAnalysis {Buffer} _.
Arguments out_analysis {Buffer} _.
Arguments out_generation {Buffer} _.
Arguments analysisMs {Buffer} _.
Arguments out_generationMs {Buffer} _.
Arguments postProcessingMs {Buffer} _.
Arguments totalMs {Buffer} _.

Section Pipeline.

Context {W Buffer : Type}.
Variable svc : Services W Buffer.

(** [PipelineOptionsSchema.safeParse]: the validated options, or the
    message of the validation error; the schema library is not part of the
    repository. *)
Variable safeParse : PipelineOptions -> string + PipelineOptions.

(** [input.image]: a URL, or a file to upload. *)
Definition resolveImageUrl (image : string + File Buffer) : Eff W string :=
  match image with
  | inl url => pure url
  | inr file => uploadToFalStorage svc file
  end.

Definition analyzeImage (image : string + File Buffer)
  : Eff W (ImageAnalysis * AnalysisResult) :=
  await imageUrl <- resolveImageUrl image in
  await imageAnalysis <- analyzePhoto svc imageUrl in
  let analysisResult := imageAnalysisToAnalysisResult imageAnalysis in
  pure (imageAnalysis, analysisResult).

Definition generateColoringPage (options : PipelineOptions)
    (analysis : AnalysisResult) : Eff W GenerationResult :=
  let '(prompt, negativePrompt) :=
    buildGenerationPrompt (promptVariant options) (targetComplexity options)
                          (Some analysis) in
  let inferenceConfig := getInferenceConfig (targetComplexity options) in
  await response <-
    callImageGeneration svc
      {| igo_prompt := prompt; igo_negativePrompt := negativePrompt;
         igo_imageSize := "square_hd";
         igo_numInferenceSteps := numInferenceSteps inferenceConfig;
         igo_guidanceScale := guidanceScale inferenceConfig |} in
  match igr_images response with
  | [] => throw "Image generation returned no images"
  | firstImage :: _ =>
      pure {| imageUrl := gi_url firstImage;
              width := gi_width firstImage; height := gi_height firstImage;
              gr_model := "fal-ai/fast-sdxl"; promptUsed := prompt;
              negativePromptUsed := Some negativePrompt;
              seed := Some (igr_seed response);
              gr_description := None |}
  end.

(** The options [postProcess] hands to [postProcessColoringPage]. *)
Definition postProcessOptions (outputFormat : option OutputFormat)
    (outputWidth outputHeight : option Z) : PostProcessOptions :=
  {| pp_threshold := Some 128; pp_denoise := Some true;
     pp_denoiseKernel := Some 3;
     pp_outputFormat := Some (default fmt_png outputFormat);
     pp_outputWidth := outputWidth; pp_outputHeight := outputHeight |}.

Definition postProcess (imageUrl : string) (outputFormat : option OutputFormat)
    (outputWidth outputHeight : option Z) : Eff W Buffer :=
  postProcessColoringPage svc imageUrl
    (postProcessOptions outputFormat outputWidth outputHeight).

Definition runPipeline (image : string + File Buffer) (options : PipelineOptions)
  : Eff W (PipelineOutput Buffer) :=
  await pipelineStart <- observe (performanceNow svc) in
  match safeParse options with
  | inl message => throw ("Invalid pipeline options: " +:+ message)
  | inr validated =>
      await analysisStart <- observe (performanceNow svc) in
      await analysed <- analyzeImage image in
      let '(imageAnalysis, analysisResult) := analysed in
      await analysisStop <- observe (performanceNow svc) in
      let analysisMs := (analysisStop - analysisStart)%float in
      await generationStart <- observe (performanceNow svc) in
      await generation <- generateColoringPage validated analysisResult in
      await generationStop <- observe (performanceNow svc) in
      let generationMs := (generationStop - generationStart)%float in
      await postProcessStart <- observe (performanceNow svc) in
      let outputFormat :=
        match po_outputFormat validated with
        | fmt_jpeg => fmt_jpeg
        | fmt_png => fmt_png
        end in
      await finalImage <-
        postProcess (imageUrl generation) (Some outputFormat)
                    (po_outputWidth validated) (po_outputHeight validated) in
      await postProcessStop <- observe (performanceNow svc) in
      let postProcessingMs := (postProcessStop - postProcessStart)%float in
      await pipelineStop <- observe (performanceNow svc) in
      let totalMs := (pipelineStop - pipelineStart)%float in
      pure {| finalImage := finalImage;
              mimeType :=
                match outputFormat with
                | fmt_png => "image/png"
                | fmt_jpeg => "image/jpeg"
                end;
              out_imageAnalysis := imageAnalysis;
              out_analysis := analysisResult;
              out_generation := generation;
              analysisMs := mathRound svc analysisMs;
              out_generationMs := mathRound svc generationMs;
              postProcessingMs := mathRound svc postProcessingMs;
              totalMs := mathRound svc totalMs |}
  end.

End Pipeline.

(** ** Definitions for the further properties *)

(** How much of the background a strategy keeps, from none to all. *)
Definition strategyRank (s : BackgroundStrategy) : nat :=
  match s with
  | bs_remove => 0
  | bs_simplify => 1
  | bs_preserve_structure => 2
  | bs_preserve_detail => 3
  end.

(** [inferMediaType] of [lib/pipeline/analyzer.ts]: a buffer is its list of
    bytes; [buffer[i] === v] is false when [i] is out of range. *)
Definition byteIs (buffer : list Z) (i : nat) (v : Z) : bool :=
  match buffer !! i with
  | Some b => b =? v
  | None => false
  end.

Definition inferMediaType (buffer : list Z) : string :=
  if byteIs buffer 0 0xff && byteIs buffer 1 0xd8 then "image/jpeg"
  else if byteIs buffer 0 0x89 && byteIs buffer 1 0x50
          && byteIs buffer 2 0x4e && byteIs buffer 3 0x47 then "image/png"
  else if byteIs buffer 0 0x47 && byteIs buffer 1 0x49
          && byteIs buffer 2 0x46 then "image/gif"
  else if byteIs buffer 0 0x52 && byteIs buffer 1 0x49
          && byteIs buffer 2 0x46 && byteIs buffer 3 0x46 then "image/webp"
  else "image/jpeg".

(** The label of an iteration on the page: ["{complexity} / {variant} / {label}"]. *)
Definition iterationLabel (t : Triple) : string :=
  let '(model, complexity, variant) := t in
  ComplexityLevel_str complexity +:+ " / " +:+ PromptVariant_str variant
  +:+ " / " +:+ gm_label model.

(** The lines of the page's error list that a list of attempts gives rise
    to: one per failed attempt, in order. *)
Definition errorLines (outcomes : list (Triple * ActionResult GenerateIterationResult))
  : list string :=
  flat_map (fun o => match snd o with
                     | Failure e => [iterationLabel (fst o) +:+ ": " +:+ e]
                     | Success _ => []
                     end) outcomes.

(** The file name [buildOutputFileName] gives an iteration of the matrix. *)
Definition tripleFileName (t : Triple) : string :=
  let '(model, complexity, variant) := t in
  buildOutputFileName (ComplexityLevel_str complexity)
                      (PromptVariant_str variant) (gm_id model).

(** What the demo world returns for [demoParams] when nothing fails. *)
Definition demoRecord : GenerateIterationResult :=
  {| gir_outputFileName := "adult--direct-transform--nano-banana.png";
     gir_modelLabel := "Nano Banana";
     gir_generation :=
       {| imageUrl := "https://fal.media/files/out.png";
          width := None; height := None;
          gr_model := "fal-ai/nano-banana/edit";
          promptUsed :=
            buildEditPrompt direct_transform adult
              (Some (imageAnalysisToAnalysisResult parkPhoto));
          negativePromptUsed := None; seed := None;
          gr_description := None |};
     gir_generationMs := 1000;
     gir_postProcessMs := 0 |}.

(** A small file system for the image route: one stored image, one
    directory, nothing else; the world counts the calls. *)
Definition demoStat (path : string) : Eff nat bool :=
  fun w =>
    if String.eqb path "/srv/test-results/b1/outputs/adult--direct-transform--nano-banana.PNG"
    then (Returned true, S w)
    else if String.eqb path "/srv/test-results/b1/outputs"
    then (Returned false, S w)
    else (Thrown "ENOENT: no such file or directory", S w).

Definition demoReadFile (path : string) : Eff nat string :=
  fun w => (Returned ("bytes of " +:+ path), S w).

Definition demoGET : list string -> nat -> FileResponse string * nat :=
  GET "/srv/test-results" (JS.join "/") demoStat demoReadFile.

(** A validator for the demonstrations of the pipeline: it rejects an
    output width that is not positive, as the options schema does. *)
Definition demoSafeParse (options : PipelineOptions) : string + PipelineOptions :=
  match po_outputWidth options with
  | Some n => if n <=? 0 then inl "Number must be greater than 0" else inr options
  | None => inr options
  end.

(** Services whose world counts the reads of the clock; the clock shows
    0, 0, 0.625, 0.625, 1.25, 1.25, 1.875, 1.875 milliseconds and nothing
    fails. *)
Definition tickingServices : Services nat unit :=
  {| newBatchId := fun w => ("1a2b3c4d-1700000000000", w);
     performanceNow := fun w =>
       (nth w [0; 0; 0.625; 0.625; 1.25; 1.25; 1.875; 1.875]%float 1.875%float, S w);
     mathRound := demoMathRound;
     jsonNumber := demoJsonNumber;
     isoNow := fun w => ("2025-01-01T00:00:00.000Z", w);
     initBatchDir := fun _ => pure tt;
     saveInputImage := fun _ _ ext => pure ("input." +:+ ext);
     uploadToFalStorage := fun _ => pure "https://fal.media/files/input.png";
     analyzePhoto := fun _ => pure parkPhoto;
     saveAnalysis := fun _ _ => pure tt;
     callImageEdit := fun _ =>
       pure {| eir_images := ["https://fal.media/files/out.png"];
               eir_description := None |};
     callImageGeneration := fun _ =>
       pure {| igr_images := [ {| gi_url := "https://fal.media/files/out.png";
                                  gi_width := None; gi_height := None |} ];
               igr_seed := 7%float |};
     postProcessColoringPage := fun _ _ => pure tt;
     saveOutputImage := fun _ _ _ => pure tt;
     saveMetadata := fun _ _ => pure tt |}.

Definition demoOptions (outputFormat : OutputFormat) (outputWidth : option Z)
  : PipelineOptions :=
  {| targetComplexity := child; promptVariant := preservation_heavy;
     preserveFaces := true; po_outputFormat := outputFormat;
     po_outputWidth := outputWidth; po_outputHeight := None |}.


(** A disk for the metadata of the demonstrations: the runs stored so far,
    by batch id; loading a batch that was never saved throws, and so does
    loading one whose entries do not all hold ratings. *)
Definition demoStore : MetadataStore (gmap string RatedRun) :=
  {| ms_loadMetadata := fun batchId disk =>
       match disk !! batchId with
       | Some stored =>
           match asBatchRun stored with
           | Some run => (Returned run, disk)
           | None => (Thrown "metadata.json holds no batch run", disk)
           end
       | None => (Thrown "ENOENT: no such file or directory", disk)
       end;
     ms_saveMetadata := fun batchId run disk =>
       (Returned tt, <[batchId := run]> disk) |}.

(** A stored run with one entry that has no ratings and the name of a
    member of [Object.prototype]. *)
Definition protoNamedRun : BatchRun :=
  {| run_id := "1a2b3c4d-1700000000000";
     run_timestamp := "2025-01-01T00:00:00.000Z";
     run_inputFileName := "family.jpg";
     totalIterations := 1; completedIterations := 1; failedIterations := 0;
     run_results :=
       [ {| br_model := "fal-ai/nano-banana/edit"; modelLabel := "Nano Banana";
            br_complexity := "adult"; br_variant := "direct-transform";
            outputFileName := "toString";
            generation :=
              {| imageUrl := "https://fal.media/files/out.png";
                 width := None; height := None;
                 gr_model := "fal-ai/nano-banana/edit"; promptUsed := "";
                 negativePromptUsed := None; seed := None;
                 gr_description := None |};
            generationMs := 1000; postProcessMs := 0;
            br_ratings := ∅; br_error := None |} ] |}.

(** * Properties *)

(** ** [imageAnalysisToAnalysisResult] *)

Lemma elements_unfold (analysis : ImageAnalysis) :
  elements (imageAnalysisToAnalysisResult analysis) =
    let elements0 :=
      imap subjectElement (subjects analysis)
      ++ imap (backgroundElement (length (subjects analysis)))
              (keyElements (background analysis)) in
    if (length elements0 =? 0)%nat then elements0 ++ [sceneElement analysis]
    else elements0.
Proof. reflexivity. Qed.

(** C1: the mapper is a total function whose [elements] is never empty, of
    length [max 1 (|subjects| + |keyElements|)]; with no subject and no key
    element it is exactly the one fallback element
    [{label: "scene", importance: 1, category: subject,
      description: background.description}]. *)
Theorem imageAnalysisToAnalysisResult_elements_nonempty (analysis : ImageAnalysis) :
  (1 <= length (elements (imageAnalysisToAnalysisResult analysis)))%nat
  /\ length (elements (imageAnalysisToAnalysisResult analysis))
     = Nat.max 1 (length (subjects analysis)
                  + length (keyElements (background analysis)))
  /\ (subjects analysis = [] ->
      keyElements (background analysis) = [] ->
      elements (imageAnalysisToAnalysisResult analysis)
      = [ {| el_label := "scene"; el_importance := 1;
             el_category := cat_subject;
             el_description := bg_description (background analysis) |} ]).
Proof.
  rewrite elements_unfold. cbv zeta.
  set (elements0 := imap _ _ ++ imap _ _).
  assert (Hlen : length elements0
                 = (length (subjects analysis)
                    + length (keyElements (background analysis)))%nat).
  { subst elements0. now rewrite length_app, !length_imap. }
  split; [|split].
  - destruct (Nat.eqb_spec (length elements0) 0) as [H0|H0].
    + rewrite length_app. simpl. lia.
    + lia.
  - destruct (Nat.eqb_spec (length elements0) 0) as [H0|H0].
    + rewrite length_app. simpl. lia.
    + lia.
  - intros Hs Hk. subst elements0. rewrite Hs, Hk. reflexivity.
Qed.

Lemma imageAnalysisToAnalysisResult_elements_nonempty_witness :
  elements (imageAnalysisToAnalysisResult emptyScene)
  = [ {| el_label := "scene"; el_importance := 1; el_category := cat_subject;
         el_description := "plain white wall" |} ].
Proof.
  apply (proj2 (proj2 (imageAnalysisToAnalysisResult_elements_nonempty emptyScene)));
    reflexivity.
Defined.

Lemma filter_sublist {A} (f : A -> bool) (l : list A) : sublist (List.filter f l) l.
Proof.
  induction l as [|a l IH]; simpl.
  - constructor.
  - destruct (f a); now constructor.
Qed.

Lemma faceRegions_unfold (analysis : ImageAnalysis) :
  faceRegions (imageAnalysisToAnalysisResult analysis)
  = map subjectToFaceRegion
        (List.filter (isFaceSubject analysis) (subjects analysis)).
Proof. reflexivity. Qed.

Lemma isFaceSubject_features (analysis : ImageAnalysis) (s : Subject) :
  isFaceSubject analysis s = true -> distinctiveFeatures s <> [].
Proof.
  unfold isFaceSubject. intros H Hnil. rewrite Hnil in H. discriminate H.
Qed.

(** C10: every face region of the output has at least one distinguishing
    feature; the face regions are the images, in order, of a subsequence of
    the subjects; and there are no more of them than subjects. *)
Theorem faceRegions_features_order_length (analysis : ImageAnalysis) :
  Forall (fun face => face_distinguishingFeatures face <> [])
         (faceRegions (imageAnalysisToAnalysisResult analysis))
  /\ (exists kept,
         sublist kept (subjects analysis)
         /\ faceRegions (imageAnalysisToAnalysisResult analysis)
            = map subjectToFaceRegion kept)
  /\ (length (faceRegions (imageAnalysisToAnalysisResult analysis))
      <= length (subjects analysis))%nat.
Proof.
  rewrite faceRegions_unfold. split; [|split].
  - rewrite List.Forall_map, List.Forall_forall. intros s Hs.
    apply List.filter_In in Hs as [_ Hs]. simpl.
    now apply isFaceSubject_features with analysis.
  - exists (List.filter (isFaceSubject analysis) (subjects analysis)).
    split; [apply filter_sublist | reflexivity].
  - rewrite length_map. apply sublist_length, filter_sublist.
Qed.

(** ** [bboxToPosition] *)

(** Case analysis on the comparisons with the two thresholds. *)
Ltac threshold_cases :=
  repeat match goal with
         | |- context [PrimFloat.ltb ?a ?b] => destruct (PrimFloat.ltb a b)
         end.

Lemma bboxToPosition_buckets (bbox : BoundingBox) :
  bboxToPosition bbox
  = combineBuckets (verticalBucket (bb_y bbox)) (horizontalBucket (bb_x bbox)).
Proof.
  unfold bboxToPosition, combineBuckets, verticalBucket, horizontalBucket.
  threshold_cases; reflexivity.
Qed.

Lemma combineBuckets_nine (x y : float) :
  In (combineBuckets (verticalBucket y) (horizontalBucket x))
     (DECLARED_POSITIONS ++ ["top"; "bottom"]).
Proof.
  unfold combineBuckets, verticalBucket, horizontalBucket.
  threshold_cases; simpl; tauto.
Qed.

(** C5, as the claim states it, fails: a face subject whose box has its
    corner at x = 0.5, y = 0.125 gets the position ["top"], which is not one
    of the seven declared strings; and the buckets of the box's centre
    (0.625, 0.375) would give ["center"]. *)
Lemma bboxToPosition_top_not_declared :
  map face_position (faceRegions (imageAnalysisToAnalysisResult parkPhoto)) = ["top"]
  /\ ~ In "top" DECLARED_POSITIONS
  /\ combineBuckets (verticalBucket (boxCenterY (boundingBox womanAtTop)))
                    (horizontalBucket (boxCenterX (boundingBox womanAtTop)))
     = "center".
Proof.
  split; [reflexivity|]. split; [|reflexivity].
  simpl. intros [H|[H|[H|[H|[H|[H|[H|[]]]]]]]]; discriminate H.
Qed.

(** C5, amended: the position of every face region is computed from the
    [x] and [y] fields of its subject's box alone (the box's corner; width
    and height are not read): left if x<0.33, right if x>0.66, top if
    y<0.33, bottom if y>0.66, joined as vertical-horizontal when both are
    set, the one that is set otherwise, ["center"] when none is; the result
    is one of nine strings, the seven declared ones and ["top"] and
    ["bottom"]. *)
Theorem faceRegion_position_buckets (analysis : ImageAnalysis) (face : FaceRegion) :
  In face (faceRegions (imageAnalysisToAnalysisResult analysis)) ->
  exists subject,
    In subject (subjects analysis)
    /\ isFaceSubject analysis subject = true
    /\ face = subjectToFaceRegion subject
    /\ face_position face
       = combineBuckets (verticalBucket (bb_y (boundingBox subject)))
                        (horizontalBucket (bb_x (boundingBox subject)))
    /\ (forall w h,
           bboxToPosition {| bb_x := bb_x (boundingBox subject);
                             bb_y := bb_y (boundingBox subject);
                             bb_width := w; bb_height := h |}
           = face_position face)
    /\ In (face_position face) (DECLARED_POSITIONS ++ ["top"; "bottom"]).
Proof.
  rewrite faceRegions_unfold. intros Hin.
  apply List.in_map_iff in Hin as (subject & <- & Hs).
  apply List.filter_In in Hs as [Hs Hface].
  exists subject.
  split; [exact Hs|]. split; [exact Hface|]. split; [reflexivity|].
  split; [apply bboxToPosition_buckets|]. split.
  - intros w h. reflexivity.
  - simpl face_position. rewrite bboxToPosition_buckets. apply combineBuckets_nine.
Qed.

Lemma faceRegion_position_buckets_witness :
  exists subject,
    In subject (subjects parkPhoto)
    /\ isFaceSubject parkPhoto subject = true
    /\ subjectToFaceRegion womanAtTop = subjectToFaceRegion subject
    /\ face_position (subjectToFaceRegion womanAtTop)
       = combineBuckets (verticalBucket (bb_y (boundingBox subject)))
                        (horizontalBucket (bb_x (boundingBox subject)))
    /\ (forall w h,
           bboxToPosition {| bb_x := bb_x (boundingBox subject);
                             bb_y := bb_y (boundingBox subject);
                             bb_width := w; bb_height := h |}
           = face_position (subjectToFaceRegion womanAtTop))
    /\ In (face_position (subjectToFaceRegion womanAtTop))
          (DECLARED_POSITIONS ++ ["top"; "bottom"]).
Proof.
  apply (faceRegion_position_buckets parkPhoto (subjectToFaceRegion womanAtTop)).
  left. reflexivity.
Defined.

(** ** [deriveBackgroundStrategy] *)

(** C6: the strategy depends on [(photoType, complexity)] only and follows
    the priority order: landmark gives preserve-detail, landscape gives
    preserve-structure, and any other type goes by the complexity:
    <=2 remove, <=5 simplify, <=8 preserve-structure, above preserve-detail;
    so landscape at complexity 1 is preserve-structure. *)
Theorem deriveBackgroundStrategy_priority (complexity : Z) (photoType : string) :
  (photoType = "landmark" ->
   deriveBackgroundStrategy complexity photoType = bs_preserve_detail)
  /\ (photoType = "landscape" ->
      deriveBackgroundStrategy complexity photoType = bs_preserve_structure)
  /\ (photoType <> "landmark" -> photoType <> "landscape" ->
      (complexity <= 2 ->
       deriveBackgroundStrategy complexity photoType = bs_remove)
      /\ (2 < complexity <= 5 ->
          deriveBackgroundStrategy complexity photoType = bs_simplify)
      /\ (5 < complexity <= 8 ->
          deriveBackgroundStrategy complexity photoType = bs_preserve_structure)
      /\ (8 < complexity ->
          deriveBackgroundStrategy complexity photoType = bs_preserve_detail))
  /\ deriveBackgroundStrategy 1 "landmark" = bs_preserve_detail
  /\ deriveBackgroundStrategy 2 "other" = bs_remove
  /\ deriveBackgroundStrategy 5 "other" = bs_simplify
  /\ deriveBackgroundStrategy 8 "other" = bs_preserve_structure
  /\ deriveBackgroundStrategy 10 "other" = bs_preserve_detail
  /\ deriveBackgroundStrategy 1 "landscape" = bs_preserve_structure.
Proof.
  split; [|split; [|split]].
  - intros ->. reflexivity.
  - intros ->. reflexivity.
  - intros Hlm Hls. unfold deriveBackgroundStrategy.
    apply String.eqb_neq in Hlm, Hls. rewrite Hlm, Hls.
    repeat split; intros H;
      repeat (match goal with
              | |- context [(?a <=? ?b)%Z] => destruct (Z.leb_spec a b)
              end; try lia; try reflexivity).
  - repeat split; reflexivity.
Qed.

Lemma deriveBackgroundStrategy_priority_witness :
  deriveBackgroundStrategy 9 "landmark" = bs_preserve_detail
  /\ deriveBackgroundStrategy 1 "landscape" = bs_preserve_structure
  /\ deriveBackgroundStrategy 2 "pet" = bs_remove
  /\ deriveBackgroundStrategy 4 "pet" = bs_simplify
  /\ deriveBackgroundStrategy 7 "pet" = bs_preserve_structure
  /\ deriveBackgroundStrategy 9 "pet" = bs_preserve_detail.
Proof.
  assert (Hlm : "pet" <> "landmark") by discriminate.
  assert (Hls : "pet" <> "landscape") by discriminate.
  split; [|split; [|split; [|split; [|split]]]].
  - apply (proj1 (deriveBackgroundStrategy_priority 9 "landmark")). reflexivity.
  - apply (proj1 (proj2 (deriveBackgroundStrategy_priority 1 "landscape"))).
    reflexivity.
  - apply (proj1 (proj2 (proj2 (deriveBackgroundStrategy_priority 2 "pet")))
             Hlm Hls). lia.
  - apply (proj1 (proj2 (proj2 (deriveBackgroundStrategy_priority 4 "pet")))
             Hlm Hls). lia.
  - apply (proj1 (proj2 (proj2 (deriveBackgroundStrategy_priority 7 "pet")))
             Hlm Hls). lia.
  - apply (proj1 (proj2 (proj2 (deriveBackgroundStrategy_priority 9 "pet")))
             Hlm Hls). lia.
Defined.

(** The mapper passes its own [photoType] and [background.complexity]. *)
Lemma backgroundStrategy_unfold (analysis : ImageAnalysis) :
  backgroundStrategy (imageAnalysisToAnalysisResult analysis)
  = deriveBackgroundStrategy (bg_complexity (background analysis))
                             (PhotoType_str (photoType analysis)).
Proof. reflexivity. Qed.

(** ** [getInferenceConfig] *)

(** C9: along [toddler < child < tween < adult] the number of inference
    steps strictly increases, from 20 to 35, and the guidance scale never
    increases, from 8.0 down to 7.0. *)
Theorem getInferenceConfig_monotone :
  (forall a b : ComplexityLevel,
      (levelRank a < levelRank b)%nat ->
      numInferenceSteps (getInferenceConfig a)
      < numInferenceSteps (getInferenceConfig b)
      /\ PrimFloat.leb (guidanceScale (getInferenceConfig b))
                       (guidanceScale (getInferenceConfig a)) = true)
  /\ numInferenceSteps (getInferenceConfig toddler) = 20
  /\ numInferenceSteps (getInferenceConfig adult) = 35
  /\ guidanceScale (getInferenceConfig toddler) = 8.0%float
  /\ guidanceScale (getInferenceConfig adult) = 7.0%float.
Proof.
  split; [|repeat split; reflexivity].
  intros a b Hlt.
  destruct a, b; simpl in Hlt; try lia; split; reflexivity.
Qed.

Lemma getInferenceConfig_monotone_witness :
  numInferenceSteps (getInferenceConfig child)
  < numInferenceSteps (getInferenceConfig tween)
  /\ PrimFloat.leb (guidanceScale (getInferenceConfig tween))
                   (guidanceScale (getInferenceConfig child)) = true.
Proof.
  apply (proj1 getInferenceConfig_monotone child tween). simpl. lia.
Defined.

(** ** [buildEditPrompt] *)

Lemma endsWith_refl (p : string) : JS.endsWith p p = true.
Proof. destruct p; simpl; rewrite ?Ascii.eqb_refl, ?String.eqb_refl; reflexivity. Qed.

Lemma append_cons (x : ascii) (a b : string) :
  String x a +:+ b = String x (a +:+ b).
Proof. reflexivity. Qed.

Lemma append_nil (b : string) : "" +:+ b = b.
Proof. reflexivity. Qed.

Lemma append_assoc (a b c : string) : (a +:+ b) +:+ c = a +:+ (b +:+ c).
Proof.
  induction a as [|x a IH]; [reflexivity|].
  now rewrite !append_cons, IH.
Qed.

Lemma endsWith_app (p s : string) : JS.endsWith p (s +:+ p) = true.
Proof.
  induction s as [|c s IH].
  - apply endsWith_refl.
  - rewrite append_cons. simpl. rewrite IH. apply orb_true_r.
Qed.

(** C8: for every variant, level and optional analysis, the edit prompt is
    the variant's positive prompt (the one [buildGenerationPrompt] returns)
    followed by [" MUST NOT include: "], the negative prompt and ["."]; the
    negative prompt is the comma-joined list of the twenty fixed terms; so
    the edit prompt ends with ["MUST NOT include: {negativePrompt}."]. *)
Theorem buildEditPrompt_negative_suffix (variant : PromptVariant)
    (level : ComplexityLevel) (analysis : option AnalysisResult) :
  buildEditPrompt variant level analysis
  = fst (buildGenerationPrompt variant level analysis)
    +:+ " MUST NOT include: "
    +:+ snd (buildGenerationPrompt variant level analysis) +:+ "."
  /\ fst (buildGenerationPrompt variant level analysis)
     = VARIANT_BUILDERS variant level analysis
  /\ snd (buildGenerationPrompt variant level analysis) = NEGATIVE_PROMPT
  /\ NEGATIVE_PROMPT
     = "color, shading, gradient, gray, grey, shadow, photograph, photorealistic, 3d render, watermark, text, signature, blurry, low quality, filled areas, solid black regions, halftone, crosshatch, noise, grain"
  /\ length NEGATIVE_TERMS = 20%nat
  /\ JS.endsWith ("MUST NOT include: " +:+ NEGATIVE_PROMPT +:+ ".")
                 (buildEditPrompt variant level analysis) = true.
Proof.
  repeat split.
  unfold buildEditPrompt.
  change (" MUST NOT include: " +:+ NEGATIVE_PROMPT +:+ ".")
    with (" " +:+ ("MUST NOT include: " +:+ NEGATIVE_PROMPT +:+ ".")).
  rewrite <- (append_assoc (VARIANT_BUILDERS variant level analysis) " ").
  apply endsWith_app.
Qed.

(** ** [buildOutputFileName] *)

Lemma isSlugChar_dash : isSlugChar "-" = true.
Proof. reflexivity. Qed.

Lemma replaceOutside_allChars (s : string) :
  allChars isSlugChar (JS.replaceOutside isSlugChar "-" s) = true.
Proof.
  induction s as [|c s IH]; simpl; [reflexivity|].
  rewrite IH, andb_true_r.
  destruct (isSlugChar c) eqn:Hc; [exact Hc | apply isSlugChar_dash].
Qed.

Lemma replaceOutside_length (keep : ascii -> bool) (r : ascii) (s : string) :
  String.length (JS.replaceOutside keep r s) = String.length s.
Proof. induction s as [|c s IH]; simpl; [reflexivity | now rewrite IH]. Qed.

Lemma replaceOutside_id (keep : ascii -> bool) (r : ascii) (s : string) :
  allChars keep s = true -> JS.replaceOutside keep r s = s.
Proof.
  induction s as [|c s IH]; simpl; [reflexivity|].
  intros H. apply andb_true_iff in H as [Hc Hs].
  now rewrite Hc, IH.
Qed.

Lemma length_append (a b : string) :
  String.length (a +:+ b) = (String.length a + String.length b)%nat.
Proof.
  induction a as [|x a IH]; [reflexivity|].
  rewrite append_cons. simpl. now rewrite IH.
Qed.

Lemma eqb_length_neq (a b : string) :
  String.length a <> String.length b -> String.eqb a b = false.
Proof.
  intros H. apply String.eqb_neq. intros ->. now apply H.
Qed.

Lemma stripSuffix_app (p s : string) : JS.stripSuffix p (s +:+ p) = s.
Proof.
  induction s as [|c s IH].
  - rewrite append_nil. destruct p; simpl; [reflexivity|].
    now rewrite Ascii.eqb_refl, String.eqb_refl.
  - rewrite append_cons. cbn [JS.stripSuffix].
    rewrite eqb_length_neq by (simpl; rewrite length_append; lia).
    now rewrite endsWith_app, IH.
Qed.

Lemma startsWith_app (p s : string) : JS.startsWith p (p +:+ s) = true.
Proof.
  induction p as [|c p IH]; [reflexivity|].
  rewrite append_cons. simpl. now rewrite Ascii.eqb_refl, IH.
Qed.

Lemma drop_app (p s : string) : JS.drop (String.length p) (p +:+ s) = s.
Proof.
  induction p as [|c p IH]; [reflexivity|].
  rewrite append_cons. simpl. exact IH.
Qed.

Lemma stripPrefix_app (p s : string) : JS.stripPrefix p (p +:+ s) = s.
Proof. unfold JS.stripPrefix. now rewrite startsWith_app, drop_app. Qed.

(** C4, as the claim states it, fails: the namespace ["registry/"] is not
    stripped, its slash becomes a dash. *)
Lemma buildOutputFileName_registry_kept :
  buildOutputFileName "child" "direct-transform" "registry/model-name/edit"
  = "child--direct-transform--registry-model-name.png"
  /\ buildOutputFileName "child" "direct-transform" "registry/model-name/edit"
     <> "child--direct-transform--model-name.png".
Proof. split; [reflexivity | discriminate]. Qed.

Lemma startsWith_inv (p s : string) :
  JS.startsWith p s = true -> exists rest, s = p +:+ rest.
Proof.
  revert s. induction p as [|a p IH]; intros s H.
  - exists s. reflexivity.
  - destruct s as [|b s]; [discriminate H|].
    simpl in H. apply andb_true_iff in H as [Hab Hps].
    apply Ascii.eqb_eq in Hab as ->.
    destruct (IH s Hps) as [rest ->]. exists rest. reflexivity.
Qed.

Lemma endsWith_inv (p s : string) :
  JS.endsWith p s = true -> exists pre, s = pre +:+ p.
Proof.
  induction s as [|c s IH]; simpl; intros H.
  - rewrite orb_false_r in H. apply String.eqb_eq in H as ->. now exists "".
  - apply orb_true_iff in H as [H|H].
    + apply String.eqb_eq in H as ->. now exists "".
    + destruct (IH H) as [pre ->]. now exists (String c pre).
Qed.

Lemma isSlugChar_spelled (c : ascii) :
  isSlugChar c = true <-> In c slugClass.
Proof.
  assert (E : isSlugChar c = existsb (Ascii.eqb c) slugClass).
  { destruct c as [[] [] [] [] [] [] [] []]; reflexivity. }
  rewrite E. split.
  - intros H. apply existsb_exists in H as (x & Hx & Hcx).
    apply Ascii.eqb_eq in Hcx as ->. exact Hx.
  - intros H. apply existsb_exists. exists c. split; [exact H|].
    apply Ascii.eqb_refl.
Qed.

Lemma replaceOutside_get (keep : ascii -> bool) (r : ascii) (s : string)
    (i : nat) (c : ascii) :
  String.get i s = Some c ->
  String.get i (JS.replaceOutside keep r s) = Some (if keep c then c else r).
Proof.
  revert i. induction s as [|x s IH]; intros i; [discriminate|].
  destruct i as [|i]; simpl.
  - intros H. injection H as ->. reflexivity.
  - apply IH.
Qed.

Lemma stripPrefix_other (p s : string) :
  (forall rest, s <> p +:+ rest) -> JS.stripPrefix p s = s.
Proof.
  intros Hnot. unfold JS.stripPrefix.
  destruct (JS.startsWith p s) eqn:E; [|reflexivity].
  apply startsWith_inv in E as [rest ->]. now destruct (Hnot rest).
Qed.

Lemma stripSuffix_other (p s : string) :
  (forall rest, s <> rest +:+ p) -> JS.stripSuffix p s = s.
Proof.
  intros Hnot. destruct s as [|c s]; cbn [JS.stripSuffix].
  - destruct (String.eqb p ""); reflexivity.
  - destruct (String.eqb_spec p (String c s)) as [->|_].
    + now destruct (Hnot "").
    + destruct (JS.endsWith p s) eqn:E; [|reflexivity].
      apply endsWith_inv in E as [pre ->].
      now destruct (Hnot (String c pre)).
Qed.

(** C4, amended: the file name is ["{complexity}--{variant}--{slug}.png"].
    With [stem] the model without the literal prefix ["fal-ai/"] (the model
    itself when it has no such prefix: no other namespace is stripped) and
    [core] the stem without a final ["/edit"] (the stem itself when it does
    not end so), the slug has the length of [core] and, position by
    position, the character of [core] when that is one of
    [a-z], [0-9] and [-], and ["-"] otherwise.  So ["fal-ai/model-name/edit"]
    at child, direct-transform gives ["child--direct-transform--model-name.png"]
    and ["fal-ai/gpt-image-1.5/edit"] gives the slug ["gpt-image-1-5"]. *)
Theorem buildOutputFileName_slug (complexity variant model stem core : string) :
  (model = "fal-ai/" +:+ stem
   \/ ((forall rest, model <> "fal-ai/" +:+ rest) /\ stem = model)) ->
  (stem = core +:+ "/edit"
   \/ ((forall rest, stem <> rest +:+ "/edit") /\ core = stem)) ->
  buildOutputFileName complexity variant model
  = complexity +:+ "--" +:+ variant +:+ "--" +:+ modelSlug model +:+ ".png"
  /\ String.length (modelSlug model) = String.length core
  /\ (forall (i : nat) (c : ascii),
         String.get i core = Some c ->
         (In c slugClass -> String.get i (modelSlug model) = Some c)
         /\ (~ In c slugClass ->
             String.get i (modelSlug model) = Some "-"%char))
  /\ allChars isSlugChar (modelSlug model) = true
  /\ (allChars isSlugChar core = true ->
      buildOutputFileName complexity variant model
      = complexity +:+ "--" +:+ variant +:+ "--" +:+ core +:+ ".png")
  /\ buildOutputFileName "child" "direct-transform" "fal-ai/model-name/edit"
     = "child--direct-transform--model-name.png"
  /\ buildOutputFileName "child" "direct-transform" "fal-ai/gpt-image-1.5/edit"
     = "child--direct-transform--gpt-image-1-5.png".
Proof.
  intros Hstem Hcore.
  assert (E : JS.stripSuffix "/edit" (JS.stripPrefix "fal-ai/" model) = core).
  { assert (E1 : JS.stripPrefix "fal-ai/" model = stem).
    { destruct Hstem as [->|[Hnot ->]];
        [apply stripPrefix_app | now apply stripPrefix_other]. }
    rewrite E1.
    destruct Hcore as [->|[Hnot ->]];
      [apply stripSuffix_app | now apply stripSuffix_other]. }
  unfold buildOutputFileName, modelSlug. rewrite E.
  split; [reflexivity|]. split; [apply replaceOutside_length|].
  split; [|split; [apply replaceOutside_allChars|split; [|split; reflexivity]]].
  - intros i c Hi. rewrite (replaceOutside_get _ _ _ _ _ Hi). split.
    + intros Hin. apply isSlugChar_spelled in Hin. now rewrite Hin.
    + intros Hnot. destruct (isSlugChar c) eqn:Hc; [|reflexivity].
      apply isSlugChar_spelled in Hc. contradiction.
  - intros Hall. now rewrite replaceOutside_id.
Qed.

Lemma buildOutputFileName_slug_witness :
  String.get 11 (modelSlug "fal-ai/gpt-image-1.5/edit") = Some "-"%char
  /\ buildOutputFileName "adult" "preservation-heavy" "fal-ai/nano-banana-pro/edit"
     = "adult--preservation-heavy--nano-banana-pro.png".
Proof.
  split.
  - apply (proj2 (proj1 (proj2 (proj2
             (buildOutputFileName_slug "adult" "preservation-heavy"
                "fal-ai/gpt-image-1.5/edit" "gpt-image-1.5/edit" "gpt-image-1.5"
                (or_introl eq_refl) (or_introl eq_refl))))
             11%nat "."%char eq_refl)).
    unfold slugClass. cbn [list_ascii_of_string In]. intros H.
    repeat (destruct H as [H|H]; [discriminate H|]). exact H.
  - apply (proj1 (proj2 (proj2 (proj2 (proj2
             (buildOutputFileName_slug "adult" "preservation-heavy"
                "fal-ai/nano-banana-pro/edit" "nano-banana-pro/edit"
                "nano-banana-pro"
                (or_introl eq_refl) (or_introl eq_refl))))))).
    reflexivity.
Defined.

(** ** The batch run: [handleRunAll] and [handleSave] *)

Section BatchFacts.

Context {W Buffer : Type} (svc : Services W Buffer).
Variable models : list GenerationModel.
Variable complexities : list ComplexityLevel.
Variable variants : list PromptVariant.

Lemma tryAction_catches {T} (body : Eff W T) (w w' : W) (e : string) :
  body w = (Thrown e, w') -> tryAction body w = (Failure e, w').
Proof. unfold tryAction. now intros ->. Qed.

Lemma tryAction_returns {T} (body : Eff W T) (w w' : W) (d : T) :
  body w = (Returned d, w') -> tryAction body w = (Success d, w').
Proof. unfold tryAction. now intros ->. Qed.

(** A throw of the analysis call, after the steps before it went well,
    is what [initBatchAction] reports; nothing runs after it. *)
Lemma initBatchAction_analysis_throws (file : File Buffer)
    (w w1 w2 w3 w4 w5 w6 : W) (batchId inputFileName imageUrl e : string) (t : float) :
  newBatchId svc w = (batchId, w1) ->
  initBatchDir svc batchId w1 = (Returned tt, w2) ->
  saveInputImage svc batchId (file_bytes file)
                 (fileExtension (file_name file)) w2
  = (Returned inputFileName, w3) ->
  uploadToFalStorage svc file w3 = (Returned imageUrl, w4) ->
  performanceNow svc w4 = (t, w5) ->
  analyzePhoto svc imageUrl w5 = (Thrown e, w6) ->
  initBatchAction svc (Some file) w = (Failure e, w6).
Proof.
  intros H1 H2 H3 H4 H5 H6. apply tryAction_catches.
  unfold initBatchSteps, andThen, observe.
  now rewrite H1, H2, H3, H4, H5, H6.
Qed.

(** A throw of the generation half is what the action reports. *)
Lemma generateIterationAction_generation_throws (params : GenerateIterationParams)
    (w w0 w1 : W) (t0 : float) (e : string) :
  performanceNow svc w = (t0, w0) ->
  generateImage svc params (isEditModel (gip_model params)) w0 = (Thrown e, w1) ->
  generateIterationAction svc params w = (Failure e, w1).
Proof.
  intros H0 H1. apply tryAction_catches.
  unfold generateIterationSteps, andThen, observe.
  now rewrite H0, H1.
Qed.

(** So is a throw of the post-processing of the generated image. *)
Lemma generateIterationAction_postprocess_throws (params : GenerateIterationParams)
    (w w0 w1 w2 w3 w4 : W) (t0 t1 t2 : float) (gen : GenerationResult) (e : string) :
  performanceNow svc w = (t0, w0) ->
  generateImage svc params (isEditModel (gip_model params)) w0 = (Returned gen, w1) ->
  performanceNow svc w1 = (t1, w2) ->
  performanceNow svc w2 = (t2, w3) ->
  postProcessColoringPage svc (imageUrl gen) pngOnly w3 = (Thrown e, w4) ->
  generateIterationAction svc params w = (Failure e, w4).
Proof.
  intros H0 H1 H2 H3 H4. apply tryAction_catches.
  unfold generateIterationSteps, andThen, observe.
  now rewrite H0, H1, H2, H3, H4.
Qed.

(** One pass of the loop body: one more entry, whatever the action returned. *)
Lemma iterationBody_step (init : InitBatchResult) (t : Triple)
    (ls : LoopState W Buffer) :
  let '(model, complexity, variant) := t in
  let ls' := iterationBody svc init model complexity variant ls in
  let attempt := generateIterationAction svc (paramsFor init t) (world ls) in
  allResults ls' = allResults ls ++ [recordedEntry (t, fst attempt)]
  /\ world ls' = snd attempt
  /\ pg_results (page ls') = allResults ls'
  /\ pg_errors (page ls') = allErrors ls'
  /\ pg_completedCount (page ls') = length (allResults ls')
  /\ pg_file (page ls') = pg_file (page ls)
  /\ pg_batchId (page ls') = pg_batchId (page ls)
  /\ pg_phase (page ls') = pg_phase (page ls)
  /\ pg_error (page ls') = pg_error (page ls).
Proof.
  destruct t as [[model complexity] variant]. cbv zeta.
  unfold iterationBody, paramsFor.
  destruct (generateIterationAction svc _ (world ls)) as [[data|error] w1];
    simpl; repeat split; reflexivity.
Qed.

(** The nested loops visit the triples of [iterationTriples] in order. *)
Lemma runLoops_flat (init : InitBatchResult) (ls : LoopState W Buffer) :
  runLoops svc models complexities variants init ls
  = fold_left
      (fun ls1 (t : Triple) =>
         let '(model, complexity, variant) := t in
         iterationBody svc init model complexity variant ls1)
      (iterationTriples models complexities variants) ls.
Proof.
  unfold runLoops, iterationTriples.
  revert ls. induction models as [|model ms IHm]; intros ls; [reflexivity|].
  simpl. rewrite List.fold_left_app, <- IHm. f_equal.
  clear IHm. revert ls.
  induction complexities as [|complexity cs IHc]; intros ls; [reflexivity|].
  simpl. rewrite List.fold_left_app, <- IHc. f_equal.
  clear IHc. revert ls.
  induction variants as [|variant vs IHv]; intros ls; [reflexivity|].
  simpl. apply IHv.
Qed.

Lemma attemptAll_keys (init : InitBatchResult) (ts : list Triple) (w : W) :
  map fst (fst (attemptAll svc init ts w)) = ts.
Proof.
  revert w. induction ts as [|t ts IH]; intros w; [reflexivity|].
  simpl. destruct (generateIterationAction svc _ w) as [r w1].
  specialize (IH w1). destruct (attemptAll svc init ts w1) as [rs w2].
  simpl in *. now rewrite IH.
Qed.

Lemma attemptAll_length (init : InitBatchResult) (ts : list Triple) (w : W) :
  length (fst (attemptAll svc init ts w)) = length ts.
Proof. now rewrite <- (attemptAll_keys init ts w) at 2; rewrite length_map. Qed.

(** The loop over a list of triples against [attemptAll]. *)
Lemma fold_attemptAll (init : InitBatchResult) (ts : list Triple)
    (ls : LoopState W Buffer) :
  let ls' :=
    fold_left
      (fun ls1 (t : Triple) =>
         let '(model, complexity, variant) := t in
         iterationBody svc init model complexity variant ls1) ts ls in
  allResults ls'
  = allResults ls ++ map recordedEntry (fst (attemptAll svc init ts (world ls)))
  /\ world ls' = snd (attemptAll svc init ts (world ls))
  /\ (pg_results (page ls) = allResults ls ->
      pg_results (page ls') = allResults ls')
  /\ pg_file (page ls') = pg_file (page ls)
  /\ pg_batchId (page ls') = pg_batchId (page ls)
  /\ pg_phase (page ls') = pg_phase (page ls)
  /\ pg_error (page ls') = pg_error (page ls).
Proof.
  cbv zeta. revert ls. induction ts as [|t ts IH]; intros ls.
  - simpl. rewrite app_nil_r. repeat split; auto.
  - cbn [fold_left attemptAll].
    pose proof (iterationBody_step init t ls) as Hstep.
    destruct t as [[model complexity] variant]. cbv zeta in Hstep.
    set (ls1 := iterationBody svc init model complexity variant ls) in *.
    destruct Hstep as (Hres & Hw & Hsync & _ & _ & Hfile & Hbid & Hph & Herr).
    destruct (generateIterationAction svc
                (paramsFor init (model, complexity, variant)) (world ls))
      as [r w1] eqn:Hact.
    simpl in Hres, Hw.
    destruct (IH ls1) as (IHres & IHw & IHsync & IHfile & IHbid & IHph & IHerr).
    rewrite Hw in IHres, IHw.
    destruct (attemptAll svc init ts w1) as [rs w2] eqn:Hrest.
    simpl in *.
    split; [now rewrite IHres, Hres, <- app_assoc|].
    split; [exact IHw|].
    split; [intros _; now apply IHsync|].
    repeat split; congruence.
Qed.

Lemma iterationTriples_length :
  length (iterationTriples models complexities variants)
  = (length models * length complexities * length variants)%nat.
Proof.
  unfold iterationTriples.
  rewrite List.flat_map_constant_length
    with (c := (length complexities * length variants)%nat); [lia|].
  intros model _.
  apply List.flat_map_constant_length. intros complexity _.
  apply length_map.
Qed.

(** The state and world [handleRunAll] ends in after a successful init. *)
Lemma handleRunAll_success (st : PageState Buffer) (w w1 : W)
    (file : File Buffer) (init : InitBatchResult) :
  pg_file st = Some file ->
  initBatchAction svc (Some file) w = (Success init, w1) ->
  let attempts :=
    attemptAll svc init (iterationTriples models complexities variants) w1 in
  let st' := fst (handleRunAll svc models complexities variants st w) in
  snd (handleRunAll svc models complexities variants st w) = snd attempts
  /\ pg_results st' = map recordedEntry (fst attempts)
  /\ pg_phase st' = ph_done
  /\ pg_file st' = Some file
  /\ pg_batchId st' = Some (ibr_batchId init)
  /\ pg_error st' = None.
Proof.
  intros Hfile Hinit. cbv zeta. unfold handleRunAll.
  rewrite Hfile, Hinit, runLoops_flat.
  match goal with
  | |- context [fold_left ?f ?ts ?ls0] =>
      pose proof (fold_attemptAll init ts ls0) as H; cbv zeta in H;
      set (ls' := fold_left f ts ls0) in *
  end.
  destruct H as (Hres & Hw & Hsync & Hf & Hbid & Hph & Herr).
  simpl in *.
  repeat split; try assumption.
  - rewrite Hsync by reflexivity. exact Hres.
  - now rewrite Hf.
Qed.

Lemma handleRunAll_init_failure (st : PageState Buffer) (w w1 : W)
    (file : File Buffer) (e : string) :
  pg_file st = Some file ->
  initBatchAction svc (Some file) w = (Failure e, w1) ->
  let st' := fst (handleRunAll svc models complexities variants st w) in
  snd (handleRunAll svc models complexities variants st w) = w1
  /\ pg_phase st' = ph_error
  /\ pg_error st' = Some e
  /\ pg_results st' = []
  /\ pg_completedCount st' = 0%nat.
Proof.
  intros Hfile Hinit. cbv zeta. unfold handleRunAll.
  rewrite Hfile, Hinit. simpl. repeat split; reflexivity.
Qed.

Lemma recordedEntry_key (o : Triple * ActionResult GenerateIterationResult) :
  entryKey (recordedEntry o) = tripleKey (fst o).
Proof. destruct o as [[[m c] v] [d|e]]; reflexivity. Qed.

Lemma recordedEntry_error (o : Triple * ActionResult GenerateIterationResult) :
  br_error (recordedEntry o)
  = match snd o with Failure e => Some e | Success _ => None end.
Proof. destruct o as [[[m c] v] [d|e]]; reflexivity. Qed.

Lemma recordedEntry_failure_empty
    (o : Triple * ActionResult GenerateIterationResult) :
  is_Some (br_error (recordedEntry o)) ->
  imageUrl (generation (recordedEntry o)) = ""
  /\ promptUsed (generation (recordedEntry o)) = ""
  /\ width (generation (recordedEntry o)) = None
  /\ height (generation (recordedEntry o)) = None
  /\ generationMs (recordedEntry o) = 0%float
  /\ postProcessMs (recordedEntry o) = 0%float.
Proof.
  destruct o as [[[m c] v] [d|e]]; simpl.
  - intros [x Hx]. discriminate Hx.
  - intros _. repeat split; reflexivity.
Qed.

Lemma hasError_recordedEntry (o : Triple * ActionResult GenerateIterationResult) :
  hasError (recordedEntry o)
  = match snd o with Failure e => JS.truthy e | Success _ => false end.
Proof. destruct o as [[[m c] v] [d|e]]; reflexivity. Qed.

Lemma filter_split_length {A} (p : A -> bool) (l : list A) :
  (length (List.filter (fun x => negb (p x)) l) + length (List.filter p l))%nat
  = length l.
Proof.
  induction l as [|a l IH]; [reflexivity|].
  simpl. destruct (p a); simpl; lia.
Qed.

Lemma filter_map_length {A B} (p : B -> bool) (f : A -> B) (l : list A) :
  length (List.filter p (map f l)) = length (List.filter (fun x => p (f x)) l).
Proof.
  induction l as [|a l IH]; [reflexivity|].
  simpl. destruct (p (f a)); simpl; now rewrite IH.
Qed.

Lemma filter_ext_length {A} (p q : A -> bool) (l : list A) :
  (forall x, p x = q x) ->
  length (List.filter p l) = length (List.filter q l).
Proof.
  intros H. induction l as [|a l IH]; [reflexivity|].
  simpl. rewrite H. destruct (q a); simpl; now rewrite IH.
Qed.

Lemma applyRatings_preserves (events : list (string * string * Z))
    (s : PageState Buffer) :
  pg_results (applyRatings events s) = pg_results s
  /\ pg_file (applyRatings events s) = pg_file s
  /\ pg_batchId (applyRatings events s) = pg_batchId s
  /\ pg_inputFileName (applyRatings events s) = pg_inputFileName s.
Proof.
  unfold applyRatings. revert s.
  induction events as [|[[fileName criterion] value] events IH]; intros s.
  - repeat split; reflexivity.
  - simpl. destruct (IH (setRating fileName criterion value s))
      as (H1 & H2 & H3 & H4).
    rewrite H1, H2, H3, H4. repeat split; reflexivity.
Qed.

End BatchFacts.

(** C2: a failure of the analysis step (and any failure [initBatchAction]
    reports) ends [handleRunAll] in the error phase with no result, in the
    world the failing call left: no iteration is attempted.  After a
    successful init every triple of the matrix is attempted in loop order
    whatever the other attempts returned; each attempt has one entry in
    [results]; the entry of a failed attempt carries the error and empty or
    zero generation data.  Whatever throws inside an iteration (the prompt,
    the generation call, the post-processing, the save) is returned as a
    failure by [generateIterationAction] and not thrown on. *)
Theorem handleRunAll_failure_isolation {W Buffer : Type} (svc : Services W Buffer)
    (models : list GenerationModel) (complexities : list ComplexityLevel)
    (variants : list PromptVariant) :
  (forall (st : PageState Buffer) (file : File Buffer)
          (w w1 w2 w3 w4 w5 w6 : W) (batchId inputFileName imageUrl e : string)
          (t : float),
      pg_file st = Some file ->
      newBatchId svc w = (batchId, w1) ->
      initBatchDir svc batchId w1 = (Returned tt, w2) ->
      saveInputImage svc batchId (file_bytes file)
                     (fileExtension (file_name file)) w2
      = (Returned inputFileName, w3) ->
      uploadToFalStorage svc file w3 = (Returned imageUrl, w4) ->
      performanceNow svc w4 = (t, w5) ->
      analyzePhoto svc imageUrl w5 = (Thrown e, w6) ->
      let st' := fst (handleRunAll svc models complexities variants st w) in
      snd (handleRunAll svc models complexities variants st w) = w6
      /\ pg_phase st' = ph_error
      /\ pg_error st' = Some e
      /\ pg_results st' = []
      /\ pg_completedCount st' = 0%nat)
  /\ (forall (st : PageState Buffer) (file : File Buffer) (w w1 : W) (e : string),
         pg_file st = Some file ->
         initBatchAction svc (Some file) w = (Failure e, w1) ->
         let st' := fst (handleRunAll svc models complexities variants st w) in
         snd (handleRunAll svc models complexities variants st w) = w1
         /\ pg_phase st' = ph_error
         /\ pg_error st' = Some e
         /\ pg_results st' = []
         /\ pg_completedCount st' = 0%nat)
  /\ (forall (st : PageState Buffer) (file : File Buffer) (w w1 : W)
             (init : InitBatchResult),
         pg_file st = Some file ->
         initBatchAction svc (Some file) w = (Success init, w1) ->
         let attempts :=
           attemptAll svc init (iterationTriples models complexities variants) w1 in
         let st' := fst (handleRunAll svc models complexities variants st w) in
         snd (handleRunAll svc models complexities variants st w) = snd attempts
         /\ pg_phase st' = ph_done
         /\ map fst (fst attempts) = iterationTriples models complexities variants
         /\ pg_results st' = map recordedEntry (fst attempts)
         /\ map entryKey (pg_results st')
            = map tripleKey (iterationTriples models complexities variants)
         /\ map br_error (pg_results st')
            = map (fun o => match snd o with
                            | Failure e => Some e
                            | Success _ => None
                            end) (fst attempts)
         /\ Forall (fun r =>
                      is_Some (br_error r) ->
                      imageUrl (generation r) = ""
                      /\ promptUsed (generation r) = ""
                      /\ width (generation r) = None
                      /\ height (generation r) = None
                      /\ generationMs r = 0%float
                      /\ postProcessMs r = 0%float) (pg_results st'))
  /\ (forall (params : GenerateIterationParams) (w w' : W) (e : string),
         generateIterationSteps svc params w = (Thrown e, w') ->
         generateIterationAction svc params w = (Failure e, w'))
  /\ (forall (params : GenerateIterationParams) (w w0 w1 : W) (t0 : float)
             (e : string),
         performanceNow svc w = (t0, w0) ->
         generateImage svc params (isEditModel (gip_model params)) w0
         = (Thrown e, w1) ->
         generateIterationAction svc params w = (Failure e, w1))
  /\ (forall (params : GenerateIterationParams) (w w0 w1 w2 w3 w4 : W)
             (t0 t1 t2 : float) (gen : GenerationResult) (e : string),
         performanceNow svc w = (t0, w0) ->
         generateImage svc params (isEditModel (gip_model params)) w0
         = (Returned gen, w1) ->
         performanceNow svc w1 = (t1, w2) ->
         performanceNow svc w2 = (t2, w3) ->
         postProcessColoringPage svc (imageUrl gen) pngOnly w3 = (Thrown e, w4) ->
         generateIterationAction svc params w = (Failure e, w4)).
Proof.
  split; [|split; [|split; [|split; [|split]]]].
  - intros st file w w1 w2 w3 w4 w5 w6 batchId inputFileName imageUrl e t
           Hfile H1 H2 H3 H4 H5 H6.
    apply handleRunAll_init_failure with file; [exact Hfile|].
    now apply initBatchAction_analysis_throws
      with w1 w2 w3 w4 w5 batchId inputFileName imageUrl t.
  - intros st file w w1 e Hfile Hinit.
    now apply handleRunAll_init_failure with file.
  - intros st file w w1 init Hfile Hinit. cbv zeta.
    destruct (handleRunAll_success svc models complexities variants
                st w w1 file init Hfile Hinit)
      as (Hw & Hres & Hph & _).
    cbv zeta in Hw, Hres, Hph.
    split; [exact Hw|]. split; [exact Hph|].
    split; [apply attemptAll_keys|]. split; [exact Hres|].
    rewrite Hres.
    split; [|split].
    + rewrite List.map_map.
      rewrite <- (attemptAll_keys svc init
                    (iterationTriples models complexities variants) w1) at 2.
      rewrite List.map_map. apply List.map_ext. intros o.
      apply recordedEntry_key.
    + rewrite List.map_map. apply List.map_ext. intros o.
      apply recordedEntry_error.
    + rewrite List.Forall_map, List.Forall_forall. intros o _.
      apply recordedEntry_failure_empty.
  - intros params w w' e H. now apply tryAction_catches.
  - intros params w w0 w1 t0 e H0 H1.
    now apply generateIterationAction_generation_throws with w0 t0.
  - intros params w w0 w1 w2 w3 w4 t0 t1 t2 gen e H0 H1 H2 H3 H4.
    now apply generateIterationAction_postprocess_throws
      with w0 w1 w2 w3 t0 t1 t2 gen.
Qed.

Lemma handleRunAll_failure_isolation_witness :
  (let st' :=
     fst (handleRunAll (demoServices false 1 true) demoModels [child; adult]
                       [direct_transform] demoPage 0%nat) in
   snd (handleRunAll (demoServices false 1 true) demoModels [child; adult]
                     [direct_transform] demoPage 0%nat) = 0%nat
   /\ pg_phase st' = ph_error
   /\ pg_error st' = Some "Claude API error (529): overloaded"
   /\ pg_results st' = []
   /\ pg_completedCount st' = 0%nat)
  /\ pg_phase
       (fst (handleRunAll (demoServices false 1 true) GENERATION_MODELS
                          BATCH_COMPLEXITY_LEVELS BATCH_VARIANTS demoPage 0%nat))
     = ph_error
  /\ map br_error
         (pg_results
            (fst (handleRunAll (demoServices true 1 true) demoModels [child; adult]
                               [direct_transform] demoPage 0%nat)))
     = [None; Some "fal: service unavailable"]
  /\ generateIterationAction (demoServices true 1 true)
       (paramsFor demoInit
          ({| gm_id := "fal-ai/nano-banana/edit"; gm_label := "Nano Banana";
              gm_type := mt_edit |}, adult, direct_transform)) 1%nat
     = (Failure "fal: service unavailable", 2%nat)
  /\ generateIterationAction (demoServices true 0 true) demoParams 0%nat
     = (Failure "fal: service unavailable", 1%nat)
  /\ generateIterationAction (demoServices true 9 false) demoParams 0%nat
     = (Failure "Post-processing failed: Input buffer contains unsupported image format",
        1%nat).
Proof.
  split; [|split; [|split; [|split; [|split]]]].
  - apply (proj1 (handleRunAll_failure_isolation (demoServices false 1 true)
                    demoModels [child; adult] [direct_transform])
             demoPage demoFile 0%nat 0%nat 0%nat 0%nat 0%nat 0%nat 0%nat
             "1a2b3c4d-1700000000000" "input.jpg"
             "https://fal.media/files/input.png"
             "Claude API error (529): overloaded" 0%float);
      reflexivity.
  - apply (proj1 (proj2 (handleRunAll_failure_isolation
                           (demoServices false 1 true) GENERATION_MODELS
                           BATCH_COMPLEXITY_LEVELS BATCH_VARIANTS))
             demoPage demoFile 0%nat 0%nat
             "Claude API error (529): overloaded");
      reflexivity.
  - pose proof (proj1 (proj2 (proj2
                  (handleRunAll_failure_isolation (demoServices true 1 true)
                     demoModels [child; adult] [direct_transform])))
                  demoPage demoFile 0%nat 0%nat demoInit eq_refl eq_refl) as H.
    cbv zeta in H. destruct H as (_ & _ & _ & _ & _ & Herr & _).
    rewrite Herr. vm_compute. reflexivity.
  - apply (proj1 (proj2 (proj2 (proj2
             (handleRunAll_failure_isolation (demoServices true 1 true)
                demoModels [child; adult] [direct_transform]))))).
    vm_compute. reflexivity.
  - apply (proj1 (proj2 (proj2 (proj2 (proj2
             (handleRunAll_failure_isolation (demoServices true 0 true)
                demoModels [child; adult] [direct_transform])))))
             demoParams 0%nat 0%nat 1%nat 0%float);
      reflexivity.
  - apply (proj2 (proj2 (proj2 (proj2 (proj2
             (handleRunAll_failure_isolation (demoServices true 9 false)
                demoModels [child; adult] [direct_transform])))))
             demoParams 0%nat 0%nat 1%nat 1%nat 1%nat 1%nat 0%float
             1000%float 1000%float
             {| imageUrl := "https://fal.media/files/out.png";
                width := None; height := None;
                gr_model := "fal-ai/nano-banana/edit";
                promptUsed :=
                  buildEditPrompt direct_transform adult
                    (Some (imageAnalysisToAnalysisResult parkPhoto));
                negativePromptUsed := None; seed := None;
                gr_description := None |});
      reflexivity.
Defined.

(** What [handleSave] counts after a full run, whatever ratings the user
    gave since: an attempt counts as failed when it failed with a message
    that is not empty, and as completed otherwise, the [filter]s testing the
    truthiness of [r.error]; the two counts add up to [totalIterations], the
    product of the sizes of the three lists, and every iteration has one
    entry in [results], in loop order. *)
Lemma handleSave_counts_by_truthiness {W Buffer : Type}
    (svc : Services W Buffer) (models : list GenerationModel)
    (complexities : list ComplexityLevel) (variants : list PromptVariant)
    (st : PageState Buffer) (file : File Buffer) (w w1 : W)
    (init : InitBatchResult) (rated : list (string * string * Z)) :
  pg_file st = Some file ->
  initBatchAction svc (Some file) w = (Success init, w1) ->
  let attempts :=
    attemptAll svc init (iterationTriples models complexities variants) w1 in
  let st' :=
    applyRatings rated (fst (handleRunAll svc models complexities variants st w)) in
  forall (batchId timestamp : string) (saved : File Buffer),
    let run :=
      makeBatchRun models complexities variants st' batchId saved timestamp in
    completedIterations run
    = Z.of_nat (length (List.filter
                          (fun o => match snd o with
                                    | Success _ => true
                                    | Failure e => negb (JS.truthy e)
                                    end) (fst attempts)))
    /\ failedIterations run
       = Z.of_nat (length (List.filter
                             (fun o => match snd o with
                                       | Success _ => false
                                       | Failure e => JS.truthy e
                                       end) (fst attempts)))
    /\ completedIterations run + failedIterations run = totalIterations run
    /\ totalIterations run
       = Z.of_nat (length models) * Z.of_nat (length complexities)
         * Z.of_nat (length variants)
    /\ Z.of_nat (length (run_results run)) = totalIterations run
    /\ map entryKey (run_results run)
       = map tripleKey (iterationTriples models complexities variants).
Proof.
  intros Hfile Hinit. cbv zeta. intros batchId timestamp saved.
  destruct (handleRunAll_success svc models complexities variants
              st w w1 file init Hfile Hinit)
    as (_ & Hres & _).
  cbv zeta in Hres.
  destruct (applyRatings_preserves rated
              (fst (handleRunAll svc models complexities variants st w)))
    as (Pres & _).
  rewrite <- Pres in Hres. clear Pres.
  set (st' := applyRatings rated
                (fst (handleRunAll svc models complexities variants st w))) in *.
  set (outcomes :=
         fst (attemptAll svc init
                (iterationTriples models complexities variants) w1)) in *.
  assert (Hlen : length (pg_results st')
                 = (length models * length complexities * length variants)%nat).
  { rewrite Hres, length_map. subst outcomes.
    now rewrite attemptAll_length, iterationTriples_length. }
  pose proof (filter_split_length (fun r => hasError r) (pg_results st'))
    as Hsplit.
  assert (Htot : (length complexities * length variants * length models)%nat
                 = length (pg_results st')).
  { rewrite Hlen. nia. }
  unfold makeBatchRun. simpl.
  split; [|split].
  - f_equal. rewrite Hres, filter_map_length. apply filter_ext_length.
    intros o. rewrite hasError_recordedEntry. now destruct (snd o).
  - f_equal. rewrite Hres, filter_map_length. apply filter_ext_length.
    intros o. rewrite hasError_recordedEntry. now destruct (snd o).
  - unfold TOTAL_ITERATIONS.
    split; [rewrite Htot; lia|].
    split; [rewrite !Nat2Z.inj_mul; ring|].
    split; [rewrite length_map, Htot; reflexivity|].
    rewrite List.map_map, Hres, List.map_map.
    rewrite <- (attemptAll_keys svc init
                  (iterationTriples models complexities variants) w1).
    fold outcomes.
    rewrite List.map_map. apply List.map_ext. intros o.
    apply recordedEntry_key.
Qed.

(** C3 fails on the code: with one model, two levels and one variant, and a
    second generation call that fails with an empty message, the page lists
    the failure among its errors and gives the entry an [error] field, yet
    the run that [handleSave] builds counts both iterations as completed and
    none as failed. *)
Theorem handleSave_empty_error_counted_completed :
  let st' :=
    fst (handleRunAll (silentServices 1) demoModels [child; adult]
                      [direct_transform] demoPage 0%nat) in
  let run :=
    makeBatchRun demoModels [child; adult] [direct_transform] st'
                 "1a2b3c4d-1700000000000" demoFile "2025-01-01T00:00:00.000Z" in
  generateIterationAction (silentServices 1)
    (paramsFor demoInit
       ({| gm_id := "fal-ai/nano-banana/edit"; gm_label := "Nano Banana";
           gm_type := mt_edit |}, adult, direct_transform)) 1%nat
  = (Failure "", 2%nat)
  /\ map br_error (pg_results st') = [None; Some ""]
  /\ pg_errors st' = ["adult / direct-transform / Nano Banana: "]
  /\ map br_error (run_results run) = [None; Some ""]
  /\ totalIterations run = 2
  /\ completedIterations run = 2
  /\ failedIterations run = 0.
Proof.
  cbv zeta.
  pose proof (handleSave_counts_by_truthiness (silentServices 1) demoModels
                [child; adult] [direct_transform] demoPage demoFile
                0%nat 0%nat demoInit [] eq_refl eq_refl
                "1a2b3c4d-1700000000000" "2025-01-01T00:00:00.000Z" demoFile)
    as (Hcompleted & Hfailed & _).
  cbv zeta in Hcompleted, Hfailed. unfold applyRatings in Hcompleted, Hfailed.
  cbn [fold_left] in Hcompleted, Hfailed.
  split; [vm_compute; reflexivity|].
  split; [vm_compute; reflexivity|].
  split; [vm_compute; reflexivity|].
  split; [vm_compute; reflexivity|].
  split; [vm_compute; reflexivity|].
  split.
  - rewrite Hcompleted. vm_compute. reflexivity.
  - rewrite Hfailed. vm_compute. reflexivity.
Qed.

(** The page of the source runs 5 models, 2 levels and 3 variants. *)
Lemma BatchPage_total_iterations :
  TOTAL_ITERATIONS GENERATION_MODELS BATCH_COMPLEXITY_LEVELS BATCH_VARIANTS = 30.
Proof. reflexivity. Qed.

Lemma BatchPage_results_length {W Buffer : Type} (svc : Services W Buffer)
    (st : PageState Buffer) (file : File Buffer) (w w1 : W)
    (init : InitBatchResult) :
  pg_file st = Some file ->
  initBatchAction svc (Some file) w = (Success init, w1) ->
  length (pg_results (fst (BatchPage_handleRunAll svc st w))) = 30%nat.
Proof.
  intros Hfile Hinit. unfold BatchPage_handleRunAll.
  destruct (handleRunAll_success svc GENERATION_MODELS BATCH_COMPLEXITY_LEVELS
              BATCH_VARIANTS st w w1 file init Hfile Hinit) as (_ & Hres & _).
  cbv zeta in Hres. rewrite Hres, length_map, attemptAll_length.
  reflexivity.
Qed.

(** ** The post-processor's call chain *)



(** When no call is rejected the threshold is chained, with the given level
    or 128, after the grayscale conversion and the optional median filter
    and before the optional resize and the encoder. *)
Lemma postProcessOps_threshold (options : PostProcessOptions)
    (ops : list SharpOp) :
  postProcessOps options = Some ops ->
  exists before after,
    ops = before ++ op_threshold (default 128 (pp_threshold options)) :: after
    /\ (before = [op_grayscale]
        \/ before = [op_grayscale; op_median (default 3 (pp_denoiseKernel options))])
    /\ Forall (fun op => match op with
                         | op_resize _ _ | op_png | op_jpeg => True
                         | _ => False
                         end) after.
Proof.
  unfold postProcessOps.
  destruct (default true (pp_denoise options) && _); [discriminate|].
  destruct (negb (thresholdAccepts _)); [discriminate|].
  destruct (_ && negb _); [discriminate|].
  intros H. injection H as <-.
  destruct (default true (pp_denoise options)).
  - exists [op_grayscale; op_median (default 3 (pp_denoiseKernel options))].
    eexists. split; [reflexivity|]. split; [now right|].
    destruct (truthyNumber _ || truthyNumber _);
      destruct (default fmt_png (pp_outputFormat options));
      repeat constructor.
  - exists [op_grayscale]. eexists. split; [reflexivity|]. split; [now left|].
    destruct (truthyNumber _ || truthyNumber _);
      destruct (default fmt_png (pp_outputFormat options));
      repeat constructor.
Qed.

Section PixelFacts.

Variable grayscale : list Z -> list Z.
Variable medianFilter : Z -> list Z -> list Z.
Variable resample : option Z -> option Z -> list Z -> list Z.


End PixelFacts.


(** * Further properties of the modelled code *)

(** ** The string primitives against their substring reading *)

Lemma includes_inv (sub s : string) :
  JS.includes sub s = true -> exists pre post, s = pre +:+ sub +:+ post.
Proof.
  induction s as [|c s IH]; simpl; intros H.
  - rewrite orb_false_r in H. apply startsWith_inv in H as [rest ->].
    exists "", rest. reflexivity.
  - apply orb_true_iff in H as [H|H].
    + apply startsWith_inv in H as [rest ->]. exists "", rest. reflexivity.
    + destruct (IH H) as (pre & post & ->).
      exists (String c pre), post. reflexivity.
Qed.

Lemma includes_intro (sub pre post : string) :
  JS.includes sub (pre +:+ sub +:+ post) = true.
Proof.
  induction pre as [|c pre IH].
  - rewrite append_nil. destruct (sub +:+ post) eqn:E; simpl;
      rewrite <- E, startsWith_app; reflexivity.
  - rewrite append_cons. simpl. rewrite IH. apply orb_true_r.
Qed.

Lemma append_nil_r (a : string) : a +:+ "" = a.
Proof.
  induction a as [|x a IH]; [reflexivity|]. now rewrite append_cons, IH.
Qed.

Lemma toLowerCase_app (a b : string) :
  JS.toLowerCase (a +:+ b) = JS.toLowerCase a +:+ JS.toLowerCase b.
Proof.
  induction a as [|x a IH]; [reflexivity|].
  rewrite append_cons. simpl. now rewrite IH, append_cons.
Qed.

Lemma toLowerChar_idem (c : ascii) :
  JS.toLowerChar (JS.toLowerChar c) = JS.toLowerChar c.
Proof.
  destruct c as [[] [] [] [] [] [] [] []]; vm_compute; reflexivity.
Qed.

Lemma toLowerCase_idem (s : string) :
  JS.toLowerCase (JS.toLowerCase s) = JS.toLowerCase s.
Proof.
  induction s as [|c s IH]; [reflexivity|].
  simpl. now rewrite toLowerChar_idem, IH.
Qed.

(** ** [split] and [join] *)

Lemma split_nonempty (c : ascii) (s : string) : JS.split c s <> [].
Proof.
  destruct s as [|a s]; simpl; [discriminate|].
  destruct (Ascii.eqb a c); [discriminate|].
  destruct (JS.split c s); discriminate.
Qed.

Lemma join_cons_cons (sep x y : string) (l : list string) :
  JS.join sep (x :: y :: l) = x +:+ sep +:+ JS.join sep (y :: l).
Proof. reflexivity. Qed.

(** Joining the pieces of a split with the separator gives the string back. *)
Lemma join_split (c : ascii) (s : string) :
  JS.join (String c "") (JS.split c s) = s.
Proof.
  induction s as [|a s IH]; [reflexivity|].
  simpl. destruct (Ascii.eqb_spec a c) as [->|Hne].
  - pose proof (split_nonempty c s) as Hn.
    destruct (JS.split c s) as [|w ws]; [contradiction|].
    rewrite join_cons_cons, IH. reflexivity.
  - pose proof (split_nonempty c s) as Hn.
    destruct (JS.split c s) as [|w ws]; [contradiction|].
    destruct ws as [|w' ws].
    + simpl in IH. subst w. reflexivity.
    + rewrite join_cons_cons. rewrite join_cons_cons in IH.
      rewrite append_cons, IH. reflexivity.
Qed.

(** The pieces of a split do not hold the separator. *)
Lemma split_pieces (c : ascii) (s : string) :
  Forall (fun w => allChars (fun a => negb (Ascii.eqb a c)) w = true)
         (JS.split c s).
Proof.
  induction s as [|a s IH]; simpl; [repeat constructor|].
  destruct (Ascii.eqb a c) eqn:Hac; [constructor; [reflexivity | exact IH]|].
  destruct (JS.split c s) as [|w ws]; [repeat constructor; simpl; now rewrite Hac|].
  apply List.Forall_cons_iff in IH as [Hw Hws].
  constructor; [|exact Hws]. simpl. now rewrite Hac, Hw.
Qed.

Lemma split_piece_id (c : ascii) (w : string) :
  allChars (fun a => negb (Ascii.eqb a c)) w = true -> JS.split c w = [w].
Proof.
  induction w as [|a w IH]; [reflexivity|].
  simpl. intros H. apply andb_true_iff in H as [Ha Hw].
  apply negb_true_iff in Ha. rewrite Ha, (IH Hw). reflexivity.
Qed.

Lemma split_app_sep (c : ascii) (w rest : string) :
  allChars (fun a => negb (Ascii.eqb a c)) w = true ->
  JS.split c (w +:+ String c rest) = w :: JS.split c rest.
Proof.
  induction w as [|a w IH]; intros H.
  - rewrite append_nil. simpl. now rewrite Ascii.eqb_refl.
  - simpl in H. apply andb_true_iff in H as [Ha Hw].
    apply negb_true_iff in Ha.
    rewrite append_cons. simpl. rewrite Ha, (IH Hw). reflexivity.
Qed.

(** Splitting a join of separator-free pieces gives the pieces back. *)
Lemma split_join (c : ascii) (l : list string) :
  l <> [] ->
  Forall (fun w => allChars (fun a => negb (Ascii.eqb a c)) w = true) l ->
  JS.split c (JS.join (String c "") l) = l.
Proof.
  induction l as [|w l IH]; [congruence|]. intros _ Hall.
  apply List.Forall_cons_iff in Hall as [Hw Hl].
  destruct l as [|w' l].
  - simpl. now apply split_piece_id.
  - rewrite join_cons_cons.
    change (String c "" +:+ JS.join (String c "") (w' :: l))
      with (String c (JS.join (String c "") (w' :: l))).
    rewrite split_app_sep by exact Hw.
    rewrite IH; [reflexivity | discriminate | exact Hl].
Qed.

Lemma join_take_prefix (sep : string) (l : list string) (n : nat) :
  exists rest, JS.join sep l = JS.join sep (take n l) +:+ rest.
Proof.
  revert n. induction l as [|x l IH]; intros n.
  - exists "". destruct n; reflexivity.
  - destruct n as [|n]; [exists (JS.join sep (x :: l)); reflexivity|].
    destruct l as [|y l].
    { exists "". cbn [take]. rewrite take_nil. simpl. now rewrite append_nil_r. }
    destruct (IH n) as [rest Hrest].
    destruct n as [|n].
    + exists (sep +:+ JS.join sep (y :: l)). reflexivity.
    + change (take (S (S n)) (x :: y :: l)) with (x :: y :: take n l).
      change (take (S n) (y :: l)) with (y :: take n l) in Hrest.
      rewrite !join_cons_cons, Hrest. exists rest.
      now rewrite !append_assoc.
Qed.

(** ** More on [imageAnalysisToAnalysisResult] *)

Lemma elements_lookup (analysis : ImageAnalysis) (i : nat) (el : DetectedElement) :
  elements (imageAnalysisToAnalysisResult analysis) !! i = Some el ->
  (exists s, subjects analysis !! i = Some s /\ el = subjectElement i s)
  \/ (exists k, (length (subjects analysis) <= i)%nat
                /\ keyElements (background analysis)
                   !! (i - length (subjects analysis))%nat = Some k
                /\ el = backgroundElement (length (subjects analysis))
                          (i - length (subjects analysis)) k)
  \/ (subjects analysis = [] /\ keyElements (background analysis) = []
      /\ i = 0%nat /\ el = sceneElement analysis).
Proof.
  rewrite elements_unfold. cbv zeta.
  destruct (Nat.eqb_spec
              (length (imap subjectElement (subjects analysis)
                       ++ imap (backgroundElement (length (subjects analysis)))
                               (keyElements (background analysis)))) 0)
    as [H0|H0].
  - rewrite length_app, !length_imap in H0.
    assert (Hs : subjects analysis = [])
      by (destruct (subjects analysis); [reflexivity | simpl in H0; lia]).
    assert (Hk : keyElements (background analysis) = [])
      by (destruct (keyElements (background analysis));
          [reflexivity | simpl in H0; lia]).
    rewrite Hs, Hk. simpl. intros H. right. right.
    destruct i as [|i]; [|discriminate H].
    injection H as <-. repeat split; reflexivity.
  - intros H. apply lookup_app_Some in H as [H|[Hle H]].
    + left. apply list_lookup_imap_Some in H as (s & Hs & ->). eauto.
    + right. left. rewrite length_imap in Hle, H.
      apply list_lookup_imap_Some in H as (k & Hk & ->). eauto.
Qed.

(** X1: the importance of the element at index [i] is [i + 1]: the ranks
    run 1, 2, 3, ... in list order, subjects first, also for the fallback. *)
Theorem elements_importance_rank (analysis : ImageAnalysis) (i : nat)
    (el : DetectedElement) :
  elements (imageAnalysisToAnalysisResult analysis) !! i = Some el ->
  el_importance el = Z.of_nat i + 1.
Proof.
  intros H. apply elements_lookup in H
    as [(s & _ & ->)|[(k & Hle & _ & ->)|(_ & _ & -> & ->)]]; simpl.
  - reflexivity.
  - lia.
  - reflexivity.
Qed.

Lemma elements_importance_rank_witness :
  el_importance
    {| el_label := "oak tree"; el_importance := 3;
       el_category := cat_background; el_description := "oak tree" |}
  = Z.of_nat 2 + 1.
Proof.
  apply (elements_importance_rank parkPhoto 2). reflexivity.
Defined.

Lemma imap_map_const {A B C} (f : nat -> A -> B) (g : B -> C) (h : A -> C)
    (l : list A) :
  (forall i a, g (f i a) = h a) -> map g (imap f l) = map h l.
Proof.
  revert f. induction l as [|a l IH]; intros f H; [reflexivity|].
  rewrite imap_cons. simpl. rewrite H. f_equal. apply IH.
  intros i b. apply H.
Qed.

Lemma map_const_replicate {A B} (b : B) (l : list A) :
  map (fun _ => b) l = replicate (length l) b.
Proof. induction l as [|a l IH]; [reflexivity|]. simpl. now rewrite IH. Qed.

(** X2: unless both lists are empty, the elements are the subjects in their
    order, with category subject, followed by the background key elements in
    their order, with category background; no element ever has the category
    object or accessory. *)
Theorem elements_subjects_then_background (analysis : ImageAnalysis) :
  Forall (fun el => el_category el = cat_subject
                    \/ el_category el = cat_background)
         (elements (imageAnalysisToAnalysisResult analysis))
  /\ (subjects analysis <> [] \/ keyElements (background analysis) <> [] ->
      map el_description (elements (imageAnalysisToAnalysisResult analysis))
      = map subj_description (subjects analysis)
        ++ keyElements (background analysis)
      /\ map el_category (elements (imageAnalysisToAnalysisResult analysis))
         = replicate (length (subjects analysis)) cat_subject
           ++ replicate (length (keyElements (background analysis)))
                        cat_background).
Proof.
  split.
  - apply Forall_lookup. intros i el H.
    apply elements_lookup in H
      as [(s & _ & ->)|[(k & _ & _ & ->)|(_ & _ & _ & ->)]]; simpl; auto.
  - intros Hne. rewrite elements_unfold. cbv zeta.
    destruct (Nat.eqb_spec
                (length (imap subjectElement (subjects analysis)
                         ++ imap (backgroundElement (length (subjects analysis)))
                                 (keyElements (background analysis)))) 0)
      as [H0|H0].
    + rewrite length_app, !length_imap in H0.
      destruct Hne as [Hne|Hne]; exfalso; apply Hne.
      * destruct (subjects analysis); [reflexivity | simpl in H0; lia].
      * destruct (keyElements (background analysis));
          [reflexivity | simpl in H0; lia].
    + rewrite !List.map_app. split; f_equal.
      * now apply imap_map_const.
      * rewrite <- (List.map_id (keyElements (background analysis))) at 2.
        now apply imap_map_const.
      * rewrite <- map_const_replicate. now apply imap_map_const.
      * rewrite <- map_const_replicate. now apply imap_map_const.
Qed.

Lemma elements_subjects_then_background_witness :
  map el_description (elements (imageAnalysisToAnalysisResult parkPhoto))
  = ["small dog"; "Young Woman with curly hair"; "oak tree"]
  /\ map el_category (elements (imageAnalysisToAnalysisResult parkPhoto))
     = [cat_subject; cat_subject; cat_background].
Proof.
  apply (proj2 (elements_subjects_then_background parkPhoto)).
  left. discriminate.
Defined.

(** X3: the label of a subject's element is the first three space-separated
    tokens of its description: splitting the label gives exactly those
    tokens, the label is a prefix of the description, and it is the whole
    description when that has at most three tokens. *)
Theorem subject_label_first_three_tokens (analysis : ImageAnalysis) (i : nat)
    (s : Subject) :
  subjects analysis !! i = Some s ->
  exists el,
    elements (imageAnalysisToAnalysisResult analysis) !! i = Some el
    /\ el_description el = subj_description s
    /\ JS.split " " (el_label el) = take 3 (JS.split " " (subj_description s))
    /\ JS.startsWith (el_label el) (subj_description s) = true
    /\ ((length (JS.split " " (subj_description s)) <= 3)%nat ->
        el_label el = subj_description s).
Proof.
  intros Hs. exists (subjectElement i s).
  split; [|split; [reflexivity|split; [|split]]].
  - rewrite elements_unfold. cbv zeta.
    assert (Hi : imap subjectElement (subjects analysis) !! i
                 = Some (subjectElement i s))
      by (rewrite list_lookup_imap, Hs; reflexivity).
    destruct (Nat.eqb_spec
                (length (imap subjectElement (subjects analysis)
                         ++ imap (backgroundElement (length (subjects analysis)))
                                 (keyElements (background analysis)))) 0)
      as [H0|H0].
    + rewrite length_app, !length_imap in H0.
      apply lookup_lt_Some in Hs. lia.
    + now apply lookup_app_l_Some.
  - simpl. apply split_join.
    + pose proof (split_nonempty " " (subj_description s)) as Hn.
      destruct (JS.split " " (subj_description s)); [contradiction|discriminate].
    + apply Forall_take, split_pieces.
  - simpl.
    destruct (join_take_prefix " " (JS.split " " (subj_description s)) 3)
      as [rest Hrest].
    rewrite join_split in Hrest. rewrite Hrest at 2. apply startsWith_app.
  - intros Hlen. simpl. rewrite take_ge by exact Hlen. apply join_split.
Qed.

Lemma subject_label_first_three_tokens_witness :
  exists el,
    elements (imageAnalysisToAnalysisResult parkPhoto) !! 1%nat = Some el
    /\ el_description el = "Young Woman with curly hair"
    /\ JS.split " " (el_label el) = ["Young"; "Woman"; "with"]
    /\ JS.startsWith (el_label el) "Young Woman with curly hair" = true
    /\ ((length (JS.split " " "Young Woman with curly hair") <= 3)%nat ->
        el_label el = "Young Woman with curly hair").
Proof.
  apply (subject_label_first_three_tokens parkPhoto 1 womanAtTop). reflexivity.
Defined.

(** ** More on [deriveBackgroundStrategy] *)

(** X4: for a fixed photo type the strategy never keeps less background
    when the complexity grows, and a landmark or landscape photo always keeps
    at least the structure: its background is never removed or simplified. *)
Theorem deriveBackgroundStrategy_monotone (photoType : string) (c1 c2 : Z) :
  (c1 <= c2 ->
   (strategyRank (deriveBackgroundStrategy c1 photoType)
    <= strategyRank (deriveBackgroundStrategy c2 photoType))%nat)
  /\ (photoType = "landmark" \/ photoType = "landscape" ->
      (2 <= strategyRank (deriveBackgroundStrategy c1 photoType))%nat).
Proof.
  unfold deriveBackgroundStrategy. split.
  - intros Hle.
    destruct (String.eqb photoType "landmark"); [simpl; lia|].
    destruct (String.eqb photoType "landscape"); [simpl; lia|].
    repeat match goal with
           | |- context [(?a <=? ?b)%Z] => destruct (Z.leb_spec a b)
           end; simpl; lia.
  - intros [-> | ->]; simpl; lia.
Qed.

Lemma deriveBackgroundStrategy_monotone_witness :
  (strategyRank (deriveBackgroundStrategy 2 "pet")
   <= strategyRank (deriveBackgroundStrategy 6 "pet"))%nat
  /\ (2 <= strategyRank (deriveBackgroundStrategy 1 "landscape"))%nat.
Proof.
  split.
  - apply (proj1 (deriveBackgroundStrategy_monotone "pet" 2 6)). lia.
  - apply (proj2 (deriveBackgroundStrategy_monotone "landscape" 1 1)).
    right. reflexivity.
Defined.

(** ** The face heuristic *)

Lemma PhotoType_str_portrait (p : PhotoType) :
  String.eqb (PhotoType_str p) "portrait" = true <-> p = portrait.
Proof. destruct p; simpl; split; intros H; congruence. Qed.

Lemma PhotoType_str_group (p : PhotoType) :
  String.eqb (PhotoType_str p) "group" = true <-> p = group.
Proof. destruct p; simpl; split; intros H; congruence. Qed.

(** X5: a subject becomes a face region exactly when it has a distinctive
    feature and either the photo is a portrait or a group, or its description,
    lowercased, contains one of person, man, boy, girl, child as a substring
    (the source's test for woman adds nothing: woman contains man). *)
Theorem isFaceSubject_substring (analysis : ImageAnalysis) (s : Subject) :
  isFaceSubject analysis s = true
  <-> distinctiveFeatures s <> []
      /\ (photoType analysis = portrait
          \/ photoType analysis = group
          \/ exists w pre post,
               In w ["person"; "man"; "boy"; "girl"; "child"]
               /\ JS.toLowerCase (subj_description s) = pre +:+ w +:+ post).
Proof.
  unfold isFaceSubject. cbv zeta. split.
  - intros H. apply andb_true_iff in H as [Hf H]. split.
    { intros Hnil. rewrite Hnil in Hf. discriminate Hf. }
    repeat (apply orb_true_iff in H as [H|H]).
    + left. now apply PhotoType_str_portrait.
    + right. left. now apply PhotoType_str_group.
    + right. right. apply includes_inv in H as (pre & post & H).
      exists "person", pre, post. split; [simpl; auto 10 | exact H].
    + right. right. apply includes_inv in H as (pre & post & H).
      exists "man", pre, post. split; [simpl; auto 10 | exact H].
    + right. right. apply includes_inv in H as (pre & post & H).
      exists "man", (pre +:+ "wo"), post. split; [simpl; auto 10|].
      rewrite H, append_assoc. reflexivity.
    + right. right. apply includes_inv in H as (pre & post & H).
      exists "boy", pre, post. split; [simpl; auto 10 | exact H].
    + right. right. apply includes_inv in H as (pre & post & H).
      exists "girl", pre, post. split; [simpl; auto 10 | exact H].
    + right. right. apply includes_inv in H as (pre & post & H).
      exists "child", pre, post. split; [simpl; auto 10 | exact H].
  - intros [Hf H]. apply andb_true_iff. split.
    { destruct (distinctiveFeatures s); [contradiction | reflexivity]. }
    destruct H as [H|[H|(w & pre & post & Hw & H)]].
    + apply PhotoType_str_portrait in H. rewrite H. reflexivity.
    + apply PhotoType_str_group in H. rewrite H, orb_true_r. reflexivity.
    + rewrite H. simpl in Hw.
      destruct Hw as [<-|[<-|[<-|[<-|[<-|[]]]]]];
        rewrite (includes_intro _ pre post), ?orb_true_r; reflexivity.
Qed.

Lemma isFaceSubject_substring_witness : isFaceSubject parkPhoto womanAtTop = true.
Proof.
  apply (proj2 (isFaceSubject_substring parkPhoto womanAtTop)).
  split; [discriminate|]. right. right.
  exists "man", "young wo", " with curly hair".
  split; [simpl; auto | reflexivity].
Defined.

(** ** [inferMediaType] *)

Ltac byte_cases :=
  repeat (match goal with
          | |- context [(?a =? ?b)%Z] => destruct (Z.eqb_spec a b)
          | H : context [(?a =? ?b)%Z] |- _ => destruct (Z.eqb_spec a b)
          end; subst; simpl in *);
  try congruence; try lia; auto 10.

(** X6: the media type is read off the first four bytes alone: PNG, GIF
    and RIFF (taken as WebP) signatures are recognised and everything else,
    also a buffer of fewer than two bytes, is taken as JPEG. *)
Theorem inferMediaType_magic_bytes (buffer : list Z) :
  inferMediaType buffer = inferMediaType (take 4 buffer)
  /\ In (inferMediaType buffer)
        ["image/jpeg"; "image/png"; "image/gif"; "image/webp"]
  /\ ((length buffer < 2)%nat -> inferMediaType buffer = "image/jpeg")
  /\ (inferMediaType buffer = "image/png"
      <-> take 4 buffer = [0x89; 0x50; 0x4e; 0x47])
  /\ (inferMediaType buffer = "image/gif"
      <-> take 3 buffer = [0x47; 0x49; 0x46])
  /\ (inferMediaType buffer = "image/webp"
      <-> take 4 buffer = [0x52; 0x49; 0x46; 0x46]).
Proof.
  unfold inferMediaType, byteIs.
  destruct buffer as [|b0 [|b1 [|b2 [|b3 rest]]]]; simpl;
    (split; [reflexivity|]);
    (split; [byte_cases|]);
    (split; [intros Hlen; byte_cases|]);
    (split; [split; intros H; byte_cases|]);
    split; split; intros H; byte_cases.
Qed.

Lemma inferMediaType_magic_bytes_witness : inferMediaType [0x89] = "image/jpeg".
Proof.
  apply (proj1 (proj2 (proj2 (inferMediaType_magic_bytes [0x89])))).
  simpl. lia.
Defined.

(** ** The scene block of a normalized analysis *)

Lemma filter_imap_all {A B} (p : B -> bool) (f : nat -> A -> B) (l : list A) :
  (forall i a, p (f i a) = true) -> List.filter p (imap f l) = imap f l.
Proof.
  revert f. induction l as [|a l IH]; intros f H; [reflexivity|].
  rewrite imap_cons. simpl. rewrite H. f_equal. apply IH.
  intros i b. apply H.
Qed.

Lemma filter_imap_none {A B} (p : B -> bool) (f : nat -> A -> B) (l : list A) :
  (forall i a, p (f i a) = false) -> List.filter p (imap f l) = [].
Proof.
  revert f. induction l as [|a l IH]; intros f H; [reflexivity|].
  rewrite imap_cons. simpl. rewrite H. apply IH. intros i b. apply H.
Qed.

(** X7: on the output of the mapper the scene block never has an "Also
    includes" sentence (no element is an object); it lists the subjects'
    descriptions as main subjects when there is a subject, has no such
    sentence when there are only background key elements, and names the
    background description as the main subject when there is neither. *)
Theorem buildSceneBlock_of_mapper (analysis : ImageAnalysis) :
  let result := imageAnalysisToAnalysisResult analysis in
  (subjects analysis <> [] ->
   buildSceneBlock result
   = "Scene: " +:+ sceneDescription result +:+ ". Main subjects: "
     +:+ JS.join ", " (map subj_description (subjects analysis)) +:+ ".")
  /\ (subjects analysis = [] -> keyElements (background analysis) <> [] ->
      buildSceneBlock result
      = "Scene: " +:+ bg_description (background analysis) +:+ ".")
  /\ (subjects analysis = [] -> keyElements (background analysis) = [] ->
      buildSceneBlock result
      = "Scene: " +:+ bg_description (background analysis)
        +:+ ". Main subjects: " +:+ bg_description (background analysis)
        +:+ ".").
Proof.
  cbv zeta. split; [|split].
  - intros Hs. unfold buildSceneBlock. rewrite elements_unfold. cbv zeta.
    destruct (Nat.eqb_spec
                (length (imap subjectElement (subjects analysis)
                         ++ imap (backgroundElement (length (subjects analysis)))
                                 (keyElements (background analysis)))) 0)
      as [H0|H0].
    { rewrite length_app, !length_imap in H0.
      destruct (subjects analysis); [contradiction | simpl in H0; lia]. }
    rewrite !List.filter_app.
    rewrite (filter_imap_all (isCategory cat_subject) subjectElement)
      by reflexivity.
    rewrite (filter_imap_none (isCategory cat_subject)) by reflexivity.
    rewrite (filter_imap_none (isCategory cat_object) subjectElement)
      by reflexivity.
    rewrite (filter_imap_none (isCategory cat_object)) by reflexivity.
    rewrite !app_nil_r.
    rewrite (imap_map_const subjectElement el_description subj_description)
      by reflexivity.
    set (scene := sceneDescription (imageAnalysisToAnalysisResult analysis)).
    destruct (subjects analysis) as [|s0 ss]; [contradiction|].
    simpl. rewrite !append_assoc. reflexivity.
  - intros Hs Hk. unfold buildSceneBlock. rewrite elements_unfold. cbv zeta.
    rewrite Hs. simpl (imap subjectElement []). rewrite app_nil_l.
    destruct (keyElements (background analysis)) as [|k ks] eqn:Ek;
      [contradiction|].
    rewrite length_imap. simpl (length (k :: ks) =? 0)%nat. cbv iota.
    rewrite (filter_imap_none (isCategory cat_subject)) by reflexivity.
    rewrite (filter_imap_none (isCategory cat_object)) by reflexivity.
    simpl. unfold imageAnalysisToAnalysisResult. simpl. rewrite Hs. reflexivity.
  - intros Hs Hk. unfold buildSceneBlock. rewrite elements_unfold. cbv zeta.
    rewrite Hs, Hk. simpl.
    unfold imageAnalysisToAnalysisResult. simpl. rewrite Hs. simpl.
    rewrite !append_assoc. reflexivity.
Qed.

Lemma buildSceneBlock_of_mapper_witness :
  buildSceneBlock (imageAnalysisToAnalysisResult parkPhoto)
  = "Scene: other: small dog, Young Woman with curly hair with a park. Main subjects: small dog, Young Woman with curly hair."
  /\ buildSceneBlock (imageAnalysisToAnalysisResult emptyScene)
     = "Scene: plain white wall. Main subjects: plain white wall.".
Proof.
  split.
  - apply (proj1 (buildSceneBlock_of_mapper parkPhoto)). discriminate.
  - apply (proj2 (proj2 (buildSceneBlock_of_mapper emptyScene))); reflexivity.
Defined.

(** ** The prompts of the three variants *)

Lemma endsWith_intro (p pre : string) (s : string) :
  s = pre +:+ p -> JS.endsWith p s = true.
Proof. intros ->. apply endsWith_app. Qed.

Lemma endsWith_app_r (p a b : string) :
  JS.endsWith p b = true -> JS.endsWith p (a +:+ b) = true.
Proof.
  intros H. apply endsWith_inv in H as [pre ->].
  apply endsWith_intro with (a +:+ pre). now rewrite append_assoc.
Qed.

Lemma startsWith_app_l (p a b : string) :
  JS.startsWith p a = true -> JS.startsWith p (a +:+ b) = true.
Proof.
  intros H. apply startsWith_inv in H as [rest ->].
  rewrite append_assoc. apply startsWith_app.
Qed.

Lemma includes_refl (x : string) : JS.includes x x = true.
Proof.
  rewrite <- (append_nil_r x) at 2. apply (includes_intro x "" "").
Qed.

Lemma includes_app_l (x a b : string) :
  JS.includes x a = true -> JS.includes x (a +:+ b) = true.
Proof.
  intros H. apply includes_inv in H as (pre & post & ->).
  rewrite !append_assoc. apply includes_intro.
Qed.

Lemma includes_app_r (x a b : string) :
  JS.includes x b = true -> JS.includes x (a +:+ b) = true.
Proof.
  intros H. apply includes_inv in H as (pre & post & ->).
  rewrite <- append_assoc. apply includes_intro.
Qed.

Lemma includes_join (x y sep : string) (l : list string) :
  In y l -> JS.includes x y = true -> JS.includes x (JS.join sep l) = true.
Proof.
  intros Hin Hx. induction l as [|z l IH]; [destruct Hin|].
  destruct l as [|z' l].
  - destruct Hin as [->|[]]. exact Hx.
  - rewrite join_cons_cons. destruct Hin as [->|Hin].
    + now apply includes_app_l.
    + apply includes_app_r, includes_app_r. now apply IH.
Qed.

Lemma join_snoc (sep x : string) (l : list string) :
  exists pre, JS.join sep (l ++ [x]) = pre +:+ x.
Proof.
  induction l as [|y l [pre IH]]; [now exists ""|].
  destruct l as [|z l].
  - exists (y +:+ sep). simpl. now rewrite append_assoc.
  - change ((y :: z :: l) ++ [x]) with (y :: z :: (l ++ [x])).
    change ((z :: l) ++ [x]) with (z :: (l ++ [x])) in IH.
    rewrite join_cons_cons, IH. exists (y +:+ sep +:+ pre).
    now rewrite !append_assoc.
Qed.

Lemma truthy_app_l (a b : string) : JS.truthy a = true -> JS.truthy (a +:+ b) = true.
Proof. destruct a; [discriminate | reflexivity]. Qed.

Lemma joinClauses_first (t : string) (l : list string) :
  JS.truthy t = true -> JS.startsWith t (joinClauses (t :: l)) = true.
Proof.
  intros Ht. unfold joinClauses. simpl. rewrite Ht.
  destruct (List.filter JS.truthy l) as [|y ys].
  - simpl. rewrite <- (append_nil_r t) at 2. apply startsWith_app.
  - rewrite join_cons_cons. apply startsWith_app.
Qed.

Lemma joinClauses_last (x : string) (l : list string) :
  JS.truthy x = true -> JS.endsWith x (joinClauses (l ++ [x])) = true.
Proof.
  intros Hx. unfold joinClauses. rewrite List.filter_app. simpl. rewrite Hx.
  destruct (join_snoc " " x (List.filter JS.truthy l)) as [pre Hpre].
  now apply endsWith_intro with pre.
Qed.

Lemma joinClauses_includes (x y : string) (l : list string) :
  In y l -> JS.truthy y = true -> JS.includes x y = true ->
  JS.includes x (joinClauses l) = true.
Proof.
  intros Hin Hy Hx. unfold joinClauses.
  apply includes_join with y; [|exact Hx].
  apply List.filter_In. now split.
Qed.

(** X8: whatever the level and the analysis, no variant loses its first or
    last clause: a prompt starts with its variant's task sentence and names
    the level's age group; the direct prompt ends with the level's additional
    instructions, the preservation-heavy one with the exception that faces
    keep full detail, the simplification-heavy one with the tie-break rule. *)
Theorem prompts_open_and_close (level : ComplexityLevel)
    (analysis : option AnalysisResult) :
  (JS.startsWith
     ("Convert this photograph into a coloring book page. Black and white line art drawing suitable for "
      +:+ ageDescription (COMPLEXITY_CONFIG level) +:+ ".")
     (directTransform level analysis) = true
   /\ JS.endsWith (additionalInstructions (COMPLEXITY_CONFIG level))
                  (directTransform level analysis) = true)
  /\ (JS.startsWith
        ("Convert this photograph into a coloring book page while maintaining the identity and likeness of every person. Black and white line art for "
         +:+ ageDescription (COMPLEXITY_CONFIG level) +:+ ".")
        (preservationHeavy level analysis) = true
      /\ JS.endsWith
           (additionalInstructions (COMPLEXITY_CONFIG level)
            +:+ " Exception: faces always retain full detail regardless of complexity level.")
           (preservationHeavy level analysis) = true)
  /\ (JS.startsWith
        ("Create a clean, professionally illustrated coloring book page from this photograph. Prioritize clear, unbroken outlines and well-defined coloring regions. Black and white line art for "
         +:+ ageDescription (COMPLEXITY_CONFIG level) +:+ ".")
        (simplificationHeavy level analysis) = true
      /\ JS.endsWith
           (additionalInstructions (COMPLEXITY_CONFIG level)
            +:+ " When in doubt, simplify further — fewer well-defined regions are better than many ambiguous ones.")
           (simplificationHeavy level analysis) = true).
Proof.
  repeat split.
  - unfold directTransform. cbv zeta. now apply joinClauses_first.
  - unfold directTransform. cbv zeta.
    match goal with
    | |- context [joinClauses [?t; ?p; ?s; ?c; ?x]] =>
        change [t; p; s; c; x] with ([t; p; s; c] ++ [x]);
        pose proof (joinClauses_last x [t; p; s; c] eq_refl) as H
    end.
    apply endsWith_inv in H as [pre ->].
    rewrite <- !append_assoc. apply endsWith_app.
  - unfold preservationHeavy. cbv zeta. now apply joinClauses_first.
  - unfold preservationHeavy. cbv zeta.
    match goal with
    | |- context [joinClauses [?t; ?p; ?s; ?c; ?x]] =>
        change [t; p; s; c; x] with ([t; p; s; c] ++ [x]);
        pose proof (joinClauses_last x [t; p; s; c] eq_refl) as H
    end.
    apply endsWith_inv in H as [pre ->].
    rewrite <- !append_assoc. rewrite append_assoc. apply endsWith_app.
  - unfold simplificationHeavy. cbv zeta. now apply joinClauses_first.
  - unfold simplificationHeavy. cbv zeta.
    match goal with
    | |- context [joinClauses [?t; ?p; ?s; ?c; ?x]] =>
        change [t; p; s; c; x] with ([t; p; s; c] ++ [x]);
        pose proof (joinClauses_last x [t; p; s; c] eq_refl) as H
    end.
    apply endsWith_inv in H as [pre ->].
    rewrite <- !append_assoc. rewrite append_assoc. apply endsWith_app.
Qed.

Lemma buildSceneBlock_truthy (a : AnalysisResult) :
  JS.truthy (buildSceneBlock a) = true.
Proof.
  unfold buildSceneBlock. cbv zeta.
  destruct (0 <? length _)%nat; destruct (0 <? length _)%nat; reflexivity.
Qed.

Lemma buildFaceBlock_truthy (a : AnalysisResult) :
  faceRegions a <> [] -> JS.truthy (buildFaceBlock a) = true.
Proof.
  unfold buildFaceBlock. destruct (faceRegions a) as [|f fs]; [congruence|].
  intros _. simpl (length (f :: fs) =? 0)%nat. cbv iota.
  destruct fs as [|f' fs]; simpl map.
  - simpl JS.join. destruct (face_description f); reflexivity.
  - rewrite join_cons_cons. destruct (face_description f); reflexivity.
Qed.

Lemma buildFaceBlock_includes (a : AnalysisResult) (f : FaceRegion) (x : string) :
  In f (faceRegions a) ->
  JS.includes x
    (face_description f +:+ " (" +:+ face_position f +:+ "), features: "
     +:+ JS.join ", " (face_distinguishingFeatures f)) = true ->
  JS.includes x (buildFaceBlock a) = true.
Proof.
  intros Hin Hx. unfold buildFaceBlock.
  destruct (faceRegions a) as [|f0 fs] eqn:E; [destruct Hin|].
  simpl (length (f0 :: fs) =? 0)%nat. cbv iota.
  eapply includes_join; [|exact Hx].
  apply (List.in_map (fun face =>
           face_description face +:+ " (" +:+ face_position face
           +:+ "), features: "
           +:+ JS.join ", " (face_distinguishingFeatures face))).
  exact Hin.
Qed.

(** What the face block holds, every variant's prompt holds. *)
Lemma prompt_includes_faceBlock (variant : PromptVariant) (level : ComplexityLevel)
    (a : AnalysisResult) (x : string) :
  JS.truthy (buildFaceBlock a) = true ->
  JS.includes x (buildFaceBlock a) = true ->
  JS.includes x (VARIANT_BUILDERS variant level (Some a)) = true.
Proof.
  intros Ht Hx.
  destruct variant; simpl VARIANT_BUILDERS;
    unfold directTransform, preservationHeavy, simplificationHeavy;
    cbv zeta; rewrite Ht;
    match goal with
    | |- context [joinClauses [?t; ?p; ?s; ?c; ?z]] =>
        apply joinClauses_includes with p;
        [right; left; reflexivity
        |apply truthy_app_l, buildSceneBlock_truthy
        |]
    end.
  - apply includes_app_r, includes_app_r, includes_app_l. exact Hx.
  - apply includes_app_r.
    match goal with
    | |- context [JS.join "" [?s1; ?s2; ?s3; ?s4]] =>
        apply includes_join with s2; [right; left; reflexivity|]
    end.
    apply includes_app_r, includes_app_l. exact Hx.
  - apply includes_app_r, includes_app_r, includes_app_l. exact Hx.
Qed.

(** X9: when the analysis has face regions, the prompt of every variant,
    and the edit prompt built from it, name each face region: its
    description, its position in brackets and every one of its
    distinguishing features. *)
Theorem prompts_name_every_face (variant : PromptVariant) (level : ComplexityLevel)
    (a : AnalysisResult) (f : FaceRegion) :
  In f (faceRegions a) ->
  forall prompt,
    prompt = fst (buildGenerationPrompt variant level (Some a))
    \/ prompt = buildEditPrompt variant level (Some a) ->
    JS.includes (face_description f) prompt = true
    /\ JS.includes ("(" +:+ face_position f +:+ ")") prompt = true
    /\ (forall d, In d (face_distinguishingFeatures f) ->
                  JS.includes d prompt = true).
Proof.
  intros Hin prompt Hprompt.
  assert (Hne : faceRegions a <> []) by (intros E; rewrite E in Hin; destruct Hin).
  pose proof (buildFaceBlock_truthy a Hne) as Ht.
  assert (Hall : forall x,
             JS.includes x
               (face_description f +:+ " (" +:+ face_position f
                +:+ "), features: "
                +:+ JS.join ", " (face_distinguishingFeatures f)) = true ->
             JS.includes x prompt = true).
  { intros x Hx.
    pose proof (prompt_includes_faceBlock variant level a x Ht
                  (buildFaceBlock_includes a f x Hin Hx)) as H.
    destruct Hprompt as [-> | ->]; [exact H|].
    unfold buildEditPrompt. cbv zeta. now apply includes_app_l. }
  split; [|split].
  - apply Hall, includes_app_l, includes_refl.
  - apply Hall, includes_app_r.
    assert (E : " (" +:+ face_position f +:+ "), features: "
                +:+ JS.join ", " (face_distinguishingFeatures f)
                = " " +:+ ("(" +:+ face_position f +:+ ")")
                  +:+ ", features: "
                  +:+ JS.join ", " (face_distinguishingFeatures f))
      by (rewrite !append_assoc; reflexivity).
    rewrite E. apply includes_intro.
  - intros d Hd. apply Hall.
    do 4 apply includes_app_r.
    apply includes_join with d; [exact Hd | apply includes_refl].
Qed.

Lemma prompts_name_every_face_witness :
  JS.includes "Young Woman with curly hair"
    (buildEditPrompt preservation_heavy adult
       (Some (imageAnalysisToAnalysisResult parkPhoto))) = true
  /\ JS.includes "(top)"
       (buildEditPrompt preservation_heavy adult
          (Some (imageAnalysisToAnalysisResult parkPhoto))) = true
  /\ (forall d, In d ["round glasses"] ->
                JS.includes d
                  (buildEditPrompt preservation_heavy adult
                     (Some (imageAnalysisToAnalysisResult parkPhoto))) = true).
Proof.
  apply (prompts_name_every_face preservation_heavy adult
           (imageAnalysisToAnalysisResult parkPhoto)
           (subjectToFaceRegion womanAtTop)).
  - left. reflexivity.
  - right. reflexivity.
Defined.

(** ** The output file name as a key *)

Lemma append_inj_r (a b p : string) : a +:+ p = b +:+ p -> a = b.
Proof.
  revert b. induction a as [|x a IH]; intros b H.
  - destruct b as [|y b]; [reflexivity|].
    apply (f_equal String.length) in H.
    rewrite append_nil, append_cons in H. simpl in H.
    rewrite length_append in H. lia.
  - destruct b as [|y b].
    + apply (f_equal String.length) in H.
      rewrite append_nil, append_cons in H. simpl in H.
      rewrite length_append in H. lia.
    + rewrite !append_cons in H. injection H as -> H. f_equal. now apply IH.
Qed.

(** X10: for the levels and variants of the enums, two output file names
    are equal exactly when level, variant and model slug are equal; the 30
    names of the page's matrix are pairwise distinct; but two different model
    identifiers can have the same slug and then share their file names. *)
Theorem buildOutputFileName_key :
  (forall (c1 c2 : ComplexityLevel) (v1 v2 : PromptVariant) (m1 m2 : string),
      buildOutputFileName (ComplexityLevel_str c1) (PromptVariant_str v1) m1
      = buildOutputFileName (ComplexityLevel_str c2) (PromptVariant_str v2) m2
      <-> c1 = c2 /\ v1 = v2 /\ modelSlug m1 = modelSlug m2)
  /\ NoDup (map tripleFileName
                (iterationTriples GENERATION_MODELS BATCH_COMPLEXITY_LEVELS
                                  BATCH_VARIANTS))
  /\ (exists m1 m2, m1 <> m2 /\ modelSlug m1 = modelSlug m2).
Proof.
  split; [|split].
  - intros c1 c2 v1 v2 m1 m2. split.
    + unfold buildOutputFileName. intros H.
      destruct c1, c2, v1, v2;
        try (exfalso; cbv [ComplexityLevel_str PromptVariant_str String.append] in H;
             discriminate H);
        (split; [reflexivity|split; [reflexivity|]]);
        cbv [ComplexityLevel_str PromptVariant_str] in H;
        repeat (match type of H with
                | String ?x _ +:+ _ = String ?x _ +:+ _ =>
                    rewrite !append_cons in H; injection H as H
                | "" +:+ _ = "" +:+ _ => rewrite !append_nil in H
                end);
        now apply append_inj_r with ".png".
    + intros (-> & -> & H). unfold buildOutputFileName. now rewrite H.
  - apply (bool_decide_unpack
             (NoDup (map tripleFileName
                         (iterationTriples GENERATION_MODELS
                            BATCH_COMPLEXITY_LEVELS BATCH_VARIANTS)))).
    vm_compute. exact I.
  - exists "fal-ai/a.b", "a-b/edit". split; [discriminate | reflexivity].
Qed.

(** ** More on the batch actions and the batch page *)

Lemma buildOutputFileName_key_witness :
  child = child /\ direct_transform = direct_transform
  /\ modelSlug "fal-ai/nano-banana/edit" = modelSlug "nano-banana".
Proof.
  apply (proj1 (proj1 buildOutputFileName_key child child direct_transform
                  direct_transform "fal-ai/nano-banana/edit" "nano-banana")).
  reflexivity.
Defined.

Lemma page_file_names_distinct :
  NoDup (map tripleFileName
             (iterationTriples GENERATION_MODELS BATCH_COMPLEXITY_LEVELS
                               BATCH_VARIANTS)).
Proof.
  apply (bool_decide_unpack
           (NoDup (map tripleFileName
                       (iterationTriples GENERATION_MODELS
                          BATCH_COMPLEXITY_LEVELS BATCH_VARIANTS)))).
  vm_compute. exact I.
Qed.

Section BatchMore.

Context {W Buffer : Type} (svc : Services W Buffer).
Variable models : list GenerationModel.
Variable complexities : list ComplexityLevel.
Variable variants : list PromptVariant.

Lemma generateImage_returned (params : GenerateIterationParams) (isEdit : bool)
    (w w' : W) (gen : GenerationResult) :
  generateImage svc params isEdit w = (Returned gen, w') ->
  gr_model gen = gip_model params
  /\ (isEdit = true ->
      promptUsed gen
      = buildEditPrompt (gip_variant params) (gip_complexity params)
                        (Some (gip_analysisResult params))
      /\ negativePromptUsed gen = None
      /\ width gen = None /\ height gen = None /\ seed gen = None)
  /\ (isEdit = false ->
      promptUsed gen
      = VARIANT_BUILDERS (gip_variant params) (gip_complexity params)
                         (Some (gip_analysisResult params))
      /\ negativePromptUsed gen = Some NEGATIVE_PROMPT
      /\ gr_description gen = None).
Proof.
  unfold generateImage, andThen. destruct isEdit.
  - destruct (callImageEdit svc _ w) as [[response|e] w1]; [|discriminate].
    destruct (eir_images response) as [|firstImage rest]; [discriminate|].
    intros H. injection H as <- _. simpl.
    repeat split; try reflexivity; discriminate.
  - simpl. destruct (callImageGeneration svc _ w) as [[response|e] w1];
      [|discriminate].
    destruct (igr_images response) as [|firstImage rest]; [discriminate|].
    intros H. injection H as <- _. simpl.
    repeat split; try reflexivity; discriminate.
Qed.

Lemma generateIterationAction_success (params : GenerateIterationParams)
    (w w' : W) (d : GenerateIterationResult) :
  generateIterationAction svc params w = (Success d, w') ->
  gir_outputFileName d
  = buildOutputFileName (ComplexityLevel_str (gip_complexity params))
                        (PromptVariant_str (gip_variant params))
                        (gip_model params)
  /\ exists gen w0 w1,
       generateImage svc params (isEditModel (gip_model params)) w0
       = (Returned gen, w1)
       /\ gir_generation d = jsonGenerationResult svc gen.
Proof.
  unfold generateIterationAction, tryAction, generateIterationSteps,
    andThen, observe.
  destruct (performanceNow svc w) as [t0 w0].
  destruct (generateImage svc params (isEditModel (gip_model params)) w0)
    as [[gen|e] w1] eqn:Hgen; [|discriminate].
  destruct (performanceNow svc w1) as [t1 w2].
  destruct (performanceNow svc w2) as [t2 w3].
  destruct (postProcessColoringPage svc (imageUrl gen) pngOnly w3)
    as [[img|e] w4]; [|discriminate].
  destruct (performanceNow svc w4) as [t3 w5].
  destruct (saveOutputImage svc _ _ img w5) as [[u|e] w6]; [|discriminate].
  intros H. injection H as <- _. simpl. split; [reflexivity|].
  exists gen, w0, w1. split; [exact Hgen | reflexivity].
Qed.

(** X11: what a successful iteration records: the file name of its
    (complexity, variant, model), the model it was asked for, and the prompt
    that was sent: for an edit model the edit prompt, which ends with the
    inline negative constraints, and no separate negative prompt; for any
    other model the variant's prompt and the fixed negative prompt. *)
Theorem generateIterationAction_success_record (params : GenerateIterationParams)
    (w w' : W) (d : GenerateIterationResult) :
  generateIterationAction svc params w = (Success d, w') ->
  gir_outputFileName d
  = buildOutputFileName (ComplexityLevel_str (gip_complexity params))
                        (PromptVariant_str (gip_variant params))
                        (gip_model params)
  /\ gr_model (gir_generation d) = gip_model params
  /\ (isEditModel (gip_model params) = true ->
      promptUsed (gir_generation d)
      = buildEditPrompt (gip_variant params) (gip_complexity params)
                        (Some (gip_analysisResult params))
      /\ JS.endsWith ("MUST NOT include: " +:+ NEGATIVE_PROMPT +:+ ".")
                     (promptUsed (gir_generation d)) = true
      /\ negativePromptUsed (gir_generation d) = None)
  /\ (isEditModel (gip_model params) = false ->
      promptUsed (gir_generation d)
      = VARIANT_BUILDERS (gip_variant params) (gip_complexity params)
                         (Some (gip_analysisResult params))
      /\ negativePromptUsed (gir_generation d) = Some NEGATIVE_PROMPT).
Proof.
  intros H.
  apply generateIterationAction_success in H
    as (Hname & gen & w0 & w1 & Hgen & ->).
  apply generateImage_returned in Hgen as (Hmodel & Hedit & Hgenr).
  cbn [jsonGenerationResult gr_model promptUsed negativePromptUsed].
  split; [exact Hname|]. split; [exact Hmodel|]. split.
  - intros He. destruct (Hedit He) as (Hp & Hn & _).
    split; [exact Hp|]. split; [|exact Hn].
    rewrite Hp. unfold buildEditPrompt. cbv zeta.
    apply endsWith_app_r.
    apply endsWith_intro with " ". reflexivity.
  - intros He. destruct (Hgenr He) as (Hp & Hn & _). now split.
Qed.

Lemma attemptAll_outcomes (init : InitBatchResult) (ts : list Triple) (w : W) :
  Forall (fun o => exists w0 w1,
                     generateIterationAction svc (paramsFor init (fst o)) w0
                     = (snd o, w1))
         (fst (attemptAll svc init ts w)).
Proof.
  revert w. induction ts as [|t ts IH]; intros w; [constructor|].
  simpl. destruct (generateIterationAction svc (paramsFor init t) w)
    as [r w1] eqn:Hact.
  specialize (IH w1). destruct (attemptAll svc init ts w1) as [rs w2].
  simpl in *. constructor; [|exact IH]. exists w, w1. exact Hact.
Qed.

Lemma recordedEntry_fileName (init : InitBatchResult)
    (o : Triple * ActionResult GenerateIterationResult) :
  (exists w0 w1,
      generateIterationAction svc (paramsFor init (fst o)) w0 = (snd o, w1)) ->
  outputFileName (recordedEntry o) = tripleFileName (fst o).
Proof.
  destruct o as [[[m c] v] [d|e]]; simpl; [|reflexivity].
  intros (w0 & w1 & H). apply generateIterationAction_success in H as [H _].
  exact H.
Qed.

Lemma iterationBody_more (init : InitBatchResult) (t : Triple)
    (ls : LoopState W Buffer) :
  let '(model, complexity, variant) := t in
  let ls' := iterationBody svc init model complexity variant ls in
  let attempt := generateIterationAction svc (paramsFor init t) (world ls) in
  allErrors ls' = allErrors ls ++ errorLines [(t, fst attempt)]
  /\ pg_ratings (page ls') = pg_ratings (page ls)
  /\ pg_saved (page ls') = pg_saved (page ls)
  /\ pg_inputFileName (page ls') = pg_inputFileName (page ls)
  /\ pg_analysis (page ls') = pg_analysis (page ls).
Proof.
  destruct t as [[model complexity] variant]. cbv zeta.
  unfold iterationBody, paramsFor.
  destruct (generateIterationAction svc _ (world ls)) as [[data|error] w1];
    simpl; rewrite ?app_nil_r; repeat split; reflexivity.
Qed.

Lemma errorLines_app (a b : list (Triple * ActionResult GenerateIterationResult)) :
  errorLines (a ++ b) = errorLines a ++ errorLines b.
Proof. unfold errorLines. apply List.flat_map_app. Qed.

Lemma fold_attemptAll_more (init : InitBatchResult) (ts : list Triple)
    (ls : LoopState W Buffer) :
  let ls' :=
    fold_left
      (fun ls1 (t : Triple) =>
         let '(model, complexity, variant) := t in
         iterationBody svc init model complexity variant ls1) ts ls in
  allErrors ls'
  = allErrors ls ++ errorLines (fst (attemptAll svc init ts (world ls)))
  /\ (pg_errors (page ls) = allErrors ls -> pg_errors (page ls') = allErrors ls')
  /\ (pg_completedCount (page ls) = length (allResults ls) ->
      pg_completedCount (page ls') = length (allResults ls'))
  /\ pg_ratings (page ls') = pg_ratings (page ls)
  /\ pg_saved (page ls') = pg_saved (page ls)
  /\ pg_inputFileName (page ls') = pg_inputFileName (page ls)
  /\ pg_analysis (page ls') = pg_analysis (page ls).
Proof.
  cbv zeta. revert ls. induction ts as [|t ts IH]; intros ls.
  - simpl. rewrite app_nil_r. repeat split; auto.
  - cbn [fold_left attemptAll].
    pose proof (iterationBody_step svc init t ls) as Hstep.
    pose proof (iterationBody_more init t ls) as Hmore.
    destruct t as [[model complexity] variant]. cbv zeta in Hstep, Hmore.
    set (ls1 := iterationBody svc init model complexity variant ls) in *.
    destruct Hstep as (_ & Hw & _ & Herrs & Hcount & _).
    destruct Hmore as (Hae & Hrat & Hsaved & Hifn & Han).
    destruct (generateIterationAction svc
                (paramsFor init (model, complexity, variant)) (world ls))
      as [r w1] eqn:Hact.
    simpl in Hw, Hae.
    destruct (IH ls1) as (IHae & IHerrs & IHcount & IHrat & IHsaved & IHifn & IHan).
    rewrite Hw in IHae.
    destruct (attemptAll svc init ts w1) as [rs w2] eqn:Hrest.
    cbn [fst snd] in *.
    split.
    { rewrite IHae, Hae. change ((model, complexity, variant, r) :: rs)
        with ([(model, complexity, variant, r)] ++ rs).
      now rewrite errorLines_app, <- app_assoc. }
    split; [intros _; now apply IHerrs|].
    split; [intros _; now apply IHcount|].
    repeat split; congruence.
Qed.

Lemma handleRunAll_success_more (st : PageState Buffer) (w w1 : W)
    (file : File Buffer) (init : InitBatchResult) :
  pg_file st = Some file ->
  initBatchAction svc (Some file) w = (Success init, w1) ->
  let attempts :=
    attemptAll svc init (iterationTriples models complexities variants) w1 in
  let st' := fst (handleRunAll svc models complexities variants st w) in
  pg_errors st' = errorLines (fst attempts)
  /\ pg_completedCount st' = length (pg_results st')
  /\ pg_ratings st' = pg_ratings st
  /\ pg_saved st' = false
  /\ pg_inputFileName st' = Some (ibr_inputFileName init)
  /\ pg_analysis st' = Some (ibr_analysis init)
  /\ pg_timerRunning st' = false.
Proof.
  intros Hfile Hinit.
  destruct (handleRunAll_success svc models complexities variants
              st w w1 file init Hfile Hinit) as (_ & Hres & _).
  cbv zeta in Hres. cbv zeta. rewrite Hres. clear Hres.
  unfold handleRunAll. rewrite Hfile, Hinit, runLoops_flat.
  match goal with
  | |- context [fold_left ?f ?ts ?ls0] =>
      pose proof (fold_attemptAll_more init ts ls0) as H;
      pose proof (fold_attemptAll svc init ts ls0) as H';
      cbv zeta in H, H'; set (ls' := fold_left f ts ls0) in *
  end.
  destruct H as (Hae & Herrs & Hcount & Hrat & Hsaved & Hifn & Han).
  destruct H' as (Hres & _).
  simpl in *.
  split; [rewrite Herrs by reflexivity; exact Hae|].
  split; [rewrite Hcount by reflexivity; now rewrite Hres, length_map|].
  repeat split; assumption.
Qed.

End BatchMore.

Lemma generateIterationAction_success_record_witness :
  gir_outputFileName demoRecord
  = buildOutputFileName (ComplexityLevel_str (gip_complexity demoParams))
                        (PromptVariant_str (gip_variant demoParams))
                        (gip_model demoParams)
  /\ gr_model (gir_generation demoRecord) = gip_model demoParams
  /\ (isEditModel (gip_model demoParams) = true ->
      promptUsed (gir_generation demoRecord)
      = buildEditPrompt (gip_variant demoParams) (gip_complexity demoParams)
                        (Some (gip_analysisResult demoParams))
      /\ JS.endsWith ("MUST NOT include: " +:+ NEGATIVE_PROMPT +:+ ".")
                     (promptUsed (gir_generation demoRecord)) = true
      /\ negativePromptUsed (gir_generation demoRecord) = None)
  /\ (isEditModel (gip_model demoParams) = false ->
      promptUsed (gir_generation demoRecord)
      = VARIANT_BUILDERS (gip_variant demoParams) (gip_complexity demoParams)
                         (Some (gip_analysisResult demoParams))
      /\ negativePromptUsed (gir_generation demoRecord) = Some NEGATIVE_PROMPT).
Proof.
  apply (generateIterationAction_success_record (demoServices true 9 true)
           demoParams 0%nat 1%nat demoRecord).
  vm_compute. reflexivity.
Defined.

Lemma elements_not_nil (analysis : ImageAnalysis) :
  elements (imageAnalysisToAnalysisResult analysis) <> [].
Proof.
  rewrite elements_unfold. cbv zeta.
  destruct (Nat.eqb_spec
              (length (imap subjectElement (subjects analysis)
                       ++ imap (backgroundElement (length (subjects analysis)))
                               (keyElements (background analysis)))) 0)
    as [H0|H0].
  - intros H. apply (f_equal length) in H. rewrite length_app in H.
    simpl in H. lia.
  - intros H. rewrite H in H0. now apply H0.
Qed.

(** X12: without an image [initBatchAction] fails with "No image file
    provided" and touches nothing.  When it succeeds, the vision call was
    made for the URL of the uploaded image, between two reads of the clock;
    what was saved under the batch id, as the last step, is that analysis,
    its mapping and [Math.round] of the difference of the two reads; and
    what is returned is the JSON round trip of what was saved: the mapped
    analysis unchanged (so with at least one element), the image analysis
    and the timing with their numbers as the round trip leaves them. *)
Theorem initBatchAction_outcomes {W Buffer : Type} (svc : Services W Buffer) :
  (forall w : W,
      initBatchAction svc None w = (Failure "No image file provided", w))
  /\ (forall (file : File Buffer) (w w' : W) (init : InitBatchResult),
         initBatchAction svc (Some file) w = (Success init, w') ->
         exists (given : ImageAnalysis) (start stop : float),
           let saved :=
             {| imageAnalysis := given;
                analysisResult := imageAnalysisToAnalysisResult given;
                timingMs := mathRound svc (stop - start)%float |} in
           (exists w0 w1,
               uploadToFalStorage svc file w0 = (Returned (ibr_imageUrl init), w1))
           /\ (exists w0 w1 w2 w3,
                  performanceNow svc w0 = (start, w1)
                  /\ analyzePhoto svc (ibr_imageUrl init) w1 = (Returned given, w2)
                  /\ performanceNow svc w2 = (stop, w3)
                  /\ saveAnalysis svc (ibr_batchId init) saved w3
                     = (Returned tt, w'))
           /\ ibr_analysis init = jsonBatchAnalysis svc saved
           /\ imageAnalysis (ibr_analysis init) = jsonImageAnalysis svc given
           /\ analysisResult (ibr_analysis init)
              = imageAnalysisToAnalysisResult given
           /\ elements (analysisResult (ibr_analysis init)) <> []
           /\ timingMs (ibr_analysis init)
              = jsonNumber svc (mathRound svc (stop - start)%float)).
Proof.
  split; [reflexivity|].
  intros file w w' init.
  unfold initBatchAction, tryAction, initBatchSteps, andThen, observe.
  destruct (newBatchId svc w) as [batchId w1].
  destruct (initBatchDir svc batchId w1) as [[u|e] w2]; [|discriminate].
  destruct (saveInputImage svc batchId _ _ w2) as [[name|e] w3]; [|discriminate].
  destruct (uploadToFalStorage svc file w3) as [[url|e] w4] eqn:Hup;
    [|discriminate].
  destruct (performanceNow svc w4) as [t0 w5] eqn:Ht0.
  destruct (analyzePhoto svc url w5) as [[ia|e] w6] eqn:Han; [|discriminate].
  destruct (performanceNow svc w6) as [t1 w7] eqn:Ht1.
  destruct (saveAnalysis svc batchId _ w7) as [[[]|e] w8] eqn:Hsave;
    [|discriminate].
  intros H. injection H as <- <-.
  exists ia, t0, t1. cbv zeta.
  cbn [jsonInitBatchResult ibr_analysis ibr_imageUrl ibr_batchId
       jsonBatchAnalysis imageAnalysis analysisResult timingMs].
  split; [now exists w3, w4|].
  split; [exists w4, w5, w6, w7; auto|].
  split; [reflexivity|]. split; [reflexivity|]. split; [reflexivity|].
  split; [apply elements_not_nil | reflexivity].
Qed.

Lemma initBatchAction_outcomes_witness :
  imageAnalysis (ibr_analysis demoInit)
  = jsonImageAnalysis (demoServices true 1 true) parkPhoto
  /\ analysisResult (ibr_analysis demoInit)
     = imageAnalysisToAnalysisResult parkPhoto
  /\ elements (analysisResult (ibr_analysis demoInit)) <> [].
Proof.
  destruct (proj2 (initBatchAction_outcomes (demoServices true 1 true))
              demoFile 0%nat 0%nat demoInit eq_refl)
    as (given & start & stop & _ & Hcalls & _ & Hjson & Hmap & Hel & _).
  destruct Hcalls as (w0 & w1 & w2 & w3 & _ & Han & _).
  injection Han as <- _.
  split; [exact Hjson|]. split; [exact Hmap | exact Hel].
Defined.

(** X13: after a full run every entry, of a success or of a failure, is
    named by [buildOutputFileName] of its own complexity, variant and model,
    the names follow the loop order, and on the page's own matrix no two
    entries share a name. *)
Theorem handleRunAll_results_named {W Buffer : Type} (svc : Services W Buffer)
    (models : list GenerationModel) (complexities : list ComplexityLevel)
    (variants : list PromptVariant) (st : PageState Buffer) (file : File Buffer)
    (w w1 : W) (init : InitBatchResult) :
  pg_file st = Some file ->
  initBatchAction svc (Some file) w = (Success init, w1) ->
  let st' := fst (handleRunAll svc models complexities variants st w) in
  map outputFileName (pg_results st')
  = map tripleFileName (iterationTriples models complexities variants)
  /\ Forall (fun r => outputFileName r
                      = buildOutputFileName (br_complexity r) (br_variant r)
                                            (br_model r))
            (pg_results st')
  /\ (models = GENERATION_MODELS -> complexities = BATCH_COMPLEXITY_LEVELS ->
      variants = BATCH_VARIANTS -> NoDup (map outputFileName (pg_results st'))).
Proof.
  intros Hfile Hinit. cbv zeta.
  destruct (handleRunAll_success svc models complexities variants
              st w w1 file init Hfile Hinit) as (_ & Hres & _).
  cbv zeta in Hres. rewrite Hres.
  pose proof (attemptAll_outcomes svc init
                (iterationTriples models complexities variants) w1) as Hout.
  pose proof (attemptAll_keys svc init
                (iterationTriples models complexities variants) w1) as Hkeys.
  set (outcomes := fst (attemptAll svc init
                          (iterationTriples models complexities variants) w1))
    in *.
  assert (Hnames : map outputFileName (map recordedEntry outcomes)
                   = map tripleFileName
                         (iterationTriples models complexities variants)).
  { rewrite <- Hkeys, !List.map_map. apply List.map_ext_in. intros o Ho.
    apply (recordedEntry_fileName svc init).
    rewrite List.Forall_forall in Hout. now apply Hout. }
  split; [exact Hnames|]. split.
  - rewrite List.Forall_map, List.Forall_forall. intros o Ho.
    rewrite List.Forall_forall in Hout.
    rewrite (recordedEntry_fileName svc init o (Hout o Ho)).
    destruct o as [[[m c] v] [d|e]]; reflexivity.
  - intros -> -> ->. rewrite Hnames. apply page_file_names_distinct.
Qed.

Lemma handleRunAll_results_named_witness :
  map outputFileName
      (pg_results
         (fst (handleRunAll (demoServices true 1 true) demoModels [child; adult]
                            [direct_transform] demoPage 0%nat)))
  = ["child--direct-transform--nano-banana.png";
     "adult--direct-transform--nano-banana.png"].
Proof.
  apply (proj1 (handleRunAll_results_named (demoServices true 1 true)
                  demoModels [child; adult] [direct_transform] demoPage
                  demoFile 0%nat 0%nat demoInit eq_refl eq_refl)).
Defined.

Lemma errorLines_length (outcomes : list (Triple * ActionResult GenerateIterationResult)) :
  length (errorLines outcomes)
  = length (List.filter (fun r => match br_error r with
                                  | Some _ => true
                                  | None => false
                                  end) (map recordedEntry outcomes)).
Proof.
  induction outcomes as [|[[[m c] v] [d|e]] os IH]; [reflexivity| |].
  - simpl. exact IH.
  - change (errorLines ((m, c, v, Failure e) :: os))
      with ((iterationLabel (m, c, v) +:+ ": " +:+ e) :: errorLines os).
    simpl. now rewrite IH.
Qed.

(** X14: after a full run the error list of the page has one line per
    failed attempt, in loop order, each the iteration's label, a colon and
    the error; there are as many lines as entries with an error field; and
    the progress counter stands at the number of all iterations, failed ones
    included. *)
Theorem handleRunAll_errors_and_progress {W Buffer : Type}
    (svc : Services W Buffer) (models : list GenerationModel)
    (complexities : list ComplexityLevel) (variants : list PromptVariant)
    (st : PageState Buffer) (file : File Buffer) (w w1 : W)
    (init : InitBatchResult) :
  pg_file st = Some file ->
  initBatchAction svc (Some file) w = (Success init, w1) ->
  let attempts :=
    attemptAll svc init (iterationTriples models complexities variants) w1 in
  let st' := fst (handleRunAll svc models complexities variants st w) in
  pg_errors st' = errorLines (fst attempts)
  /\ length (pg_errors st')
     = length (List.filter (fun r => match br_error r with
                                     | Some _ => true
                                     | None => false
                                     end) (pg_results st'))
  /\ pg_completedCount st' = length (pg_results st')
  /\ Z.of_nat (pg_completedCount st')
     = TOTAL_ITERATIONS models complexities variants.
Proof.
  intros Hfile Hinit. cbv zeta.
  destruct (handleRunAll_success svc models complexities variants
              st w w1 file init Hfile Hinit) as (_ & Hres & _).
  destruct (handleRunAll_success_more svc models complexities variants
              st w w1 file init Hfile Hinit) as (Herrs & Hcount & _).
  cbv zeta in Hres, Herrs, Hcount.
  split; [exact Herrs|]. split; [|split; [exact Hcount|]].
  - rewrite Herrs, Hres. apply errorLines_length.
  - rewrite Hcount, Hres, length_map, attemptAll_length, iterationTriples_length.
    unfold TOTAL_ITERATIONS. f_equal. nia.
Qed.

Lemma handleRunAll_errors_and_progress_witness :
  let st' :=
    fst (handleRunAll (demoServices true 1 true) demoModels [child; adult]
                      [direct_transform] demoPage 0%nat) in
  pg_errors st'
  = ["adult / direct-transform / Nano Banana: fal: service unavailable"]
  /\ pg_completedCount st' = 2%nat.
Proof.
  cbv zeta.
  destruct (handleRunAll_errors_and_progress (demoServices true 1 true)
              demoModels [child; adult] [direct_transform] demoPage demoFile
              0%nat 0%nat demoInit eq_refl eq_refl) as (Herrs & _ & Hcount & _).
  split.
  - rewrite Herrs. vm_compute. reflexivity.
  - rewrite Hcount. vm_compute. reflexivity.
Defined.

(** X15: a run reads the earlier page state only through the selected
    file: started from two states with the same file it ends in the same
    world with the same results, errors, phase, error and progress; and it
    never touches the ratings, which so outlive a new run. *)
Theorem handleRunAll_fresh_start {W Buffer : Type} (svc : Services W Buffer)
    (models : list GenerationModel) (complexities : list ComplexityLevel)
    (variants : list PromptVariant) (st1 st2 : PageState Buffer) (w : W) :
  pg_ratings (fst (handleRunAll svc models complexities variants st1 w))
  = pg_ratings st1
  /\ (pg_file st1 = pg_file st2 ->
      snd (handleRunAll svc models complexities variants st1 w)
      = snd (handleRunAll svc models complexities variants st2 w)
      /\ (pg_file st1 <> None ->
          let a := fst (handleRunAll svc models complexities variants st1 w) in
          let b := fst (handleRunAll svc models complexities variants st2 w) in
          pg_results a = pg_results b
          /\ pg_errors a = pg_errors b
          /\ pg_phase a = pg_phase b
          /\ pg_error a = pg_error b
          /\ pg_completedCount a = pg_completedCount b)).
Proof.
  split.
  - destruct (pg_file st1) as [file|] eqn:Hfile.
    + destruct (initBatchAction svc (Some file) w) as [[init|e] w1] eqn:Hinit.
      * now destruct (handleRunAll_success_more svc models complexities variants
                        st1 w w1 file init Hfile Hinit) as (_ & _ & H & _).
      * unfold handleRunAll. rewrite Hfile, Hinit. reflexivity.
    + unfold handleRunAll. rewrite Hfile. reflexivity.
  - intros Heq. destruct (pg_file st1) as [file|] eqn:Hfile.
    + symmetry in Heq.
      destruct (initBatchAction svc (Some file) w) as [[init|e] w1] eqn:Hinit.
      * destruct (handleRunAll_success svc models complexities variants
                    st1 w w1 file init Hfile Hinit)
          as (Hw1 & Hres1 & Hph1 & _ & _ & Herr1).
        destruct (handleRunAll_success svc models complexities variants
                    st2 w w1 file init Heq Hinit)
          as (Hw2 & Hres2 & Hph2 & _ & _ & Herr2).
        destruct (handleRunAll_success_more svc models complexities variants
                    st1 w w1 file init Hfile Hinit) as (He1 & Hc1 & _).
        destruct (handleRunAll_success_more svc models complexities variants
                    st2 w w1 file init Heq Hinit) as (He2 & Hc2 & _).
        cbv zeta in *. split; [congruence|]. intros _.
        repeat split; congruence.
      * unfold handleRunAll. rewrite Hfile, Heq, Hinit. simpl.
        split; [reflexivity|]. intros _. repeat split; reflexivity.
    + unfold handleRunAll. rewrite Hfile, <- Heq. simpl.
      split; [reflexivity|]. intros H. now contradiction H.
Qed.

Lemma handleRunAll_fresh_start_witness :
  snd (handleRunAll (demoServices true 1 true) demoModels [child; adult]
                    [direct_transform] demoPage 0%nat)
  = snd (handleRunAll (demoServices true 1 true) demoModels [child; adult]
                      [direct_transform]
                      (setRating "old.png" "overall" 5 demoPage) 0%nat).
Proof.
  exact (proj1 (proj2 (handleRunAll_fresh_start (demoServices true 1 true)
                         demoModels [child; adult] [direct_transform] demoPage
                         (setRating "old.png" "overall" 5 demoPage) 0%nat)
                 eq_refl)).
Defined.

(** X16: a rating set on the page is what the saved run carries: the entry
    whose file name was rated has that score under that criterion and, for the
    other criteria, what the page held for that file; entries with another
    file name are saved as they would have been; a rating never adds, drops
    or reorders an entry, and it marks the page as unsaved. *)
Theorem setRating_saved_with_run {Buffer : Type} (models : list GenerationModel)
    (complexities : list ComplexityLevel) (variants : list PromptVariant)
    (st : PageState Buffer) (fileName criterion : string) (value : Z)
    (batchId timestamp : string) (file : File Buffer) :
  let run :=
    makeBatchRun models complexities variants
                 (setRating fileName criterion value st) batchId file timestamp in
  pg_saved (setRating fileName criterion value st) = false
  /\ length (run_results run) = length (pg_results st)
  /\ forall (i : nat) (r : BatchResult),
       pg_results st !! i = Some r ->
       exists r',
         run_results run !! i = Some r'
         /\ outputFileName r' = outputFileName r
         /\ entryKey r' = entryKey r
         /\ br_error r' = br_error r
         /\ (outputFileName r = fileName ->
             br_ratings r' !! criterion = Some value
             /\ forall other, other <> criterion ->
                  br_ratings r' !! other
                  = default ∅ (pg_ratings st !! fileName) !! other)
         /\ (outputFileName r <> fileName ->
             br_ratings r'
             = default (br_ratings r) (pg_ratings st !! outputFileName r)).
Proof.
  cbv zeta. split; [reflexivity|]. split; [simpl; apply length_map|].
  intros i r Hr. eexists. split.
  { simpl. rewrite list_lookup_fmap, Hr. reflexivity. }
  split; [reflexivity|]. split; [reflexivity|]. split; [reflexivity|]. split.
  - intros <-. simpl. rewrite lookup_insert_eq. simpl. split.
    + apply lookup_insert_eq.
    + intros other Hne. now apply lookup_insert_ne.
  - intros Hne. simpl. rewrite lookup_insert_ne by congruence. reflexivity.
Qed.

Lemma setRating_saved_with_run_witness :
  let st :=
    fst (handleRunAll (demoServices true 1 true) demoModels [child; adult]
                      [direct_transform] demoPage 0%nat) in
  exists r',
    run_results
      (makeBatchRun demoModels [child; adult] [direct_transform]
         (setRating "child--direct-transform--nano-banana.png" "overall" 4 st)
         "1a2b3c4d-1700000000000" demoFile "2025-01-01T00:00:00.000Z")
    !! 0%nat = Some r'
    /\ outputFileName r' = "child--direct-transform--nano-banana.png"
    /\ br_ratings r' !! "overall" = Some 4.
Proof.
  cbv zeta.
  set (st := fst (handleRunAll (demoServices true 1 true) demoModels
                    [child; adult] [direct_transform] demoPage 0%nat)).
  assert (Hr : exists r, pg_results st !! 0%nat = Some r
                         /\ outputFileName r
                            = "child--direct-transform--nano-banana.png").
  { eexists. split; [vm_compute; reflexivity | reflexivity]. }
  destruct Hr as (r & Hr & Hname).
  destruct (proj2 (proj2 (setRating_saved_with_run demoModels [child; adult]
                            [direct_transform] st
                            "child--direct-transform--nano-banana.png"
                            "overall" 4 "1a2b3c4d-1700000000000"
                            "2025-01-01T00:00:00.000Z" demoFile)) 0%nat r Hr)
    as (r' & Hr' & Hn' & _ & _ & Hrated & _).
  exists r'. split; [exact Hr'|]. split; [congruence|].
  exact (proj1 (Hrated Hname)).
Defined.

(** X17: [handleSave] does nothing, and saves nothing, when the page has no
    batch id, an empty one, or no file; it never changes the results or the
    ratings; when writing the metadata throws, the error is shown and the
    saved flag is left as it was; and the page can only turn to saved when
    the metadata of exactly the run built from the page was written. *)
Theorem handleSave_outcomes {W Buffer : Type} (svc : Services W Buffer)
    (models : list GenerationModel) (complexities : list ComplexityLevel)
    (variants : list PromptVariant) (st : PageState Buffer) (w : W) :
  (pg_batchId st = None \/ pg_batchId st = Some "" \/ pg_file st = None ->
   handleSave svc models complexities variants st w = (st, w))
  /\ pg_results (fst (handleSave svc models complexities variants st w))
     = pg_results st
  /\ pg_ratings (fst (handleSave svc models complexities variants st w))
     = pg_ratings st
  /\ (forall (batchId now e : string) (file : File Buffer) (w1 w2 : W),
         pg_batchId st = Some batchId -> JS.truthy batchId = true ->
         pg_file st = Some file ->
         isoNow svc w = (now, w1) ->
         saveMetadata svc batchId
           (makeBatchRun models complexities variants st batchId file now) w1
         = (Thrown e, w2) ->
         handleSave svc models complexities variants st w
         = (setError (Some e) st, w2))
  /\ (pg_saved st = false ->
      pg_saved (fst (handleSave svc models complexities variants st w)) = true ->
      exists (batchId now : string) (file : File Buffer) (w1 : W),
        pg_batchId st = Some batchId /\ pg_file st = Some file
        /\ isoNow svc w = (now, w1)
        /\ saveMetadata svc batchId
             (makeBatchRun models complexities variants st batchId file now) w1
           = (Returned tt,
              snd (handleSave svc models complexities variants st w))).
Proof.
  unfold handleSave, saveBatchAction, tryAction, andThen.
  split; [|split; [|split; [|split]]].
  - intros [H|[H|H]]; rewrite H.
    + reflexivity.
    + destruct (pg_file st); reflexivity.
    + destruct (pg_batchId st); reflexivity.
  - destruct (pg_batchId st) as [bid|]; [|reflexivity].
    destruct (pg_file st) as [file|]; [|reflexivity].
    destruct (JS.truthy bid); [|reflexivity].
    destruct (isoNow svc w) as [now w1]. simpl run_id.
    destruct (saveMetadata svc bid _ w1) as [[u|e] w2]; reflexivity.
  - destruct (pg_batchId st) as [bid|]; [|reflexivity].
    destruct (pg_file st) as [file|]; [|reflexivity].
    destruct (JS.truthy bid); [|reflexivity].
    destruct (isoNow svc w) as [now w1]. simpl run_id.
    destruct (saveMetadata svc bid _ w1) as [[u|e] w2]; reflexivity.
  - intros bid now e file w1 w2 Hbid Ht Hfile Hnow Hsave.
    rewrite Hbid, Hfile, Ht, Hnow. simpl run_id. rewrite Hsave. reflexivity.
  - intros Hsaved.
    destruct (pg_batchId st) as [bid|]; [|simpl; congruence].
    destruct (pg_file st) as [file|]; [|simpl; congruence].
    destruct (JS.truthy bid); [|simpl; congruence].
    destruct (isoNow svc w) as [now w1]. simpl run_id.
    destruct (saveMetadata svc bid _ w1) as [[[]|e] w2] eqn:Hsave; simpl.
    + intros _. exists bid, now, file, w1. repeat split; assumption.
    + congruence.
Qed.

Lemma handleSave_outcomes_witness :
  handleSave (demoServices true 1 true) demoModels [child; adult]
             [direct_transform] demoPage 0%nat
  = (demoPage, 0%nat).
Proof.
  apply (proj1 (handleSave_outcomes (demoServices true 1 true) demoModels
                  [child; adult] [direct_transform] demoPage 0%nat)).
  left. reflexivity.
Defined.

(** ** Updating the ratings of a stored run *)

Lemma getProperty_own {A : Type} (object : gmap string A) (name : string)
    (value : A) :
  object !! name = Some value -> getProperty object name = own value.
Proof. unfold getProperty. now intros ->. Qed.

Lemma getProperty_inherited {A : Type} (object : gmap string A) (name : string) :
  object !! name = None -> In name OBJECT_PROTOTYPE_KEYS ->
  getProperty object name = inherited name.
Proof.
  unfold getProperty. intros -> Hin.
  assert (H : existsb (String.eqb name) OBJECT_PROTOTYPE_KEYS = true).
  { apply existsb_exists. exists name. split; [exact Hin|].
    apply String.eqb_refl. }
  now rewrite H.
Qed.

Lemma getProperty_missing {A : Type} (object : gmap string A) (name : string) :
  object !! name = None -> ~ In name OBJECT_PROTOTYPE_KEYS ->
  getProperty object name = missing.
Proof.
  unfold getProperty. intros -> Hnot.
  destruct (existsb (String.eqb name) OBJECT_PROTOTYPE_KEYS) eqn:E;
    [|reflexivity].
  apply existsb_exists in E as (k & Hk & E).
  apply String.eqb_eq in E as ->. contradiction.
Qed.

(** No member of [Object.prototype] has a name ending in [.png]. *)
Lemma png_name_not_inherited (name : string) :
  JS.endsWith ".png" name = true -> ~ In name OBJECT_PROTOTYPE_KEYS.
Proof.
  intros Hpng Hin. simpl in Hin.
  repeat (destruct Hin as [<-|Hin]; [discriminate Hpng|]).
  exact Hin.
Qed.

Lemma rateResult_plain (ratings : gmap string (gmap string Z))
    (r : BatchResult) :
  ~ In (outputFileName r) OBJECT_PROTOTYPE_KEYS ->
  rateResult ratings r = rated (withRatings ratings r).
Proof.
  intros Hnot. unfold rateResult, withRatings.
  destruct (ratings !! outputFileName r) as [given|] eqn:E.
  - rewrite (getProperty_own _ _ _ E). reflexivity.
  - rewrite (getProperty_missing _ _ E Hnot). destruct r; reflexivity.
Qed.

Lemma rateResult_given (ratings : gmap string (gmap string Z))
    (r : BatchResult) (given : gmap string Z) :
  ratings !! outputFileName r = Some given ->
  rateResult ratings r = rated (withRatings ratings r).
Proof.
  intros E. unfold rateResult, withRatings.
  rewrite (getProperty_own _ _ _ E), E. reflexivity.
Qed.

Lemma ratedEntries_map_rated (results : list BatchResult) :
  ratedEntries (map rated results) = Some results.
Proof.
  induction results as [|r results IH]; [reflexivity|].
  simpl. now rewrite IH.
Qed.

Lemma asBatchRun_asRated (run : BatchRun) : asBatchRun (asRated run) = Some run.
Proof.
  unfold asBatchRun, asRated. cbn [rated_results].
  rewrite ratedEntries_map_rated. destruct run; reflexivity.
Qed.

Lemma rateRun_plain (ratings : gmap string (gmap string Z)) (meta : BatchRun) :
  Forall (fun r => ~ In (outputFileName r) OBJECT_PROTOTYPE_KEYS)
         (run_results meta) ->
  rateRun ratings meta
  = asRated
      {| run_id := run_id meta; run_timestamp := run_timestamp meta;
         run_inputFileName := run_inputFileName meta;
         totalIterations := totalIterations meta;
         completedIterations := completedIterations meta;
         failedIterations := failedIterations meta;
         run_results := map (withRatings ratings) (run_results meta) |}.
Proof.
  intros Hall. unfold rateRun, asRated. cbn [run_id run_timestamp
    run_inputFileName totalIterations completedIterations failedIterations
    run_results]. f_equal.
  rewrite List.map_map. apply List.map_ext_in. intros r Hr.
  apply rateResult_plain.
  rewrite List.Forall_forall in Hall. now apply Hall.
Qed.

(** X18: [updateRatings] touches the ratings only: identity and counters of
    the run and the number and order of its entries are kept.  An entry
    whose file name is no member of [Object.prototype] (so every name ending
    in [.png], as all names of the batch page do) gets the ratings given
    under its name and keeps its own when none are given, the same merge the
    batch page applies on save; an entry named like such a member, with no
    ratings given, has its ratings overwritten by that member.  Ratings
    under a name no entry has are ignored, and on a run without such names
    applying the same ratings twice is the same as once. *)
Theorem rateRun_touches_ratings_only (ratings : gmap string (gmap string Z))
    (meta : BatchRun) :
  (rated_id (rateRun ratings meta) = run_id meta
   /\ rated_timestamp (rateRun ratings meta) = run_timestamp meta
   /\ rated_inputFileName (rateRun ratings meta) = run_inputFileName meta
   /\ rated_totalIterations (rateRun ratings meta) = totalIterations meta
   /\ rated_completedIterations (rateRun ratings meta) = completedIterations meta
   /\ rated_failedIterations (rateRun ratings meta) = failedIterations meta)
  /\ length (rated_results (rateRun ratings meta)) = length (run_results meta)
  /\ (forall (i : nat) (r : BatchResult),
         run_results meta !! i = Some r ->
         (~ In (outputFileName r) OBJECT_PROTOTYPE_KEYS
          \/ JS.endsWith ".png" (outputFileName r) = true
          \/ ratings !! outputFileName r <> None ->
          rated_results (rateRun ratings meta) !! i
          = Some (rated (withRatings ratings r)))
         /\ (In (outputFileName r) OBJECT_PROTOTYPE_KEYS ->
             ratings !! outputFileName r = None ->
             rated_results (rateRun ratings meta) !! i
             = Some (ratings_overwritten r (outputFileName r))))
  /\ (forall (name : string) (given : gmap string Z),
         ~ In name (map outputFileName (run_results meta)) ->
         rateRun (<[name := given]> ratings) meta = rateRun ratings meta)
  /\ (Forall (fun r => ~ In (outputFileName r) OBJECT_PROTOTYPE_KEYS)
             (run_results meta) ->
      exists once,
        asBatchRun (rateRun ratings meta) = Some once
        /\ rateRun ratings once = rateRun ratings meta).
Proof.
  split; [repeat split; reflexivity|].
  split; [apply length_map|]. split; [|split].
  - intros i r Hi. cbn [rateRun rated_results].
    rewrite list_lookup_fmap, Hi. cbn [fmap option_fmap option_map].
    split.
    + intros [Hnot|[Hpng|Hgiven]].
      * now rewrite rateResult_plain.
      * rewrite rateResult_plain; [reflexivity|].
        now apply png_name_not_inherited.
      * destruct (ratings !! outputFileName r) as [given|] eqn:E;
          [|contradiction].
        now rewrite (rateResult_given _ _ _ E).
    + intros Hin Hnone. unfold rateResult.
      now rewrite (getProperty_inherited _ _ Hnone Hin).
  - intros name given Hnot. unfold rateRun. f_equal.
    apply List.map_ext_in. intros r Hr. unfold rateResult, getProperty.
    rewrite lookup_insert_ne; [reflexivity|].
    intros ->. apply Hnot. now apply List.in_map.
  - intros Hall. rewrite (rateRun_plain _ _ Hall).
    eexists. split; [apply asBatchRun_asRated|].
    rewrite rateRun_plain.
    + cbn [run_id run_timestamp run_inputFileName totalIterations
           completedIterations failedIterations run_results].
      f_equal. f_equal. rewrite List.map_map. apply List.map_ext.
      intros r. unfold withRatings. cbn [outputFileName br_ratings].
      destruct (ratings !! outputFileName r); reflexivity.
    + cbn [run_results]. apply List.Forall_map.
      rewrite List.Forall_forall in *. intros r Hr.
      cbn [withRatings outputFileName]. now apply Hall.
Qed.

Lemma rateRun_touches_ratings_only_witness :
  rated_results (rateRun ∅ protoNamedRun) !! 0%nat
  = Some (ratings_overwritten
            {| br_model := "fal-ai/nano-banana/edit"; modelLabel := "Nano Banana";
               br_complexity := "adult"; br_variant := "direct-transform";
               outputFileName := "toString";
               generation :=
                 {| imageUrl := "https://fal.media/files/out.png";
                    width := None; height := None;
                    gr_model := "fal-ai/nano-banana/edit"; promptUsed := "";
                    negativePromptUsed := None; seed := None;
                    gr_description := None |};
               generationMs := 1000; postProcessMs := 0;
               br_ratings := ∅; br_error := None |}
            "toString")
  /\ (let run :=
        makeBatchRun demoModels [child; adult] [direct_transform]
          (fst (handleRunAll (demoServices true 1 true) demoModels
                             [child; adult] [direct_transform] demoPage 0%nat))
          "1a2b3c4d-1700000000000" demoFile "2025-01-01T00:00:00.000Z" in
      rateRun (<["other.png" := {["overall" := 5]}]> ∅) run = rateRun ∅ run).
Proof.
  split.
  - apply (proj2 (proj1 (proj2 (proj2 (rateRun_touches_ratings_only
                                          ∅ protoNamedRun))) 0%nat _ eq_refl)).
    + unfold OBJECT_PROTOTYPE_KEYS. cbn [In outputFileName].
      do 8 right. left. reflexivity.
    + reflexivity.
  - cbv zeta.
    apply (proj1 (proj2 (proj2 (proj2 (rateRun_touches_ratings_only ∅ _))))).
    vm_compute. intros [H|[H|[]]]; discriminate H.
Defined.

Section ResultsStoreFacts.

Context {W : Type} (store : MetadataStore W).

(** X19: when the metadata cannot be loaded, [updateRatingsAction] reports
    the failure and nothing is written; when it succeeds, what was written,
    under the same batch id, is the loaded run with the ratings applied. *)
Theorem updateRatingsAction_outcomes (batchId : string)
    (ratings : gmap string (gmap string Z)) (w : W) :
  (forall (e : string) (w1 : W),
      ms_loadMetadata store batchId w = (Thrown e, w1) ->
      updateRatingsAction store batchId ratings w = (Failure e, w1))
  /\ (forall (meta : BatchRun) (e : string) (w1 w2 : W),
         ms_loadMetadata store batchId w = (Returned meta, w1) ->
         ms_saveMetadata store batchId (rateRun ratings meta) w1 = (Thrown e, w2) ->
         updateRatingsAction store batchId ratings w = (Failure e, w2))
  /\ (forall (u : unit) (w' : W),
         updateRatingsAction store batchId ratings w = (Success u, w') ->
         exists (meta : BatchRun) (w1 : W),
           ms_loadMetadata store batchId w = (Returned meta, w1)
           /\ ms_saveMetadata store batchId (rateRun ratings meta) w1
              = (Returned tt, w')).
Proof.
  unfold updateRatingsAction, tryAction, updateRatings, andThen.
  split; [|split].
  - intros e w1 H. now rewrite H.
  - intros meta e w1 w2 H1 H2. now rewrite H1, H2.
  - intros u w'.
    destruct (ms_loadMetadata store batchId w) as [[meta|e] w1]; [|discriminate].
    destruct (ms_saveMetadata store batchId (rateRun ratings meta) w1)
      as [[[]|e] w2] eqn:Hsave; [|discriminate].
    intros H. injection H as _ <-. now exists meta, w1.
Qed.

End ResultsStoreFacts.

Lemma updateRatingsAction_outcomes_witness :
  updateRatingsAction demoStore "1a2b3c4d-1700000000000"
    (<["child--direct-transform--nano-banana.png" := {["overall" := 4]}]> ∅) ∅
  = (Failure "ENOENT: no such file or directory", ∅).
Proof.
  apply (proj1 (updateRatingsAction_outcomes demoStore "1a2b3c4d-1700000000000"
                  _ ∅)).
  reflexivity.
Defined.

Lemma existingRatings_fold_other (l : list BatchResult)
    (acc : gmap string (gmap string Z)) (name : string) :
  ~ In name (map outputFileName l) ->
  fold_left
    (fun acc r =>
       if (0 <? size (br_ratings r))%nat
          && negb (String.eqb (outputFileName r) "__proto__")
       then <[outputFileName r := br_ratings r]> acc
       else acc) l acc !! name
  = acc !! name.
Proof.
  revert acc. induction l as [|a l IH]; intros acc Hnot; [reflexivity|].
  cbn [fold_left]. rewrite IH.
  - destruct ((0 <? size (br_ratings a))%nat
              && negb (String.eqb (outputFileName a) "__proto__"));
      [|reflexivity].
    apply lookup_insert_ne. intros E. apply Hnot. left. exact E.
  - intros Hin. apply Hnot. right. exact Hin.
Qed.

Lemma existingRatings_fold_member (l : list BatchResult)
    (acc : gmap string (gmap string Z)) (r : BatchResult) :
  NoDup (map outputFileName l) ->
  In r l ->
  fold_left
    (fun acc r =>
       if (0 <? size (br_ratings r))%nat
          && negb (String.eqb (outputFileName r) "__proto__")
       then <[outputFileName r := br_ratings r]> acc
       else acc) l acc !! outputFileName r
  = if (0 <? size (br_ratings r))%nat
       && negb (String.eqb (outputFileName r) "__proto__")
    then Some (br_ratings r)
    else acc !! outputFileName r.
Proof.
  revert acc. induction l as [|a l IH]; intros acc Hnd Hin; [destruct Hin|].
  cbn [map] in Hnd. apply NoDup_cons in Hnd as [Hfresh Hrest].
  rewrite list_elem_of_In in Hfresh.
  cbn [fold_left]. destruct Hin as [->|Hin].
  - rewrite existingRatings_fold_other by exact Hfresh.
    destruct ((0 <? size (br_ratings r))%nat
              && negb (String.eqb (outputFileName r) "__proto__"));
      [|reflexivity].
    apply lookup_insert_eq.
  - rewrite (IH _ Hrest Hin).
    destruct ((0 <? size (br_ratings r))%nat
              && negb (String.eqb (outputFileName r) "__proto__"));
      [reflexivity|].
    destruct ((0 <? size (br_ratings a))%nat
              && negb (String.eqb (outputFileName a) "__proto__"));
      [|reflexivity].
    apply lookup_insert_ne. intros E. apply Hfresh. rewrite E.
    now apply List.in_map.
Qed.

(** X20: a results page that loads a run whose file names are distinct and
    are no members of [Object.prototype] (as when they all end in [.png])
    and sends back the ratings it pre-populated, unchanged, leaves the
    stored run exactly as it was. *)
Theorem existingRatings_round_trip (run : BatchRun) :
  NoDup (map outputFileName (run_results run)) ->
  Forall (fun r => ~ In (outputFileName r) OBJECT_PROTOTYPE_KEYS
                   \/ JS.endsWith ".png" (outputFileName r) = true)
         (run_results run) ->
  rateRun (existingRatings run) run = asRated run.
Proof.
  intros Hnd Hnames. destruct run as [id ts inp tot comp failed results].
  unfold rateRun, existingRatings, asRated.
  cbn [run_id run_timestamp run_inputFileName
       totalIterations completedIterations failedIterations run_results] in *.
  f_equal. apply List.map_ext_in. intros r Hr.
  assert (Hnot : ~ In (outputFileName r) OBJECT_PROTOTYPE_KEYS).
  { rewrite List.Forall_forall in Hnames.
    destruct (Hnames r Hr) as [H|H]; [exact H|].
    now apply png_name_not_inherited. }
  rewrite (rateResult_plain _ _ Hnot). f_equal.
  unfold withRatings.
  rewrite (existingRatings_fold_member results ∅ r Hnd Hr).
  destruct ((0 <? size (br_ratings r))%nat
            && negb (String.eqb (outputFileName r) "__proto__")).
  - destruct r; reflexivity.
  - rewrite lookup_empty. destruct r; reflexivity.
Qed.

Lemma existingRatings_round_trip_witness :
  let run :=
    makeBatchRun demoModels [child; adult] [direct_transform]
      (setRating "child--direct-transform--nano-banana.png" "overall" 4
         (fst (handleRunAll (demoServices true 1 true) demoModels [child; adult]
                            [direct_transform] demoPage 0%nat)))
      "1a2b3c4d-1700000000000" demoFile "2025-01-01T00:00:00.000Z" in
  existingRatings run !! "child--direct-transform--nano-banana.png"
  = Some {["overall" := 4]}
  /\ rateRun (existingRatings run) run = asRated run.
Proof.
  cbv zeta. split; [vm_compute; reflexivity|].
  apply existingRatings_round_trip.
  - match goal with |- ?G => apply (bool_decide_unpack G) end.
    vm_compute. exact I.
  - apply List.Forall_forall. intros r Hr. right. revert r Hr.
    apply List.Forall_forall. vm_compute. repeat constructor.
Defined.

(** ** The image route *)

Lemma existsb_badSegment_false (segments : list string) :
  existsb badSegment segments = false ->
  forall s pre post, In s segments ->
    s <> pre +:+ ".." +:+ post /\ s <> pre +:+ "/" +:+ post.
Proof.
  intros Hex s pre post Hin.
  assert (Hs : badSegment s = false).
  { destruct (badSegment s) eqn:E; [|reflexivity].
    rewrite <- Hex. symmetry. apply existsb_exists. now exists s. }
  unfold badSegment in Hs. apply orb_false_iff in Hs as [H1 H2].
  split; intros ->.
  - now rewrite includes_intro in H1.
  - now rewrite includes_intro in H2.
Qed.

Section ImageRouteFacts.

Context {W Buffer : Type}.
Variable RESULTS_DIR : string.
Variable pathJoin : list string -> string.
Variable stat : string -> Eff W bool.
Variable readFile : string -> Eff W Buffer.

(** X21: the image route answers 200, 403 or 404 and nothing else.  A path
    of fewer than two or more than three segments is answered 404, and a
    path with a segment containing [..] or [/] is answered 403, both without
    touching the disk.  An answer of 200 means: two or three segments, none
    containing [..] or [/], the joined path was reported a regular file and
    then read, and the body is what was read, typed by the path's extension
    and marked immutable. *)
Theorem GET_guards (segments : list string) (w : W) :
  In (resp_status (fst (GET RESULTS_DIR pathJoin stat readFile segments w)))
     [200; 403; 404]
  /\ ((length segments < 2 \/ 3 < length segments)%nat ->
      GET RESULTS_DIR pathJoin stat readFile segments w = (notFound, w))
  /\ (forall s pre post,
         (2 <= length segments <= 3)%nat -> In s segments ->
         s = pre +:+ ".." +:+ post \/ s = pre +:+ "/" +:+ post ->
         GET RESULTS_DIR pathJoin stat readFile segments w = (forbidden, w))
  /\ (resp_status (fst (GET RESULTS_DIR pathJoin stat readFile segments w)) = 200 ->
      (2 <= length segments <= 3)%nat
      /\ (forall s pre post, In s segments ->
             s <> pre +:+ ".." +:+ post /\ s <> pre +:+ "/" +:+ post)
      /\ exists (buffer : Buffer) (w1 : W),
           stat (pathJoin (RESULTS_DIR :: segments)) w = (Returned true, w1)
           /\ readFile (pathJoin (RESULTS_DIR :: segments)) w1
              = (Returned buffer,
                 snd (GET RESULTS_DIR pathJoin stat readFile segments w))
           /\ fst (GET RESULTS_DIR pathJoin stat readFile segments w)
              = {| resp_status := 200; resp_body := body_bytes buffer;
                   resp_contentType :=
                     Some (contentTypeOf (pathJoin (RESULTS_DIR :: segments)));
                   resp_cacheControl :=
                     Some "public, max-age=31536000, immutable" |}).
Proof.
  unfold GET.
  destruct ((length segments <? 2)%nat || (3 <? length segments)%nat) eqn:Hlen.
  { split; [simpl; auto|]. split; [reflexivity|].
    split; [|simpl; discriminate].
    intros s pre post Hl.
    apply orb_true_iff in Hlen as [H|H]; apply Nat.ltb_lt in H; lia. }
  apply orb_false_iff in Hlen as [H2 H3].
  apply Nat.ltb_ge in H2. apply Nat.ltb_ge in H3.
  destruct (existsb badSegment segments) eqn:Hbad.
  { split; [simpl; auto|]. split; [intros; lia|].
    split; [reflexivity | simpl; discriminate]. }
  pose proof (existsb_badSegment_false segments Hbad) as Hclean.
  assert (Hforb : forall s pre post,
             (2 <= length segments <= 3)%nat -> In s segments ->
             s = pre +:+ ".." +:+ post \/ s = pre +:+ "/" +:+ post ->
             False).
  { intros s pre post _ Hin [E|E]; destruct (Hclean s pre post Hin); contradiction. }
  cbv zeta. unfold serveFile, andThen, pure.
  destruct (stat (pathJoin (RESULTS_DIR :: segments)) w) as [[[]|e] w1];
    cbn [negb].
  - destruct (readFile (pathJoin (RESULTS_DIR :: segments)) w1)
      as [[buffer|e] w2] eqn:Hread; cbn [negb fst snd].
    + split; [simpl; auto|]. split; [intros; lia|].
      split; [intros s pre post Hl Hin Hs; destruct (Hforb s pre post Hl Hin Hs)|].
      intros _. split; [lia|]. split; [exact Hclean|].
      exists buffer, w1. auto.
    + split; [simpl; auto|]. split; [intros; lia|].
      split; [intros s pre post Hl Hin Hs; destruct (Hforb s pre post Hl Hin Hs)|].
      simpl. discriminate.
  - cbn [negb fst snd]. split; [simpl; auto|]. split; [intros; lia|].
    split; [intros s pre post Hl Hin Hs; destruct (Hforb s pre post Hl Hin Hs)|].
    simpl. discriminate.
  - cbn [fst snd]. split; [simpl; auto|]. split; [intros; lia|].
    split; [intros s pre post Hl Hin Hs; destruct (Hforb s pre post Hl Hin Hs)|].
    simpl. discriminate.
Qed.

End ImageRouteFacts.

Lemma GET_guards_witness :
  demoGET ["b1"; "outputs"; "..%2Fsecret.png"] 0%nat = (forbidden, 0%nat)
  /\ demoGET ["b1"] 0%nat = (notFound, 0%nat)
  /\ exists buffer,
       demoReadFile
         "/srv/test-results/b1/outputs/adult--direct-transform--nano-banana.PNG"
         1%nat
       = (Returned buffer,
          snd (demoGET ["b1"; "outputs";
                        "adult--direct-transform--nano-banana.PNG"] 0%nat)).
Proof.
  split; [|split].
  - apply (proj1 (proj2 (proj2 (GET_guards "/srv/test-results" (JS.join "/")
                                  demoStat demoReadFile _ 0%nat)))
             "..%2Fsecret.png" "" "%2Fsecret.png").
    + simpl. lia.
    + simpl. auto.
    + left. reflexivity.
  - apply (proj1 (proj2 (GET_guards "/srv/test-results" (JS.join "/")
                           demoStat demoReadFile _ 0%nat))).
    simpl. lia.
  - destruct (proj2 (proj2 (proj2 (GET_guards "/srv/test-results" (JS.join "/")
               demoStat demoReadFile
               ["b1"; "outputs"; "adult--direct-transform--nano-banana.PNG"]
               0%nat))) eq_refl) as (_ & _ & buffer & w1 & Hstat & Hread & _).
    exists buffer. injection Hstat as <-. exact Hread.
Defined.

(** The last piece of a split is what follows the last separator. *)
Lemma split_app_last (c : ascii) (base ext : string) :
  allChars (fun a => negb (Ascii.eqb a c)) ext = true ->
  exists first init,
    JS.split c (base +:+ String c ext) = first :: init ++ [ext].
Proof.
  intros Hext. induction base as [|a base IH].
  - rewrite append_nil. simpl. rewrite Ascii.eqb_refl.
    rewrite (split_piece_id c ext Hext). now exists "", [].
  - destruct IH as (first & init & IH).
    rewrite append_cons. simpl. rewrite IH.
    destruct (Ascii.eqb a c).
    + now exists "", (first :: init).
    + now exists (String a first), init.
Qed.

Lemma last_cons_snoc {A : Type} (x y d : A) (l : list A) :
  List.last (x :: l ++ [y]) d = y.
Proof.
  rewrite app_comm_cons. apply List.last_last.
Qed.

(** X22: the content type of a served file is decided by the text after the
    last dot of its path, whatever comes before (dots in the directory or in
    the batch id included) and whatever the case of the letters: [png] gives
    image/png, [jpg] and [jpeg] image/jpeg, [webp] image/webp, and every
    other extension application/octet-stream. *)
Theorem contentTypeOf_last_extension (base ext : string) :
  allChars (fun a => negb (Ascii.eqb a ".")) ext = true ->
  contentTypeOf (base +:+ "." +:+ ext) = contentTypeOf ext
  /\ (contentTypeOf (base +:+ "." +:+ ext) = "image/png"
      <-> JS.toLowerCase ext = "png")
  /\ (contentTypeOf (base +:+ "." +:+ ext) = "image/jpeg"
      <-> JS.toLowerCase ext = "jpg" \/ JS.toLowerCase ext = "jpeg")
  /\ (contentTypeOf (base +:+ "." +:+ ext) = "image/webp"
      <-> JS.toLowerCase ext = "webp")
  /\ (contentTypeOf (base +:+ "." +:+ ext) = "application/octet-stream"
      <-> ~ In (JS.toLowerCase ext) ["png"; "jpg"; "jpeg"; "webp"]).
Proof.
  intros Hext.
  assert (Hdot : contentTypeOf (base +:+ "." +:+ ext)
                 = if String.eqb (JS.toLowerCase ext) "png" then "image/png"
                   else if String.eqb (JS.toLowerCase ext) "jpg"
                           || String.eqb (JS.toLowerCase ext) "jpeg"
                        then "image/jpeg"
                   else if String.eqb (JS.toLowerCase ext) "webp"
                        then "image/webp"
                   else "application/octet-stream").
  { unfold contentTypeOf.
    destruct (split_app_last "." base ext Hext) as (first & init & E).
    change ("." +:+ ext) with (String "." ext).
    rewrite E, last_cons_snoc. reflexivity. }
  split.
  - rewrite Hdot. unfold contentTypeOf.
    rewrite (split_piece_id "." ext Hext). reflexivity.
  - rewrite Hdot.
    destruct (String.eqb_spec (JS.toLowerCase ext) "png") as [->|Hpng].
    { repeat split; intros H; try discriminate H; try reflexivity;
        try (destruct H as [H|H]; discriminate H).
      - exfalso. apply H. simpl. auto. }
    destruct (String.eqb_spec (JS.toLowerCase ext) "jpg") as [->|Hjpg].
    { repeat split; intros H; try discriminate H; try reflexivity; auto.
      - exfalso. apply H. simpl. auto. }
    destruct (String.eqb_spec (JS.toLowerCase ext) "jpeg") as [->|Hjpeg].
    { repeat split; intros H; try discriminate H; try reflexivity; auto.
      - exfalso. apply H. simpl. auto. }
    destruct (String.eqb_spec (JS.toLowerCase ext) "webp") as [->|Hwebp].
    { repeat split; intros H; try discriminate H; try reflexivity;
        try (destruct H as [H|H]; discriminate H).
      - exfalso. apply H. simpl. auto. }
    cbn [orb]. repeat split; intros H; try discriminate H; try contradiction.
    + destruct H; contradiction.
    + intros [E|[E|[E|[E|[]]]]]; congruence.
Qed.

Lemma contentTypeOf_last_extension_witness :
  contentTypeOf
    ("/srv/test-results/v1.2-batch/outputs/adult--direct-transform--nano-banana"
     +:+ "." +:+ "PNG") = "image/png"
  /\ contentTypeOf ("/srv/test-results/b1/outputs/animation" +:+ "." +:+ "gif")
     = "application/octet-stream".
Proof.
  split.
  - apply (proj1 (proj2 (contentTypeOf_last_extension _ "PNG" eq_refl))).
    reflexivity.
  - apply (proj2 (proj2 (proj2 (proj2
             (contentTypeOf_last_extension _ "gif" eq_refl))))).
    simpl. intros [E|[E|[E|[E|[]]]]]; discriminate E.
Defined.

(** ** The single-image pipeline *)

Lemma andThen_observe {W A B} (o : Obs W A) (k : A -> Eff W B) (w : W) :
  andThen (observe o) k w = k (fst (o w)) (snd (o w)).
Proof. unfold andThen, observe. now destruct (o w). Qed.

Lemma andThen_returned {W A B} (m : Eff W A) (k : A -> Eff W B) (w w' : W) (a : A) :
  m w = (Returned a, w') -> andThen m k w = k a w'.
Proof. unfold andThen. now intros ->. Qed.

Lemma andThen_thrown {W A B} (m : Eff W A) (k : A -> Eff W B) (w w' : W)
    (e : string) :
  m w = (Thrown e, w') -> andThen m k w = (Thrown e, w').
Proof. unfold andThen. now intros ->. Qed.

Section PipelineFacts.

Context {W Buffer : Type}.
Variable svc : Services W Buffer.
Variable safeParse : PipelineOptions -> string + PipelineOptions.

(** X23: [generateColoringPage] asks the generation service for a
    [square_hd] image with the prompt and negative prompt of
    [buildGenerationPrompt] and the steps and guidance of
    [getInferenceConfig].  A throw of the service is passed on; a response
    without images throws "Image generation returned no images"; otherwise
    the result describes the first image, names the model fal-ai/fast-sdxl
    and records the prompt and negative prompt that were sent and the seed. *)
Theorem generateColoringPage_outcomes (options : PipelineOptions)
    (analysis : AnalysisResult) (w : W) :
  let request :=
    {| igo_prompt :=
         fst (buildGenerationPrompt (promptVariant options)
                (targetComplexity options) (Some analysis));
       igo_negativePrompt :=
         snd (buildGenerationPrompt (promptVariant options)
                (targetComplexity options) (Some analysis));
       igo_imageSize := "square_hd";
       igo_numInferenceSteps :=
         numInferenceSteps (getInferenceConfig (targetComplexity options));
       igo_guidanceScale :=
         guidanceScale (getInferenceConfig (targetComplexity options)) |} in
  (forall e w', callImageGeneration svc request w = (Thrown e, w') ->
      generateColoringPage svc options analysis w = (Thrown e, w'))
  /\ (forall response w',
         callImageGeneration svc request w = (Returned response, w') ->
         igr_images response = [] ->
         generateColoringPage svc options analysis w
         = (Thrown "Image generation returned no images", w'))
  /\ (forall response firstImage rest w',
         callImageGeneration svc request w = (Returned response, w') ->
         igr_images response = firstImage :: rest ->
         generateColoringPage svc options analysis w
         = (Returned {| imageUrl := gi_url firstImage;
                        width := gi_width firstImage;
                        height := gi_height firstImage;
                        gr_model := "fal-ai/fast-sdxl";
                        promptUsed := igo_prompt request;
                        negativePromptUsed := Some (igo_negativePrompt request);
                        seed := Some (igr_seed response);
                        gr_description := None |}, w')).
Proof.
  cbv zeta. unfold generateColoringPage.
  destruct (buildGenerationPrompt (promptVariant options)
              (targetComplexity options) (Some analysis))
    as [prompt negativePrompt].
  cbn [fst snd igo_prompt igo_negativePrompt].
  split; [|split].
  - intros e w' H. now rewrite (andThen_thrown _ _ _ _ _ H).
  - intros response w' H Himg. rewrite (andThen_returned _ _ _ _ _ H).
    now rewrite Himg.
  - intros response firstImage rest w' H Himg.
    rewrite (andThen_returned _ _ _ _ _ H). now rewrite Himg.
Qed.

End PipelineFacts.

Lemma generateColoringPage_outcomes_witness :
  exists generation,
    generateColoringPage (demoServices true 1 true) (demoOptions fmt_png None)
      (imageAnalysisToAnalysisResult parkPhoto) 0%nat
    = (Returned generation, 1%nat)
    /\ gr_model generation = "fal-ai/fast-sdxl"
    /\ generateColoringPage (demoServices true 1 true) (demoOptions fmt_png None)
         (imageAnalysisToAnalysisResult parkPhoto) 1%nat
       = (Thrown "fal: service unavailable", 2%nat).
Proof.
  eexists. split; [|split].
  - eapply (proj2 (proj2 (generateColoringPage_outcomes
                            (demoServices true 1 true) (demoOptions fmt_png None)
                            (imageAnalysisToAnalysisResult parkPhoto) 0%nat)));
      reflexivity.
  - reflexivity.
  - apply (proj1 (generateColoringPage_outcomes
                    (demoServices true 1 true) (demoOptions fmt_png None)
                    (imageAnalysisToAnalysisResult parkPhoto) 1%nat)).
    reflexivity.
Defined.

Section PipelineRun.

Context {W Buffer : Type}.
Variable svc : Services W Buffer.
Variable safeParse : PipelineOptions -> string + PipelineOptions.

(** X24: [runPipeline] stops at the first stage that fails.  Invalid options
    throw "Invalid pipeline options: " followed by the validator's message
    after one clock read and no service call; a throw of the analysis, of
    the generation or of the post-processing is passed on unchanged, in the
    world it was thrown in, so no later stage runs. *)
Theorem runPipeline_fails_fast (image : string + File Buffer)
    (options : PipelineOptions) (w : W) :
  (forall message, safeParse options = inl message ->
      runPipeline svc safeParse image options w
      = (Thrown ("Invalid pipeline options: " +:+ message),
         snd (performanceNow svc w)))
  /\ (forall validated e w3,
         safeParse options = inr validated ->
         analyzeImage svc image
           (snd (performanceNow svc (snd (performanceNow svc w)))) = (Thrown e, w3) ->
         runPipeline svc safeParse image options w = (Thrown e, w3))
  /\ (forall validated imageAnalysis analysisResult e w3 w6,
         safeParse options = inr validated ->
         analyzeImage svc image (snd (performanceNow svc (snd (performanceNow svc w))))
         = (Returned (imageAnalysis, analysisResult), w3) ->
         generateColoringPage svc validated analysisResult
           (snd (performanceNow svc (snd (performanceNow svc w3))))
         = (Thrown e, w6) ->
         runPipeline svc safeParse image options w = (Thrown e, w6))
  /\ (forall validated imageAnalysis analysisResult generation e w3 w6 w9,
         safeParse options = inr validated ->
         analyzeImage svc image (snd (performanceNow svc (snd (performanceNow svc w))))
         = (Returned (imageAnalysis, analysisResult), w3) ->
         generateColoringPage svc validated analysisResult
           (snd (performanceNow svc (snd (performanceNow svc w3))))
         = (Returned generation, w6) ->
         postProcessColoringPage svc (imageUrl generation)
           (postProcessOptions (Some (po_outputFormat validated))
              (po_outputWidth validated) (po_outputHeight validated))
           (snd (performanceNow svc (snd (performanceNow svc w6))))
         = (Thrown e, w9) ->
         runPipeline svc safeParse image options w = (Thrown e, w9)).
Proof.
  unfold runPipeline. rewrite andThen_observe.
  split; [|split; [|split]].
  - intros message ->. reflexivity.
  - intros validated e w3 -> Ha. rewrite andThen_observe.
    now rewrite (andThen_thrown _ _ _ _ _ Ha).
  - intros validated ia ar e w3 w6 -> Ha Hg. rewrite andThen_observe.
    rewrite (andThen_returned _ _ _ _ _ Ha). cbv beta iota zeta.
    rewrite !andThen_observe.
    now rewrite (andThen_thrown _ _ _ _ _ Hg).
  - intros validated ia ar generation e w3 w6 w9 -> Ha Hg Hp.
    rewrite andThen_observe.
    rewrite (andThen_returned _ _ _ _ _ Ha). cbv beta iota zeta.
    rewrite !andThen_observe.
    rewrite (andThen_returned _ _ _ _ _ Hg).
    rewrite !andThen_observe. unfold postProcess.
    assert (E : match po_outputFormat validated with
                | fmt_png => fmt_png | fmt_jpeg => fmt_jpeg end
                = po_outputFormat validated)
      by (destruct (po_outputFormat validated); reflexivity).
    rewrite E. now rewrite (andThen_thrown _ _ _ _ _ Hp).
Qed.

(** X25: when the options are valid and the three stages return,
    [runPipeline] returns: the final image is what the post-processor made
    of the generated image's URL with threshold 128, 3-pixel denoising and
    the validated format and size; the declared MIME type is image/jpeg
    exactly when that format is jpeg and image/png otherwise; analysis and
    generation are handed back as they were; each stage's time is
    [Math.round] of the binary64 difference of the two clock reads around
    it, and the total that of the last and the first read of the clock, so
    the stage times need not add up to the total. *)
Theorem runPipeline_returns (image : string + File Buffer)
    (options validated : PipelineOptions) (imageAnalysis : ImageAnalysis)
    (analysisResult : AnalysisResult) (generation : GenerationResult)
    (buffer : Buffer) (w w3 w6 w9 : W) :
  safeParse options = inr validated ->
  analyzeImage svc image (snd (performanceNow svc (snd (performanceNow svc w))))
  = (Returned (imageAnalysis, analysisResult), w3) ->
  generateColoringPage svc validated analysisResult
    (snd (performanceNow svc (snd (performanceNow svc w3))))
  = (Returned generation, w6) ->
  postProcessColoringPage svc (imageUrl generation)
    {| pp_threshold := Some 128; pp_denoise := Some true;
       pp_denoiseKernel := Some 3;
       pp_outputFormat := Some (po_outputFormat validated);
       pp_outputWidth := po_outputWidth validated;
       pp_outputHeight := po_outputHeight validated |}
    (snd (performanceNow svc (snd (performanceNow svc w6))))
  = (Returned buffer, w9) ->
  runPipeline svc safeParse image options w
  = (Returned
       {| finalImage := buffer;
          mimeType := match po_outputFormat validated with
                      | fmt_jpeg => "image/jpeg"
                      | fmt_png => "image/png"
                      end;
          out_imageAnalysis := imageAnalysis;
          out_analysis := analysisResult;
          out_generation := generation;
          analysisMs :=
            mathRound svc
              (fst (performanceNow svc w3)
               - fst (performanceNow svc (snd (performanceNow svc w))))%float;
          out_generationMs :=
            mathRound svc
              (fst (performanceNow svc w6)
               - fst (performanceNow svc (snd (performanceNow svc w3))))%float;
          postProcessingMs :=
            mathRound svc
              (fst (performanceNow svc w9)
               - fst (performanceNow svc (snd (performanceNow svc w6))))%float;
          totalMs :=
            mathRound svc
              (fst (performanceNow svc (snd (performanceNow svc w9)))
               - fst (performanceNow svc w))%float |},
     snd (performanceNow svc (snd (performanceNow svc w9)))).
Proof.
  intros Hv Ha Hg Hp. unfold runPipeline.
  rewrite andThen_observe, Hv, andThen_observe.
  rewrite (andThen_returned _ _ _ _ _ Ha). cbv beta iota zeta.
  rewrite !andThen_observe.
  rewrite (andThen_returned _ _ _ _ _ Hg).
  rewrite !andThen_observe. unfold postProcess, postProcessOptions.
  assert (E : match po_outputFormat validated with
              | fmt_png => fmt_png | fmt_jpeg => fmt_jpeg end
              = po_outputFormat validated)
    by (destruct (po_outputFormat validated); reflexivity).
  rewrite E. cbn [default from_option id].
  rewrite (andThen_returned _ _ _ _ _ Hp).
  rewrite !andThen_observe. reflexivity.
Qed.

(** X26: a result of [runPipeline] always carries an analysis that is the
    mapping of the image analysis it carries, with at least one element, a
    generation by fal-ai/fast-sdxl whose negative prompt is the fixed one,
    and one of the two image MIME types. *)
Theorem runPipeline_result_shape (image : string + File Buffer)
    (options : PipelineOptions) (w w' : W) (out : PipelineOutput Buffer) :
  runPipeline svc safeParse image options w = (Returned out, w') ->
  out_analysis out = imageAnalysisToAnalysisResult (out_imageAnalysis out)
  /\ elements (out_analysis out) <> []
  /\ gr_model (out_generation out) = "fal-ai/fast-sdxl"
  /\ negativePromptUsed (out_generation out) = Some NEGATIVE_PROMPT
  /\ (exists validated,
         safeParse options = inr validated
         /\ promptUsed (out_generation out)
            = fst (buildGenerationPrompt (promptVariant validated)
                     (targetComplexity validated) (Some (out_analysis out)))
         /\ mimeType out = match po_outputFormat validated with
                           | fmt_jpeg => "image/jpeg"
                           | fmt_png => "image/png"
                           end).
Proof.
  unfold runPipeline. rewrite andThen_observe.
  destruct (safeParse options) as [message|validated]; [discriminate|].
  rewrite andThen_observe.
  match goal with |- context [andThen (analyzeImage svc image) _ ?w0] =>
    destruct (analyzeImage svc image w0) as [[[ia ar]|e] w3] eqn:Ha
  end; [|rewrite (andThen_thrown _ _ _ _ _ Ha); discriminate].
  rewrite (andThen_returned _ _ _ _ _ Ha). cbv beta iota zeta.
  rewrite !andThen_observe.
  match goal with
  | |- context [andThen (generateColoringPage svc validated ar) _ ?w0] =>
    destruct (generateColoringPage svc validated ar w0)
      as [[generation|e] w6] eqn:Hg
  end; [|rewrite (andThen_thrown _ _ _ _ _ Hg); discriminate].
  rewrite (andThen_returned _ _ _ _ _ Hg). rewrite !andThen_observe.
  match goal with
  | |- context [andThen (postProcess svc ?u ?f ?x ?y) _ ?w0] =>
    destruct (postProcess svc u f x y w0) as [[buffer|e] w9] eqn:Hp
  end; [|rewrite (andThen_thrown _ _ _ _ _ Hp); discriminate].
  rewrite (andThen_returned _ _ _ _ _ Hp). rewrite !andThen_observe.
  intros H. injection H as <- _.
  cbn [out_analysis out_imageAnalysis out_generation mimeType].
  assert (Har : ar = imageAnalysisToAnalysisResult ia).
  { unfold analyzeImage, andThen, pure in Ha.
    destruct (resolveImageUrl svc image) as [[url|e] w1]; [|discriminate].
    destruct (analyzePhoto svc url w1) as [[ia'|e] w2]; [|discriminate].
    now injection Ha as <- <- _. }
  assert (Hgen : gr_model generation = "fal-ai/fast-sdxl"
                 /\ negativePromptUsed generation = Some NEGATIVE_PROMPT
                 /\ promptUsed generation
                    = fst (buildGenerationPrompt (promptVariant validated)
                             (targetComplexity validated) (Some ar))).
  { unfold generateColoringPage in Hg.
    assert (Hneg : snd (buildGenerationPrompt (promptVariant validated)
                          (targetComplexity validated) (Some ar))
                   = NEGATIVE_PROMPT) by reflexivity.
    destruct (buildGenerationPrompt (promptVariant validated)
                (targetComplexity validated) (Some ar)) as [prompt negative].
    cbn [fst snd] in *. subst negative.
    unfold andThen, pure, throw in Hg.
    destruct (callImageGeneration svc) as [[response|e] w5]; [|discriminate].
    destruct (igr_images response) as [|firstImage rest]; [discriminate|].
    injection Hg as <- _. auto. }
  destruct Hgen as (Hm & Hn & Hpr).
  split; [exact Har|]. split; [rewrite Har; apply elements_not_nil|].
  split; [exact Hm|]. split; [exact Hn|].
  exists validated. split; [reflexivity|]. split; [exact Hpr|].
  destruct (po_outputFormat validated); reflexivity.
Qed.

End PipelineRun.

Lemma runPipeline_fails_fast_witness :
  runPipeline (demoServices true 5 true) demoSafeParse
    (inl "https://example.com/family.jpg") (demoOptions fmt_png (Some 0)) 0%nat
  = (Thrown "Invalid pipeline options: Number must be greater than 0", 0%nat)
  /\ runPipeline (demoServices false 5 true) demoSafeParse
       (inr demoFile) (demoOptions fmt_png None) 0%nat
     = (Thrown "Claude API error (529): overloaded", 0%nat)
  /\ runPipeline (demoServices true 0 true) demoSafeParse
       (inr demoFile) (demoOptions fmt_png None) 0%nat
     = (Thrown "fal: service unavailable", 1%nat).
Proof.
  split; [|split].
  - apply (proj1 (runPipeline_fails_fast (demoServices true 5 true) demoSafeParse
                    _ (demoOptions fmt_png (Some 0)) 0%nat)).
    reflexivity.
  - apply (proj1 (proj2 (runPipeline_fails_fast (demoServices false 5 true)
                           demoSafeParse _ (demoOptions fmt_png None) 0%nat))
             (demoOptions fmt_png None)); reflexivity.
  - apply (proj1 (proj2 (proj2 (runPipeline_fails_fast (demoServices true 0 true)
                                  demoSafeParse _ (demoOptions fmt_png None)
                                  0%nat)))
             (demoOptions fmt_png None) parkPhoto
             (imageAnalysisToAnalysisResult parkPhoto) _ 0%nat);
      reflexivity.
Defined.

Lemma runPipeline_returns_witness :
  exists out,
    runPipeline tickingServices demoSafeParse
      (inr demoFile) (demoOptions fmt_jpeg (Some 1024)) 0%nat
    = (Returned out, 8%nat)
    /\ mimeType out = "image/jpeg"
    /\ analysisMs out = 1%float
    /\ out_generationMs out = 1%float
    /\ postProcessingMs out = 1%float
    /\ totalMs out = 2%float.
Proof.
  eexists. split.
  - let run :=
      eval vm_compute in
        (generateColoringPage tickingServices
           (demoOptions fmt_jpeg (Some 1024))
           (imageAnalysisToAnalysisResult parkPhoto) 4%nat) in
    match run with
    | (Returned ?generation, _) =>
        apply (runPipeline_returns tickingServices demoSafeParse
                 (inr demoFile) (demoOptions fmt_jpeg (Some 1024))
                 (demoOptions fmt_jpeg (Some 1024)) parkPhoto
                 (imageAnalysisToAnalysisResult parkPhoto) generation tt
                 0%nat 2%nat 4%nat 6%nat)
    end; vm_compute; reflexivity.
  - repeat split.
Defined.

Lemma runPipeline_result_shape_witness :
  exists out,
    runPipeline (demoServices true 5 true) demoSafeParse
      (inl "https://example.com/family.jpg") (demoOptions fmt_png None) 0%nat
    = (Returned out, 1%nat)
    /\ elements (out_analysis out) <> []
    /\ gr_model (out_generation out) = "fal-ai/fast-sdxl".
Proof.
  let run :=
    eval vm_compute in
      (runPipeline (demoServices true 5 true) demoSafeParse
         (inl "https://example.com/family.jpg") (demoOptions fmt_png None)
         0%nat) in
  match run with
  | (Returned ?o, _) =>
      assert (Hrun : runPipeline (demoServices true 5 true) demoSafeParse
                       (inl "https://example.com/family.jpg")
                       (demoOptions fmt_png None) 0%nat
                     = (Returned o, 1%nat)) by (vm_compute; reflexivity);
      exists o
  end.
  destruct (runPipeline_result_shape (demoServices true 5 true)
              demoSafeParse (inl "https://example.com/family.jpg")
              (demoOptions fmt_png None) 0%nat 1%nat _ Hrun)
    as (_ & Hel & Hm & _).
  split; [exact Hrun|]. split; [exact Hel | exact Hm].
Defined.

(** ** Smaller facts of the batch actions and of the post-processor *)

Lemma Forall_last {A : Type} (P : A -> Prop) (l : list A) (d : A) :
  l <> [] -> Forall P l -> P (List.last l d).
Proof.
  induction l as [|x l IH]; [congruence|]. intros _ Hall.
  apply List.Forall_cons_iff in Hall as [Hx Hl].
  destruct l as [|y l]; [exact Hx|].
  apply IH; [discriminate | exact Hl].
Qed.

(** X27: the extension under which [initBatchAction] stores the uploaded
    image is the text after the last dot of the file's name and holds no dot
    itself; a name without any dot is its own extension, so the fallback
    extension [png] is never used. *)
Theorem fileExtension_after_last_dot (name : string) :
  allChars (fun a => negb (Ascii.eqb a ".")) (fileExtension name) = true
  /\ (forall base ext,
         allChars (fun a => negb (Ascii.eqb a ".")) ext = true ->
         name = base +:+ "." +:+ ext -> fileExtension name = ext)
  /\ (allChars (fun a => negb (Ascii.eqb a ".")) name = true ->
      fileExtension name = name).
Proof.
  unfold fileExtension. split; [|split].
  - apply (Forall_last
             (fun w => allChars (fun a => negb (Ascii.eqb a ".")) w = true)).
    + apply split_nonempty.
    + apply split_pieces.
  - intros base ext Hext ->.
    destruct (split_app_last "." base ext Hext) as (first & init & E).
    change ("." +:+ ext) with (String "." ext).
    rewrite E. apply last_cons_snoc.
  - intros Hname. now rewrite (split_piece_id "." name Hname).
Qed.

Lemma fileExtension_after_last_dot_witness :
  fileExtension "holiday.2024.JPG" = "JPG"
  /\ fileExtension "snapshot" = "snapshot".
Proof.
  split.
  - apply (proj1 (proj2 (fileExtension_after_last_dot "holiday.2024.JPG"))
             "holiday.2024" "JPG"); reflexivity.
  - apply (proj2 (proj2 (fileExtension_after_last_dot "snapshot"))).
    reflexivity.
Defined.

(** X28: which call an iteration makes.  A model of the registry is found
    under its own id and is sent to the edit endpoint exactly when the
    registry declares it an edit model; a model outside the registry is sent
    to the edit endpoint exactly when its id ends with [/edit]; an id ending
    with [/edit] always is. *)
Theorem isEditModel_routing :
  (forall m, In m GENERATION_MODELS ->
      findModel (gm_id m) = Some m
      /\ (isEditModel (gm_id m) = true <-> gm_type m = mt_edit))
  /\ (forall model, findModel model = None ->
         isEditModel model = JS.endsWith "/edit" model)
  /\ (forall stem, isEditModel (stem +:+ "/edit") = true).
Proof.
  split; [|split].
  - intros m Hin. simpl in Hin.
    destruct Hin as [<-|[<-|[<-|[<-|[<-|[]]]]]];
      (split; [reflexivity|]); split; intros H;
      try reflexivity; try discriminate H.
  - intros model Hnone. unfold isEditModel. now rewrite Hnone.
  - intros stem. unfold isEditModel.
    rewrite endsWith_app. apply orb_true_r.
Qed.

Lemma isEditModel_routing_witness :
  isEditModel "acme/restyle/edit" = JS.endsWith "/edit" "acme/restyle/edit"
  /\ findModel "fal-ai/fast-sdxl"
     = Some {| gm_id := "fal-ai/fast-sdxl";
               gm_label := "Fast SDXL (text-to-image)";
               gm_type := mt_text_to_image |}.
Proof.
  split.
  - apply (proj1 (proj2 isEditModel_routing)). reflexivity.
  - apply (proj1 (proj1 isEditModel_routing
                    {| gm_id := "fal-ai/fast-sdxl";
                       gm_label := "Fast SDXL (text-to-image)";
                       gm_type := mt_text_to_image |}
                    ltac:(simpl; auto 10))).
Defined.

(** X29: the chain of image operations each caller of the post-processor
    asks for.  The pipeline always asks for grayscale, a 3-pixel median and
    the threshold at 128.  When neither a width nor a height other than 0
    is given, the encoder follows at once: PNG unless jpeg was asked for.
    When one is given and every given dimension is positive, a resize comes
    before the encoder.  When one is given and a given dimension is 0 or
    negative (a width of 0 beside a height, say), the resize call throws and
    no encoder is chained.  An iteration of the batch always gets grayscale,
    median 3, threshold 128 and the PNG encoder, and never a resize. *)
Theorem postProcess_callers_chain (outputFormat : option OutputFormat)
    (outputWidth outputHeight : option Z) :
  let encoder :=
    match outputFormat with Some fmt_jpeg => op_jpeg | _ => op_png end in
  let chain :=
    postProcessOps (postProcessOptions outputFormat outputWidth outputHeight) in
  ((forall n, outputWidth = Some n -> n = 0) ->
   (forall n, outputHeight = Some n -> n = 0) ->
   chain = Some [op_grayscale; op_median 3; op_threshold 128; encoder])
  /\ ((exists n, n <> 0 /\ (outputWidth = Some n \/ outputHeight = Some n)) ->
      (forall n, outputWidth = Some n -> 0 < n) ->
      (forall n, outputHeight = Some n -> 0 < n) ->
      chain = Some [op_grayscale; op_median 3; op_threshold 128;
                    op_resize outputWidth outputHeight; encoder])
  /\ ((exists n, n <> 0 /\ (outputWidth = Some n \/ outputHeight = Some n)) ->
      (exists n, n <= 0 /\ (outputWidth = Some n \/ outputHeight = Some n)) ->
      chain = None)
  /\ postProcessOps pngOnly
     = Some [op_grayscale; op_median 3; op_threshold 128; op_png].
Proof.
  cbv zeta.
  assert (Hchain :
            postProcessOps (postProcessOptions outputFormat outputWidth outputHeight)
            = if (truthyNumber outputWidth || truthyNumber outputHeight)
                 && negb (resizeAccepts outputWidth && resizeAccepts outputHeight)
              then None
              else Some ([op_grayscale; op_median 3; op_threshold 128]
                         ++ (if truthyNumber outputWidth || truthyNumber outputHeight
                             then [op_resize outputWidth outputHeight] else [])
                         ++ [match outputFormat with
                             | Some fmt_jpeg => op_jpeg
                             | _ => op_png
                             end])).
  { unfold postProcessOps, postProcessOptions. simpl.
    destruct (_ && negb _); [reflexivity|].
    destruct outputFormat as [[]|]; reflexivity. }
  assert (Htruthy : (exists n, n <> 0
                               /\ (outputWidth = Some n \/ outputHeight = Some n)) ->
                    truthyNumber outputWidth || truthyNumber outputHeight = true).
  { intros (n & Hn & [->| ->]); apply Z.eqb_neq in Hn; simpl; rewrite Hn;
      [reflexivity | apply orb_true_r]. }
  split; [|split; [|split]].
  - intros Hw Hh. rewrite Hchain.
    assert (E : truthyNumber outputWidth || truthyNumber outputHeight = false).
    { destruct outputWidth as [a|], outputHeight as [b|]; simpl;
        try rewrite (Hw a eq_refl); try rewrite (Hh b eq_refl); reflexivity. }
    rewrite E. reflexivity.
  - intros Hgiven Hw Hh. rewrite Hchain, (Htruthy Hgiven).
    assert (E : resizeAccepts outputWidth && resizeAccepts outputHeight = true).
    { apply andb_true_iff. split.
      - destruct outputWidth as [a|]; [|reflexivity].
        apply Z.ltb_lt. now apply Hw.
      - destruct outputHeight as [b|]; [|reflexivity].
        apply Z.ltb_lt. now apply Hh. }
    rewrite E. reflexivity.
  - intros Hgiven (n & Hn & Hwhere). rewrite Hchain, (Htruthy Hgiven).
    assert (E : resizeAccepts outputWidth && resizeAccepts outputHeight = false).
    { apply andb_false_iff.
      destruct Hwhere as [->| ->]; [left|right]; simpl; apply Z.ltb_ge; exact Hn. }
    rewrite E. reflexivity.
  - reflexivity.
Qed.

Lemma postProcess_callers_chain_witness :
  postProcessOps (postProcessOptions (Some fmt_jpeg) (Some 0) (Some 1024)) = None
  /\ postProcessOps (postProcessOptions None (Some 800) None)
     = Some [op_grayscale; op_median 3; op_threshold 128;
             op_resize (Some 800) None; op_png].
Proof.
  split.
  - apply (proj1 (proj2 (proj2 (postProcess_callers_chain (Some fmt_jpeg)
                                  (Some 0) (Some 1024))))).
    + exists 1024. split; [lia | now right].
    + exists 0. split; [lia | now left].
  - apply (proj1 (proj2 (postProcess_callers_chain None (Some 800) None))).
    + exists 800. split; [lia | now left].
    + intros n H. injection H as <-. lia.
    + intros n H. discriminate H.
Defined.
